(* ===== verification/_CoqProject ===== *)
-Q . S2P
Prelude.v
Calendar.v
DateString.v
Availability.v
Table.v
Store.v
BlockDate.v
SlotActions.v
Modal.v
ModalView.v
Scheduler.v
DayToggle.v
Liveness.v
CalendarGuard.v
ModalTheorems.v
SlotFlags.v
Scenarios.v
AppointmentDetails.v
