(* ===== verification/Prelude.v ===== *)
(** * Verification of the syncli-agenda doctor-calendar engine

    The repository is a Next.js clinic scheduler.  The part verified here is
    the engine that decides, for one doctor, which days and which 30-minute
    time slots an administrator can block or open:

    - [src/actions/block-date.ts/index.ts] ([blockDate]): a server action that
      checks the caller's clinic against the input, normalises a
      ["YYYY-MM-DD"] string to the start of that day in the fixed operating
      timezone ["America/Fortaleza"], and inserts (ON CONFLICT DO NOTHING on
      [(doctorId, date)]) or deletes a row of [blockedDatesTable];
    - [src/app/(protected)/doctors/_components/doctor-block-calendar-modal.tsx]
      ([DoctorBlockCalendarModal]): the client component that keeps the
      fetched full-day blocks, ad-hoc grants and slot blocks, derives the day
      predicates ([isDateBlocked], [isDateAdHocAvailable],
      [isDateWithinDoctorAvailability], [isDefaultUnavailable],
      [isSelectedDayManagable]), expands a day into slot ticks with a
      [while] loop, merges them with the blocked times, and after a slot
      toggle applies an optimistic update followed by a delayed refetch;
    - [src/actions/get-appointment-details/index.ts]: a four-table inner join
      returning the first matching appointment, or [null] on any error.

    The actions [adHocAvailability] and [blockTimeSlot], the helper
    [getDayJsAvailability] and the two read routes are imported by the modal
    but are not part of the sources; they are modelled from the
    specification (marked spec-modelled in the manifest).

    ** Library layout (dependency order)

    - [Prelude] (this file): the scope [syncli_scope] with the clock notation
      [h ʰ m], the tactics [zcase] (case analysis on [Z] comparisons) and
      [concrete] (a hypothesis at a closed input, by evaluation), the hint
      databases [syncli] and [syncli_rw], generic lemmas on [Z] division,
      bounded checks over [seq], [NoDup] of mapped lists, membership of
      shifted day numbers, the reflexive-transitive closure [star] with its
      invariant principle, and [eventually] (every run reaches a goal, as
      CTL's AF) with its proof from a decreasing measure ([measure_wf],
      [measure_eventually]).
    - [Calendar]: instants as [Z] seconds, zones as fixed UTC offsets,
      [day_in], [midnight], [start_of_day], [isSame_day], [getDay]; the
      ["HH:mm"] formatter; the dayjs parse of ["YYYY-MM-DD"]
      ([date_regex], [make_day], [js_year], [normalize_date]).
    - [DateString]: date-fns [format(date, "yyyy-MM-dd")] ([civil_from_days],
      [addLeadingZeros]) and its round trip with [normalize_date].
    - [Availability]: [Doctor], [isDateWithinDoctorAvailability] (lines
      97-110 of the modal), [getDayJsAvailability] (spec-modelled) and the
      slot loop of lines 277-292 as the fuelled [slot_loop].
    - [Table]: a table as a list of rows with a conflict key, [INSERT ... ON
      CONFLICT DO NOTHING], [DELETE ... WHERE], the unique-key invariant, and
      the refinement of rows by the set [view] the read routes see, with
      [Proper] instances for the setoid [view_equiv].
    - [Store]: the rows of the override tables, the world (tables and the
      [revalidatePath] log), the state-and-exception monad [Act], and the
      read routes (spec-modelled).
    - [BlockDate]: the whole of [src/actions/block-date.ts/index.ts]:
      [blockDateSchema_parse], [authorize], [blocked_after] (lines 56-80),
      [blockDate_body], [blockDate].
    - [SlotActions]: [adHocAvailability] and [blockTimeSlot] (spec-modelled,
      with [blockDate]'s shape).
    - [Modal]: the hooks of [DoctorBlockCalendarModal] as [ModalState], each
      callback and effect as a function returning the new state and the work
      it starts ([Pending]), and the whole system (server world, dialog,
      in-flight work) as the step relation [sys_step].
    - [ModalView]: what the JSX renders (lines 408-551): the header, the
      calendar's props and day modifiers, the controls of the selected day,
      the slot column.
    - [Scheduler]: an executable interpreter of [sys_step] ([exec_choice],
      [exec_script]), proved equal to it.
    - [DayToggle]: the day toggle end to end, as the script of four
      scheduler choices [toggle_day_script] (the click at line 468, the
      server's [blockDate], its reply, the refetch of the day sets), with the
      store-side lemmas (a block lists the day, an unblock clears it, rows
      stay at midnights: [dates_normalized]).
    - [Liveness]: the weight of the work in flight ([pending_weight],
      [work]) and the background steps of the scheduler (every [Choice] but
      a user event); termination and drain of the background work.
    - [CalendarGuard]: the calendar's past-date filter as a restriction of
      the scheduler ([calendar_step]) and what it guarantees.
    - [ModalTheorems]: the invariant of [sys_step] and the reconciliation
      theorems.
    - [SlotFlags]: the agreement of the slot flags with [blockedTimeSlots]
      as a second invariant of [sys_step], and what a slot click sends.
    - [Scenarios]: the slot fetch that lands on a blocked day, stated for
      every state and witnessed by a reachable one, and concrete runs of
      the races and of the specification's example evaluated by
      [vm_compute].
    - [AppointmentDetails]: [src/actions/get-appointment-details/index.ts].

    ** What is proved

    - Availability: the two-branch weekday test is the cyclic interval
      [availableFromWeekDay .. availableToWeekDay]; the slot loop stops by its
      own condition and returns the 30-minute ticks of the half-open window,
      labels independent of the date and browser zone, pairwise distinct
      within a day; an empty window gives no slot.
    - blockDate: refinement of the table by the abstract toggle
      ([abs_insert]/[abs_delete]); authorisation failures and store errors
      change nothing; idempotence; exactly one row per target after a block;
      block/unblock round trip; every run keeps the unique indexes.
    - Date strings: what the modal prints for a day (years 100 to 9999) the
      schema's regex accepts and the server reads back as the midnight of
      that day.
    - The day toggle end to end: in the operating zone, one click on the
      day button, the action, its reply and the refetch always run to the
      end and flip the day's block on screen, in agreement with the blocked
      dates route on the store the action wrote, clearing the reason,
      toasting the new state and leaving nothing pending
      ([toggle_day_roundtrip]); it composes [Modal], [BlockDate], [Table],
      [Store] and [Scheduler].
    - Reconciliation: every reachable state has a slot list that is empty or
      a full tick sequence of some day, and every in-flight slot fetch carries
      its own date's labels (rule induction on [sys_step]); a resolving slot
      fetch yields exactly the server's view; the optimistic update equals
      the refetch when no other write interleaves; block then unblock of a
      slot restores the view; a blocked day clears the slot column.
    - Slot flags: in every reachable state each shown slot is flagged
      exactly when its label is in [blockedTimeSlots], every label is an
      ["HH:mm"] minute of the day, so a click sends the opposite of what the
      button shows with a time the schema accepts; a day has one slot per
      started half hour of the window, at most 48 for a window within a
      day.
    - Concurrency: two committed day toggles of one clinic in the same
      direction leave the same blocks, as the read routes see them, in
      either order (section 5 of the specification); across clinics they
      do not.
    - Termination and liveness: every step other than a user event lowers
      the weight of the work in flight, so without input the background
      work stops, and in whatever order it completes it ends with nothing
      pending and every control enabled.
    - Rendering: which day the calendar paints and which day [isDateBlocked]
      tests, as functions of the two zones; a slot click is enabled in
      [sys_step] exactly when the JSX renders an enabled button for it.
    - Scheduler: scripts of choices are exactly the runs of [sys_step]
      ([exec_choice_spec]).
    - The calendar's filter: in every run it lets through, the selected day
      and the date of every request in flight are after today (unless the
      dialog was opened exactly at midnight).
    - Errors: a failed slot fetch empties the slot column beside its toast;
      a store exception or a failed authorisation changes nothing on the
      server, and end to end (click, action, reply) leaves the dialog as it
      was but for one error toast, with no refetch ([toggle_day_failure]).
    - Appointment details: sound, complete (null exactly when nothing joins)
      and, under the primary keys, independent of the join order.

    ** Findings

    - The conflict target [(doctorId, date)] omits [clinicId]: a clinic's
      block is silently dropped when another clinic blocked the same doctor
      and day ([blockDate_conflict_other_clinic]).
    - The date regex admits impossible dates, which dayjs rolls over
      ([blockDate_impossible_date_aliases]); years 0000-0099 are read as
      1900-1999.
    - [isDateBlocked] tests the day in Fortaleza while the calendar passes
      and paints local days: only a browser at UTC-3 sees one day; from UTC a
      blocked day cannot be unblocked from its own cell
      ([isDateBlocked_fetched], [day_modifiers_blocked_fetched],
      [utc_browser_unblock_misses_day]).
    - A slot toggle refreshes no day-level state, against section 4.3 of the
      specification ([blockSlot_path_keeps_day_sets]).
    - Fetches are never cancelled and the slot callback ignores the day
      sets: whenever a slot fetch of the selected day is in flight when the
      day gets blocked, it can land afterwards and fill the column with a
      grid of disabled buttons instead of the whole-day message, against
      section 4.3 of the specification ([slot_fetch_lands_on_blocked_day]);
      a stale response can also show another date's flags
      ([fetchSlots_authoritative]; the run [stale_reselection_overwrites]).
    - [block-date.ts] loads only dayjs's [timezone] plugin (line 15), which
      relies on the [utc] plugin that only the client modal loads (line
      32); unless another server module loads it, lines 50-53 throw before
      the [try].  [normalize_date] assumes the plugin is present.
    - A failed slot fetch blanks the slot column, which then says no slot is
      configured, against section 7 of the specification (fail-soft, prior
      state displayed) ([read_failures_displayed]).
    - Today can never be managed from the dialog: its cell is disabled as
      soon as its midnight has passed ([calendar_guard_future_days]).

    ** Modelling choices, bounds and fuel

    Instants are whole seconds (the code never uses milliseconds); a zone is
    a fixed offset, exact for America/Fortaleza (UTC-3 since 17 February
    2002 in the tz database) and an assumption for the browser's zone.  The
    slot loop runs on fuel [(end - start) / 1800 + 1]: each iteration
    advances 1800 s, so the loop always stops by its condition first
    ([slot_loop_fuel_enough]).  The calendar arithmetic is checked by
    computation over one 400-year era (146097 days, the period of the
    Gregorian calendar), so the day-number round trip holds for every day;
    the four-digit padding is checked over its 10000 values, and the string
    round trip holds for the years 100 to 9999 (dayjs reads 0 to 99 as 1900
    to 1999, and the regex admits no fifth digit).
    React effects run right after the state change that alters one of their
    dependencies; promises, server actions and the 50 ms timer are pending
    items of [sys_step] that resolve in any order, which over-approximates
    the browser's scheduling.  The background work is weighed by what its
    completion can start: a slot fetch 1, a day-set fetch or the timer 2, a
    reply 3, a call 4; the slot effect starts at most one slot fetch and a
    reply at most a day-set fetch or a timer, so the weight drops at each
    background step and bounds the length of every background run.  The
    calendar's [date < new Date()] filter is a restriction of the scheduler
    ([calendar_step]) at the moment [now] the dialog was opened: time only
    moves on, so the real runs are among the guarded ones; [sys_step]
    itself lets any date be selected, so its invariants hold a fortiori.

    ** Not modelled

    Authentication ([auth.api.getSession], an input of [Env]); toast
    delivery, [console.error] and the internals of [revalidatePath] (pure
    I/O, kept as logs); drizzle and Postgres (a statement commits atomically
    or throws); layout, class names and icons of the JSX, and the ["PPP"]
    caption of the selected day (date-fns's pt-BR long format, which
    decides nothing the dialog does and names the day [formatDate] sends);
    a change of the [doctor] prop while the dialog is mounted (the effects'
    dependency lists, lines 317-322 and 334): the model fixes the doctor of
    a dialog.

    ** Left for later sittings

    The ad-hoc action's theorems mirroring [blockDate]'s (that action is
    not among the sources). *)

From stdpp Require Import base list gmap strings.
From Stdlib Require Import ZArith Lia.

Declare Scope syncli_scope.
Delimit Scope syncli_scope with syncli.

(** A time of day written [9 ʰ 30], in seconds after midnight. *)
Definition clock (h m : Z) : Z := (h * 3600 + m * 60)%Z.
Notation "h 'ʰ' m" := (clock h m) (at level 9, m at level 9) : syncli_scope.

Create HintDb syncli.
Create Rewrite HintDb syncli_rw.

(** Case analysis on the boolean comparisons of [Z] that the code's
    conditions become. *)
Ltac zcase :=
  repeat match goal with
  | |- context [Z.ltb ?a ?b] => destruct (Z.ltb_spec a b)
  | |- context [Z.leb ?a ?b] => destruct (Z.leb_spec a b)
  | |- context [Z.eqb ?a ?b] => destruct (Z.eqb_spec a b)
  | H : context [Z.ltb ?a ?b] |- _ => destruct (Z.ltb_spec a b)
  | H : context [Z.leb ?a ?b] |- _ => destruct (Z.leb_spec a b)
  | H : context [Z.eqb ?a ?b] |- _ => destruct (Z.eqb_spec a b)
  end.

Section Star.
Context {A : Type} (R : A -> A -> Prop).

Inductive star : A -> A -> Prop :=
| star_refl a : star a a
| star_step a b c : R a b -> star b c -> star a c.

Lemma star_one (a b : A) : R a b -> star a b.
Proof. intros H. eapply star_step; [exact H | constructor]. Qed.

Lemma star_trans (a b c : A) : star a b -> star b c -> star a c.
Proof. induction 1; [done |]. intros H'. eapply star_step; eauto. Qed.

(** An invariant of every step holds along every sequence of steps. *)
Lemma star_invariant (P : A -> Prop) (a b : A) :
  (forall x y, P x -> R x y -> P y) -> P a -> star a b -> P b.
Proof. intros Hstep Ha Hs. induction Hs; eauto. Qed.

(** [eventually P a]: every run of [R] from [a] reaches a state of [P],
    and is never stuck before it (the inevitability of CTL's [AF P]). *)
Inductive eventually (P : A -> Prop) : A -> Prop :=
| ev_now a : P a -> eventually P a
| ev_later a : (exists b, R a b) -> (forall b, R a b -> eventually P b) -> eventually P a.

Section Measure.
Variable m : A -> nat.
Hypothesis m_decreases : forall a b, R a b -> m b < m a.

(** A step relation that decreases a natural measure has no infinite run. *)
Lemma measure_wf : well_founded (fun b a => R a b).
Proof.
  intros a. remember (m a) as n eqn:Hn. revert a Hn.
  induction n as [n IH] using lt_wf_ind. intros a ->.
  constructor. intros b Hr. apply (IH (m b)); [by apply m_decreases | done].
Qed.

(** With progress outside [P], every run reaches [P] ([intro_wf] of the
    interaction-trees library, by induction on the measure). *)
Lemma measure_eventually (P : A -> Prop) :
  (forall a, ~ P a -> exists b, R a b) -> (forall a, (P a) \/ ~ P a) ->
  forall a, eventually P a.
Proof.
  intros Hprog Hdec a. induction a as [a IH] using (well_founded_ind measure_wf).
  destruct (Hdec a) as [Hp | Hn]; [by apply ev_now |].
  apply ev_later; [by apply Hprog | intros b Hr; by apply IH].
Qed.

(** Some run reaches [P]. *)
Lemma eventually_star (P : A -> Prop) (a : A) :
  eventually P a -> exists b, star a b /\ P b.
Proof.
  induction 1 as [a Hp | a [b Hb] _ IH]; [exists a; split; [constructor | done] |].
  destruct (IH b Hb) as (c & Hs & Hc). exists c. split; [by eapply star_step | done].
Qed.
End Measure.
End Star.

Lemma star_mono {A} (R R' : A -> A -> Prop) (a b : A) :
  (forall x y, R x y -> R' x y) -> star R a b -> star R' a b.
Proof. intros HR. induction 1; [constructor | eapply star_step; eauto]. Qed.

(** Discharges a hypothesis of a theorem at a closed input by evaluating
    the definitions. *)
Ltac concrete :=
  first [ reflexivity | lia | vm_compute; reflexivity | vm_compute; discriminate
        | vm_compute; lia | by vm_compute | by repeat constructor
        | vm_compute; repeat constructor; vm_compute; lia
        | apply (bool_decide_unpack _); vm_compute; exact I ].

Section Generic.
Open Scope Z_scope.

(** Floor division by a positive period of [q * b + r] with [r] in range. *)
Lemma div_mul_add_small (q r b : Z) :
  0 <= r < b -> (q * b + r) / b = q.
Proof.
  intros Hr. rewrite Z.add_comm, Z.div_add by lia.
  rewrite Z.div_small by lia. lia.
Qed.

Lemma mod_mul_add_small (q r b : Z) :
  0 <= r < b -> (q * b + r) mod b = r.
Proof.
  intros Hr. rewrite Z.add_comm, Z.mod_add by lia. apply Z.mod_small; lia.
Qed.
End Generic.

(** A bounded universal statement checked by computation. *)
Lemma forallb_seq_spec (f : nat -> bool) (a n : nat) :
  forallb f (seq a n) = true -> forall k, a <= k < a + n -> f k = true.
Proof.
  intros H k Hk. apply forallb_forall with (x := k) in H; [done |].
  apply in_seq. lia.
Qed.

(** [map] keeps [NoDup] when the function is injective on the list. *)
Lemma NoDup_map_inj_on {A B} (f : A -> B) (l : list A) :
  (forall x y, In x l -> In y l -> f x = f y -> x = y) ->
  NoDup l -> NoDup (map f l).
Proof.
  induction l as [|a l IH]; intros Hinj Hnd; simpl; [constructor |].
  inversion Hnd as [|? ? Hna Hnd']; subst. constructor.
  - intros Hin. apply list_elem_of_In, in_map_iff in Hin as (b & Hfb & Hb).
    assert (b = a) as -> by (apply Hinj; simpl; auto).
    by apply Hna, list_elem_of_In.
  - apply IH; [| done]. intros x y Hx Hy. apply Hinj; simpl; auto.
Qed.

(** Two members of a list with the same image under a map without
    duplicates are equal. *)
Lemma NoDup_map_in_eq {A B} (f : A -> B) (l : list A) (x y : A) :
  NoDup (map f l) -> In x l -> In y l -> f x = f y -> x = y.
Proof.
  induction l as [|a l IH]; simpl; intros Hnd Hx Hy Hf; [done |].
  apply NoDup_cons in Hnd as [Hn Hnd].
  destruct Hx as [<- | Hx], Hy as [<- | Hy]; [done | | | by apply IH].
  - exfalso. apply Hn. rewrite Hf. apply list_elem_of_In, in_map, Hy.
  - exfalso. apply Hn. rewrite <- Hf. apply list_elem_of_In, in_map, Hx.
Qed.

(** [String.append] is associative and has [""] as right unit ([simpl] does
    not unfold it under stdpp, hence the explicit cons step). *)
Lemma string_app_cons (x : Ascii.ascii) (a s : string) :
  String.append (String x a) s = String x (String.append a s).
Proof. reflexivity. Qed.

Lemma string_app_nil_l (s : string) : String.append EmptyString s = s.
Proof. reflexivity. Qed.

Lemma string_app_assoc (a b c : string) :
  String.append a (String.append b c) = String.append (String.append a b) c.
Proof. induction a as [|x a IH]; [done |]. by rewrite !string_app_cons, IH. Qed.

Lemma string_app_nil_r (a : string) : String.append a EmptyString = a.
Proof. induction a as [|x a IH]; [done |]. by rewrite !string_app_cons, IH. Qed.

(** Taking one element out of a list whose elements all satisfy [P]. *)
Lemma Forall_middle {A} (P : A -> Prop) (l1 l2 : list A) (x : A) :
  Forall P (l1 ++ x :: l2) -> P x /\ Forall P (l1 ++ l2).
Proof.
  rewrite !Forall_app, Forall_cons. intros (H1 & H2 & H3). done.
Qed.

Lemma Forall_middle_insert {A} (P : A -> Prop) (l1 l2 : list A) (y : A) :
  P y -> Forall P (l1 ++ l2) -> Forall P (l1 ++ y :: l2).
Proof. rewrite !Forall_app, Forall_cons. intros Hy [H1 H2]. done. Qed.

(** Zero, one or several steps of a relation. *)
(** Membership of a shifted day in a list of day numbers, seen through a
    map: [f (g k)] is day [k] moved by [a]. *)
Lemma existsb_map_fuse {A B} (f : B -> bool) (g : A -> B) (l : list A) :
  existsb f (map g l) = existsb (fun x => f (g x)) l.
Proof. induction l as [|x l IH]; simpl; [done |]. by rewrite IH. Qed.

Lemma existsb_andb_const {A} (f : A -> bool) (c : bool) (l : list A) :
  existsb (fun x => f x && c) l = existsb f l && c.
Proof. induction l as [|x l IH]; simpl; [done |]. rewrite IH. by destruct (f x), c, (existsb f l). Qed.

Lemma existsb_map_shift (f g : Z -> Z) (a c : Z) (l : list Z) :
  (forall k, f (g k) = (k + a)%Z) ->
  existsb (fun b => f b =? c)%Z (map g l) = bool_decide ((c - a)%Z ∈ l).
Proof.
  intros Hfg. induction l as [|k l IH]; simpl; [done |]. rewrite IH, Hfg.
  destruct (Z.eqb_spec (k + a)%Z c) as [<- | Hne]; simpl.
  - symmetry. apply bool_decide_eq_true_2. replace (k + a - a)%Z with k by lia.
    apply list_elem_of_here.
  - apply bool_decide_ext. rewrite elem_of_cons.
    split; [by right | intros [Hk | ?]; [subst k; lia | done]].
Qed.


#[export] Hint Constructors star : syncli.

#[export] Hint Resolve div_mul_add_small mod_mul_add_small : syncli.
