(* ===== verification/Calendar.v ===== *)
(** * Calendar: instants, timezones and the dayjs/date-fns conversions

    Instants are [Z] seconds since 1970-01-01T00:00:00Z (a JavaScript
    [Date] without its milliseconds).  A timezone is a fixed offset in
    seconds east of UTC.  This file holds what the modal and [blockDate]
    compute on dates: the calendar day of an instant in a zone ([day_in],
    dayjs [.tz(..).startOf("day")]), [Date.prototype.getDay], the
    ["HH:mm"] formatter of dayjs, and the JavaScript day arithmetic
    ([MakeDay], [Date.UTC]) that dayjs's parser applies to a
    ["YYYY-MM-DD"] string. *)

From stdpp Require Import base list strings.
From Stdlib Require Import ZArith Lia Ascii String DecimalString DecimalN.
From S2P Require Import Prelude.

Open Scope Z_scope.

Definition instant := Z.

Definition SECONDS_PER_DAY : Z := 86400.

Record TimeZone := { tz_offset : Z }.

(** [const APP_TIMEZONE = "America/Fortaleza"]: UTC-3, no daylight saving. *)
Definition APP_TIMEZONE : TimeZone := {| tz_offset := -10800 |}.

(** The calendar day (days since 1970-01-01) of [t] on the wall clock of
    [tz]; [Z.div] floors, as the day of a negative offset must. *)
Definition day_in (tz : TimeZone) (t : instant) : Z :=
  (t + tz_offset tz) / SECONDS_PER_DAY.

Definition seconds_of_day (tz : TimeZone) (t : instant) : Z :=
  (t + tz_offset tz) mod SECONDS_PER_DAY.

(** The instant of 00:00 of day [d] on the wall clock of [tz]: what the
    calendar widget hands out for a clicked day (browser zone), and what
    [dayjs.tz("YYYY-MM-DD", tz).toDate()] returns. *)
Definition midnight (tz : TimeZone) (d : Z) : instant :=
  d * SECONDS_PER_DAY - tz_offset tz.

(** [dayjs(t).tz(tz).startOf("day")] *)
Definition start_of_day (tz : TimeZone) (t : instant) : instant :=
  midnight tz (day_in tz t).

(** [a.isSame(b, "day")] for two dayjs objects in [tz]. *)
Definition isSame_day (tz : TimeZone) (a b : instant) : bool :=
  day_in tz a =? day_in tz b.

(** [Date.prototype.getDay] in the zone [tz]: 1970-01-01 was a Thursday. *)
Definition getDay (tz : TimeZone) (t : instant) : Z :=
  (day_in tz t + 4) mod 7.

(** ** The ["HH:mm"] formatter of dayjs *)

(** [String(n)] for a non-negative integer: its decimal digits. *)
Definition js_string_of_nat (n : Z) : string :=
  NilEmpty.string_of_uint (N.to_uint (Z.to_N n)).

Fixpoint repeat_char (n : nat) (c : ascii) : string :=
  match n with
  | O => EmptyString
  | S k => String c (repeat_char k c)
  end.

(** dayjs [Utils.s] ([padStart]): prefix [c] up to [len] characters. *)
Definition padStart (len : nat) (c : ascii) (s : string) : string :=
  repeat_char (len - String.length s) c +:+ s.

(** [format("HH:mm")] of a local time [sod] seconds after midnight:
    [$H] is [sod / 3600] and [$m] is [(sod mod 3600) / 60]. *)
Definition format_HHmm (sod : Z) : string :=
  padStart 2 "0" (js_string_of_nat (sod / 3600)) +:+ ":" +:+
  padStart 2 "0" (js_string_of_nat ((sod mod 3600) / 60)).

(** ** The JavaScript date arithmetic of dayjs's ["YYYY-MM-DD"] parser *)

(** Day number of the proleptic Gregorian date [y-m-d], [1 <= m <= 12]
    (the day count of ECMA-262's [MakeDay] on a normalised month). *)
Definition days_from_civil (y m d : Z) : Z :=
  let y' := if m <=? 2 then y - 1 else y in
  let era := y' / 400 in
  let yoe := y' - era * 400 in
  let mp := if 2 <? m then m - 3 else m + 9 in
  let doy := (153 * mp + 2) / 5 + d - 1 in
  let doe := yoe * 365 + yoe / 4 - yoe / 100 + doy in
  era * 146097 + doe - 719468.

(** ECMA-262 [MakeDay(year, month, date)]: the month index is folded into
    the year and the date is added linearly, so out-of-range fields
    overflow into the neighbouring months. *)
Definition make_day (year month date : Z) : Z :=
  days_from_civil (year + month / 12) (month mod 12 + 1) 1 + date - 1.

(** [Date.UTC] maps a year in [0..99] to [1900 + year]. *)
Definition js_year (y : Z) : Z :=
  if (0 <=? y) && (y <=? 99) then 1900 + y else y.

Definition is_digit (c : ascii) : bool :=
  (48 <=? nat_of_ascii c)%nat && (nat_of_ascii c <=? 57)%nat.

Definition digit_value (c : ascii) : Z := Z.of_nat (nat_of_ascii c) - 48.

Fixpoint digits_value (acc : Z) (cs : list ascii) : Z :=
  match cs with
  | [] => acc
  | c :: cs' => digits_value (acc * 10 + digit_value c) cs'
  end.

(** The zod check [/^\d{4}-\d{2}-\d{2}$/], returning the three digit
    groups when it matches. *)
Definition date_regex_groups (s : string) : option (list ascii * list ascii * list ascii) :=
  match s with
  | String y1 (String y2 (String y3 (String y4 (String s1
      (String m1 (String m2 (String s2 (String d1 (String d2 EmptyString))))))))) =>
      if forallb is_digit [y1; y2; y3; y4; m1; m2; d1; d2]
         && bool_decide (s1 = "-"%char) && bool_decide (s2 = "-"%char)
      then Some ([y1; y2; y3; y4], [m1; m2], [d1; d2])
      else None
  | _ => None
  end.

Definition date_regex (s : string) : bool :=
  match date_regex_groups s with Some _ => true | None => false end.

(** [dayjs.tz(s, tz).startOf("day").toDate()] for a string accepted by the
    regex: dayjs parses the groups as [Date.UTC(Y, M - 1, D)] and [fixOffset]
    moves that wall-clock midnight into [tz]. *)
Definition normalize_date (tz : TimeZone) (s : string) : option instant :=
  match date_regex_groups s with
  | Some (ys, ms, ds) =>
      Some (midnight tz (make_day (js_year (digits_value 0 ys))
                                  (digits_value 0 ms - 1)
                                  (digits_value 0 ds)))
  | None => None
  end.

(** ** Decoding ["HH:mm"] (used to prove the formatter injective) *)

Definition decode_2 (s : string) : option (Z * string) :=
  match s with
  | String a (String b rest) =>
      if is_digit a && is_digit b then Some (digits_value 0 [a; b], rest) else None
  | _ => None
  end.

Definition decode_HHmm (s : string) : option Z :=
  match decode_2 s with
  | Some (h, String c rest) =>
      if bool_decide (c = ":"%char) then
        match decode_2 rest with
        | Some (m, EmptyString) => Some (h * 60 + m)
        | _ => None
        end
      else None
  | _ => None
  end.

(** The two-digit padding of one number, checked by computation. *)
Definition pad2_ok (k : nat) : bool :=
  match padStart 2 "0" (js_string_of_nat (Z.of_nat k)) with
  | String a (String b EmptyString) =>
      is_digit a && is_digit b && (digits_value 0 [a; b] =? Z.of_nat k)
  | _ => false
  end.

(** ** Lemmas *)
Lemma day_in_midnight_shift (tz tz' : TimeZone) (d : Z) :
  day_in tz (midnight tz' d) = d + (tz_offset tz - tz_offset tz') / SECONDS_PER_DAY.
Proof.
  unfold day_in, midnight, SECONDS_PER_DAY.
  replace (d * 86400 - tz_offset tz' + tz_offset tz)
    with (d * 86400 + (tz_offset tz - tz_offset tz')) by lia.
  apply Z.div_add_l. lia.
Qed.

Lemma day_in_midnight (tz : TimeZone) (d : Z) : day_in tz (midnight tz d) = d.
Proof. rewrite day_in_midnight_shift, Z.sub_diag, Z.div_0_l by done. lia. Qed.

Lemma day_in_midnight_add (tz : TimeZone) (d s : Z) :
  0 <= s < SECONDS_PER_DAY -> day_in tz (midnight tz d + s) = d.
Proof.
  unfold day_in, midnight, SECONDS_PER_DAY. intros Hs.
  replace (d * 86400 - tz_offset tz + s + tz_offset tz) with (d * 86400 + s) by lia.
  by apply div_mul_add_small.
Qed.

Lemma seconds_of_day_midnight_add (tz : TimeZone) (d s : Z) :
  0 <= s < SECONDS_PER_DAY -> seconds_of_day tz (midnight tz d + s) = s.
Proof.
  unfold seconds_of_day, midnight, SECONDS_PER_DAY. intros Hs.
  replace (d * 86400 - tz_offset tz + s + tz_offset tz) with (d * 86400 + s) by lia.
  by apply mod_mul_add_small.
Qed.

Lemma getDay_range (tz : TimeZone) (t : instant) : 0 <= getDay tz t < 7.
Proof. unfold getDay. apply Z.mod_pos_bound. lia. Qed.

Lemma seconds_of_day_range (tz : TimeZone) (t : instant) :
  0 <= seconds_of_day tz t < SECONDS_PER_DAY.
Proof. unfold seconds_of_day. apply Z.mod_pos_bound. unfold SECONDS_PER_DAY. lia. Qed.

Lemma start_of_day_idem (tz : TimeZone) (t : instant) :
  start_of_day tz (start_of_day tz t) = start_of_day tz t.
Proof. unfold start_of_day. by rewrite day_in_midnight. Qed.

Lemma pad2_ok_all : forallb pad2_ok (seq 0 100) = true.
Proof. vm_compute. reflexivity. Qed.

(** Two-digit padding of [0..99] decodes back to the number. *)
Lemma decode_2_padStart (n : Z) (rest : string) :
  0 <= n < 100 ->
  decode_2 (padStart 2 "0" (js_string_of_nat n) +:+ rest) = Some (n, rest).
Proof.
  intros Hn.
  pose proof (forallb_seq_spec _ _ _ pad2_ok_all (Z.to_nat n) ltac:(lia)) as H.
  unfold pad2_ok in H. rewrite Z2Nat.id in H by lia.
  destruct (padStart 2 "0" (js_string_of_nat n)) as [|a [|b [|? ?]]];
    try discriminate.
  apply andb_prop in H as [Hd Hv]. apply Z.eqb_eq in Hv.
  change (String a (String b "") +:+ rest) with (String a (String b rest)).
  unfold decode_2. rewrite Hd. by rewrite Hv.
Qed.

Lemma format_HHmm_decode (sod : Z) :
  0 <= sod < SECONDS_PER_DAY -> decode_HHmm (format_HHmm sod) = Some (sod / 60).
Proof.
  unfold SECONDS_PER_DAY. intros Hs. unfold format_HHmm, decode_HHmm.
  rewrite decode_2_padStart by (Z.div_mod_to_equations; lia).
  rewrite string_app_cons. cbn match. rewrite bool_decide_true by done.
  rewrite string_app_nil_l, <- (string_app_nil_r
    (padStart 2 "0" (js_string_of_nat ((sod mod 3600) / 60)))) at 1.
  rewrite decode_2_padStart by (Z.div_mod_to_equations; lia).
  f_equal. Z.div_mod_to_equations. lia.
Qed.

(** Two local times of the same day get the same label only when they fall
    in the same minute. *)
Lemma format_HHmm_inj (a b : Z) :
  0 <= a < SECONDS_PER_DAY -> 0 <= b < SECONDS_PER_DAY ->
  format_HHmm a = format_HHmm b -> a / 60 = b / 60.
Proof.
  intros Ha Hb Hf. apply (f_equal decode_HHmm) in Hf.
  rewrite !format_HHmm_decode in Hf by done. congruence.
Qed.

#[export] Hint Rewrite day_in_midnight day_in_midnight_add seconds_of_day_midnight_add
  using lia : syncli_rw.
