(* ===== verification/DateString.v ===== *)
(** * The ["yyyy-MM-dd"] printer and its round trip with the parser

    The modal sends [format(date, "yyyy-MM-dd")] (date-fns, on the browser's
    wall clock) and the server reads it back with [dayjs.tz(s, tz)].  This
    file models the printer: the civil date of a day number (ECMA-262's
    [YearFromTime], [MonthFromTime], [DateFromTime], computed era by era)
    and date-fns's [addLeadingZeros].  The round trip
    [normalize_date_format] shows that the server stores the midnight
    of the very day the administrator clicked, for the years 100 to 9999
    (dayjs's [Date.UTC] reads the years 0 to 99 as 1900 to 1999). *)

From stdpp Require Import base list strings.
From Stdlib Require Import ZArith Lia Ascii String.
From S2P Require Import Prelude Calendar.

Open Scope Z_scope.

(** The civil date of the [doe]-th day (0 to 146096) of a 400-year era
    that starts on a 1st of March: (year of era, month, day). *)
Definition doe_to_civil (doe : Z) : Z * Z * Z :=
  let yoe := (doe - doe / 1460 + doe / 36524 - doe / 146096) / 365 in
  let doy := doe - (365 * yoe + yoe / 4 - yoe / 100) in
  let mp := (5 * doy + 2) / 153 in
  let d := doy - (153 * mp + 2) / 5 + 1 in
  let m := if mp <? 10 then mp + 3 else mp - 9 in
  (yoe, m, d).

(** The inverse, as [days_from_civil] computes it. *)
Definition civil_to_doe (yoe m d : Z) : Z :=
  let mp := if 2 <? m then m - 3 else m + 9 in
  let doy := (153 * mp + 2) / 5 + d - 1 in
  yoe * 365 + yoe / 4 - yoe / 100 + doy.

(** [getFullYear()], [getMonth() + 1], [getDate()] of day [z]. *)
Definition civil_from_days (z : Z) : Z * Z * Z :=
  let z' := z + 719468 in
  let era := z' / 146097 in
  let '(yoe, m, d) := doe_to_civil (z' mod 146097) in
  (yoe + era * 400 + (if m <=? 2 then 1 else 0), m, d).

(** date-fns [addLeadingZeros(number, targetLength)]. *)
Definition addLeadingZeros (n : Z) (len : nat) : string :=
  (if n <? 0 then "-" else "") +:+ padStart len "0" (js_string_of_nat (Z.abs n)).

(** [format(date, "yyyy-MM-dd")] for the day [day] of the date's zone. *)
Definition format_yyyy_MM_dd (day : Z) : string :=
  let '(y, m, d) := civil_from_days day in
  addLeadingZeros y 4 +:+ "-" +:+ addLeadingZeros m 2 +:+ "-" +:+ addLeadingZeros d 2.

(** ** One era, checked by computation *)

Fixpoint check_from (f : Z -> bool) (start : Z) (n : nat) : bool :=
  match n with
  | O => true
  | S n' => f start && check_from f (start + 1) n'
  end.

(** What one day of an era and one four-digit year must satisfy. *)
Definition era_day_ok (doe : Z) : bool :=
  let '(yoe, m, d) := doe_to_civil doe in
  (0 <=? yoe) && (yoe <=? 399) && (1 <=? m) && (m <=? 12) && (1 <=? d) && (d <=? 31) &&
  (civil_to_doe yoe m d =? doe).

Definition pad4_ok (k : Z) : bool :=
  match padStart 4 "0" (js_string_of_nat k) with
  | String a (String b (String c (String e EmptyString))) =>
      forallb is_digit [a; b; c; e] && (digits_value 0 [a; b; c; e] =? k)
  | _ => false
  end.

Lemma check_from_spec (f : Z -> bool) (start : Z) (n : nat) :
  check_from f start n = true -> forall z, start <= z < start + Z.of_nat n -> f z = true.
Proof.
  revert start. induction n as [|n IH]; simpl; intros start H z Hz; [lia |].
  apply andb_prop in H as [H1 H2].
  destruct (Z.eq_dec z start) as [-> | Hne]; [done |]. apply (IH (start + 1)); [done | lia].
Qed.

Lemma era_days_ok : check_from era_day_ok 0 (Z.to_nat 146097) = true.
Proof. vm_compute. reflexivity. Qed.

Lemma doe_to_civil_spec (doe : Z) :
  0 <= doe < 146097 ->
  let '(yoe, m, d) := doe_to_civil doe in
  0 <= yoe <= 399 /\ 1 <= m <= 12 /\ 1 <= d <= 31 /\ civil_to_doe yoe m d = doe.
Proof.
  intros Hd. pose proof (check_from_spec _ _ _ era_days_ok doe) as H.
  rewrite Z2Nat.id in H by lia. specialize (H ltac:(lia)).
  unfold era_day_ok in H. destruct (doe_to_civil doe) as [[yoe m] d].
  repeat (apply andb_prop in H as [H ?]). zcase; try discriminate. lia.
Qed.

(** [days_from_civil] splits into whole eras and a day of the era. *)
Lemma days_from_civil_era (y m d : Z) :
  days_from_civil y m d =
  ((if m <=? 2 then y - 1 else y) / 400) * 146097 +
  civil_to_doe ((if m <=? 2 then y - 1 else y) mod 400) m d - 719468.
Proof.
  unfold days_from_civil, civil_to_doe. rewrite Zmod_eq_full by lia. reflexivity.
Qed.

(** Round trip on day numbers: the civil date of a day names that day. *)
Theorem days_from_civil_civil_from_days (z : Z) :
  let '(y, m, d) := civil_from_days z in
  days_from_civil y m d = z /\ 1 <= m <= 12 /\ 1 <= d <= 31.
Proof.
  unfold civil_from_days.
  pose proof (Z.mod_pos_bound (z + 719468) 146097 ltac:(lia)) as Hb.
  pose proof (doe_to_civil_spec _ Hb) as Hs.
  destruct (doe_to_civil ((z + 719468) mod 146097)) as [[yoe m] d].
  destruct Hs as (Hy & Hm & Hd & Hdoe). split; [| lia].
  rewrite days_from_civil_era.
  replace (if m <=? 2 then yoe + (z + 719468) / 146097 * 400 + (if m <=? 2 then 1 else 0) - 1
           else yoe + (z + 719468) / 146097 * 400 + (if m <=? 2 then 1 else 0))
    with ((z + 719468) / 146097 * 400 + yoe) by (zcase; lia).
  rewrite div_mul_add_small, mod_mul_add_small, Hdoe by lia. pose proof (Z.div_mod (z + 719468) 146097). lia.
Qed.

(** ** The string round trip *)
Lemma pad4_ok_all : check_from pad4_ok 0 (Z.to_nat 10000) = true.
Proof. vm_compute. reflexivity. Qed.

Lemma pad4_shape (n : Z) :
  0 <= n <= 9999 ->
  exists a b c e, padStart 4 "0" (js_string_of_nat n) =
    String a (String b (String c (String e EmptyString))) /\
    forallb is_digit [a; b; c; e] = true /\ digits_value 0 [a; b; c; e] = n.
Proof.
  intros Hn. pose proof (check_from_spec _ _ _ pad4_ok_all n) as H.
  rewrite Z2Nat.id in H by lia. specialize (H ltac:(lia)).
  unfold pad4_ok in H.
  destruct (padStart 4 "0" (js_string_of_nat n)) as [|a [|b [|c [|e [|? ?]]]]];
    try discriminate.
  apply andb_prop in H as [Hd Hv]. apply Z.eqb_eq in Hv. eauto 10.
Qed.

Lemma pad2_shape (n : Z) :
  0 <= n < 100 ->
  exists a b, padStart 2 "0" (js_string_of_nat n) = String a (String b EmptyString) /\
    is_digit a && is_digit b = true /\ digits_value 0 [a; b] = n.
Proof.
  intros Hn. pose proof (forallb_seq_spec _ _ _ pad2_ok_all (Z.to_nat n) ltac:(lia)) as H.
  unfold pad2_ok in H. rewrite Z2Nat.id in H by lia.
  destruct (padStart 2 "0" (js_string_of_nat n)) as [|a [|b [|? ?]]]; try discriminate.
  apply andb_prop in H as [Hd Hv]. apply Z.eqb_eq in Hv. eauto.
Qed.

Lemma addLeadingZeros_nonneg (n : Z) (len : nat) :
  0 <= n -> addLeadingZeros n len = padStart len "0" (js_string_of_nat n).
Proof.
  intros Hn. unfold addLeadingZeros. zcase; [lia |]. rewrite Z.abs_eq by done. done.
Qed.

Lemma make_day_civil (y m d : Z) :
  1 <= m <= 12 -> make_day y (m - 1) d = days_from_civil y m d.
Proof.
  intros Hm. unfold make_day.
  rewrite Z.div_small, Z.mod_small, Z.add_0_r by lia.
  replace (m - 1 + 1) with m by lia.
  unfold days_from_civil. cbv zeta. destruct (m <=? 2), (2 <? m); lia.
Qed.

(** A string [normalize_date] reads is one the schema's regex accepts. *)
Lemma normalize_date_regex_true (tz : TimeZone) (s : string) (t : instant) :
  normalize_date tz s = Some t -> date_regex s = true.
Proof.
  unfold normalize_date, date_regex. by destruct (date_regex_groups s) as [[[? ?] ?]|].
Qed.

(** The printer read back by the server's normalisation. *)
Lemma format_normalize (tz : TimeZone) (day : Z) :
  (let '(y, _, _) := civil_from_days day in 100 <= y <= 9999) ->
  normalize_date tz (format_yyyy_MM_dd day) = Some (midnight tz day).
Proof.
  unfold format_yyyy_MM_dd. pose proof (days_from_civil_civil_from_days day) as Hc.
  destruct (civil_from_days day) as [[y m] d]. intros Hy. destruct Hc as (Hdays & Hm & Hd).
  rewrite !addLeadingZeros_nonneg by lia.
  destruct (pad4_shape y) as (a & b & c & e & -> & Hy4 & Hvy); [lia |].
  destruct (pad2_shape m) as (m1 & m2 & -> & Hm2 & Hvm); [lia |].
  destruct (pad2_shape d) as (d1 & d2 & -> & Hd2 & Hvd); [lia |].
  rewrite ?string_app_cons, ?string_app_nil_l.
  unfold normalize_date, date_regex_groups.
  cbn [forallb] in Hy4 |- *.
  repeat match goal with H : _ && _ = true |- _ => apply andb_prop in H as [? ?] end.
  repeat match goal with H : is_digit ?x = true |- context [is_digit ?x] => rewrite H end.
  rewrite !bool_decide_eq_true_2 by done. cbn [andb]. cbv beta iota.
  rewrite Hvy, Hvm, Hvd. unfold js_year.
  replace ((0 <=? y) && (y <=? 99)) with false
    by (symmetry; apply andb_false_iff; right; apply Z.leb_gt; lia).
  rewrite make_day_civil, Hdays by lia. done.
Qed.

(** C14: Round trip of the wire format: what the modal prints for a day,
    the schema's [/^\d{4}-\d{2}-\d{2}$/] accepts, and the server's
    [dayjs.tz(.., tz).startOf("day")] reads back as the midnight of that
    same day in [tz]. *)
Theorem normalize_date_format (tz : TimeZone) (day : Z) :
  (let '(y, _, _) := civil_from_days day in 100 <= y <= 9999) ->
  date_regex (format_yyyy_MM_dd day) = true /\
  normalize_date tz (format_yyyy_MM_dd day) = Some (midnight tz day).
Proof.
  intros Hy. pose proof (format_normalize tz day Hy) as Hn.
  split; [exact (normalize_date_regex_true _ _ _ Hn) | exact Hn].
Qed.

(** ** Witnesses *)
Lemma normalize_date_format_witness :
  date_regex (format_yyyy_MM_dd 19884) = true /\
  normalize_date APP_TIMEZONE (format_yyyy_MM_dd 19884) = Some (midnight APP_TIMEZONE 19884).
Proof. apply normalize_date_format. concrete. Defined.
