(* ===== verification/Availability.v ===== *)
(** * Availability resolver

    The recurring weekly window of a doctor and the expansion of a day into
    30-minute slot labels, as the modal computes them
    ([isDateWithinDoctorAvailability], lines 97-110, and the [while] loop of
    [fetchBlockedTimeSlotsForSelectedDate], lines 277-292).  The helper
    [getDayJsAvailability] lives outside the sources and is modelled from
    the specification: it reads the ["HH:mm:ss"] columns of the doctor.
    Every label the loop emits is an ["HH:mm"] minute of the day
    ([slot_loop_labels_HHmm]) and a day has one slot per started half hour
    of the window, at most 48 within a day ([allPossibleSlotsForDay_length]). *)

From stdpp Require Import base list strings.
From Stdlib Require Import ZArith Lia Ascii String.
From S2P Require Import Prelude Calendar.

Open Scope Z_scope.
Open Scope syncli_scope.

(** The columns of [doctorsTable] that the modal [Pick]s. *)
Record Doctor := {
  doctor_id : string;
  doctor_name : string;
  availableFromWeekDay : Z;
  availableToWeekDay : Z;
  availableFromTime : string;
  availableToTime : string;
  doctor_clinicId : string
}.

(** The body of [isDateWithinDoctorAvailability] on a weekday number. *)
Definition weekday_in_range (fromDay toDay dayOfWeek : Z) : bool :=
  if fromDay <=? toDay
  then (dayOfWeek >=? fromDay) && (dayOfWeek <=? toDay)
  else (dayOfWeek >=? fromDay) || (dayOfWeek <=? toDay).

(** [isDateWithinDoctorAvailability(date)]: [date.getDay()] is taken in the
    browser's zone. *)
Definition isDateWithinDoctorAvailability (browser : TimeZone) (doctor : Doctor)
    (date : instant) : bool :=
  weekday_in_range (availableFromWeekDay doctor) (availableToWeekDay doctor)
    (getDay browser date).

(** Reference: the weekdays met walking forward (mod 7) from [fromDay] to
    [toDay], both included. *)
Definition weekday_window (fromDay toDay : Z) : list Z :=
  map (fun k => (fromDay + Z.of_nat k) mod 7)
      (seq 0 (S (Z.to_nat ((toDay - fromDay) mod 7)))).

(** ** [getDayJsAvailability] (spec-modelled) *)

(** The hour, minute and second of the two dayjs objects, as seconds after
    midnight. *)
Record DayJsAvailability := { av_from : Z; av_to : Z }.

(** A Postgres [time] value ["HH:mm:ss"]. *)
Definition parse_time (s : string) : option Z :=
  match decode_2 s with
  | Some (h, String c1 r1) =>
      match decode_2 r1 with
      | Some (m, String c2 r2) =>
          match decode_2 r2 with
          | Some (sec, EmptyString) =>
              if bool_decide (c1 = ":"%char) && bool_decide (c2 = ":"%char)
              then Some (h * 3600 + m * 60 + sec) else None
          | _ => None
          end
      | _ => None
      end
  | _ => None
  end.

(** [None] stands for the exception an unparsable column raises, which the
    [try] of the caller catches. *)
Definition getDayJsAvailability (doctor : Doctor) : option DayJsAvailability :=
  match parse_time (availableFromTime doctor), parse_time (availableToTime doctor) with
  | Some f, Some t => Some {| av_from := f; av_to := t |}
  | _, _ => None
  end.

(** ** The slot loop *)

(** [currentTime.add(30, "minute")] *)
Definition SLOT_STEP : Z := 30 * 60.

(** [while (currentTime.isBefore(endOfDay)) { push(currentTime.format("HH:mm"));
    currentTime = currentTime.add(30, "minute") }], formatted on the wall clock
    of the browser zone [tz].  [fuel] bounds the iterations; [loop_fuel] is
    always enough ([slot_loop_closed]). *)
Fixpoint slot_loop (fuel : nat) (tz : TimeZone) (currentTime endOfDay : instant)
    : list string :=
  match fuel with
  | O => []
  | S fuel' =>
      if currentTime <? endOfDay
      then format_HHmm (seconds_of_day tz currentTime)
             :: slot_loop fuel' tz (currentTime + SLOT_STEP) endOfDay
      else []
  end.

(** One iteration per 30-minute step of the window, plus one. *)
Definition loop_fuel (currentTime endOfDay : instant) : nat :=
  Z.to_nat ((endOfDay - currentTime) / SLOT_STEP + 1).

(** Lines 277-292: [currentTime] and [endOfDay] are [date] with its hour,
    minute and second replaced by those of [from] and [to]. *)
Definition allPossibleSlotsForDay (tz : TimeZone) (doctor : Doctor) (date : instant)
    : option (list string) :=
  match getDayJsAvailability doctor with
  | None => None
  | Some av =>
      let currentTime := start_of_day tz date + av_from av in
      let endOfDay := start_of_day tz date + av_to av in
      Some (slot_loop (loop_fuel currentTime endOfDay) tz currentTime endOfDay)
  end.

(** Reference: the instants [start, start + 30 min, ...] strictly before
    [stop]. *)
Definition tick_count (start stop : instant) : nat :=
  Z.to_nat ((stop - start + SLOT_STEP - 1) / SLOT_STEP).

Definition slot_instants (start stop : instant) : list instant :=
  map (fun k => start + SLOT_STEP * Z.of_nat k) (seq 0 (tick_count start stop)).

(** Sample doctors: Monday to Friday 09:00-10:00 (the end-to-end case of
    the specification), and Friday to Monday 09:00-12:00. *)
Definition sample_doctor : Doctor := {|
  doctor_id := "8a6e0804-2bd0-4672-b79d-d97027f9071a";
  doctor_name := "Dra. Ana";
  availableFromWeekDay := 1; availableToWeekDay := 5;
  availableFromTime := "09:00:00"; availableToTime := "10:00:00";
  doctor_clinicId := "3f1c5b8e-6d2a-4c1e-9b7f-0a2d4e6f8b10" |}.

Definition weekend_doctor : Doctor := {|
  doctor_id := "8a6e0804-2bd0-4672-b79d-d97027f9071b";
  doctor_name := "Dr. Bruno";
  availableFromWeekDay := 5; availableToWeekDay := 1;
  availableFromTime := "09:00:00"; availableToTime := "12:00:00";
  doctor_clinicId := "3f1c5b8e-6d2a-4c1e-9b7f-0a2d4e6f8b10" |}.

(** ** Weekday window *)

Definition weekday_window_check : bool :=
  let ds := map Z.of_nat (seq 0 7) in
  forallb (fun f => forallb (fun t => forallb (fun w =>
    Bool.eqb (weekday_in_range f t w) (bool_decide (w ∈ weekday_window f t)))
    ds) ds) ds.

Lemma weekday_window_check_ok : weekday_window_check = true.
Proof. vm_compute. reflexivity. Qed.

Lemma in_weekdays (z : Z) : 0 <= z <= 6 -> In z (map Z.of_nat (seq 0 7)).
Proof.
  intros Hz. apply in_map_iff. exists (Z.to_nat z).
  split; [lia |]. apply in_seq. lia.
Qed.

(** C3: the code's two-branch test accepts exactly the weekdays of the
    cyclic interval from [availableFromWeekDay] to [availableToWeekDay]. *)
Theorem isDateWithinDoctorAvailability_window (browser : TimeZone) (doctor : Doctor)
    (date : instant) :
  0 <= availableFromWeekDay doctor <= 6 -> 0 <= availableToWeekDay doctor <= 6 ->
  isDateWithinDoctorAvailability browser doctor date = true <->
  getDay browser date ∈ weekday_window (availableFromWeekDay doctor)
                                      (availableToWeekDay doctor).
Proof.
  intros Hf Ht. unfold isDateWithinDoctorAvailability.
  pose proof (getDay_range browser date) as Hw.
  pose proof weekday_window_check_ok as Hc. unfold weekday_window_check in Hc.
  rewrite forallb_forall in Hc. specialize (Hc _ (in_weekdays _ Hf)).
  rewrite forallb_forall in Hc. specialize (Hc _ (in_weekdays _ Ht)).
  rewrite forallb_forall in Hc. specialize (Hc _ (in_weekdays (getDay browser date) ltac:(lia))).
  apply Bool.eqb_prop in Hc. rewrite Hc. apply bool_decide_eq_true.
Qed.

(** ** The slot loop: termination and closed form *)
Lemma tick_count_step (start stop : instant) :
  start < stop -> tick_count start stop = S (tick_count (start + SLOT_STEP) stop).
Proof. unfold tick_count, SLOT_STEP. intros H. Z.div_mod_to_equations. lia. Qed.

Lemma tick_count_stop (start stop : instant) :
  stop <= start -> tick_count start stop = 0%nat.
Proof. unfold tick_count, SLOT_STEP. intros H. Z.div_mod_to_equations. lia. Qed.

Lemma tick_count_le_loop_fuel (start stop : instant) :
  (tick_count start stop <= loop_fuel start stop)%nat.
Proof. unfold tick_count, loop_fuel, SLOT_STEP. Z.div_mod_to_equations. lia. Qed.

Lemma slot_instants_step (start stop : instant) :
  start < stop ->
  slot_instants start stop = start :: slot_instants (start + SLOT_STEP) stop.
Proof.
  intros H. unfold slot_instants. rewrite tick_count_step by done.
  rewrite <- cons_seq, <- seq_shift. simpl. rewrite map_map. f_equal; [lia |].
  apply map_ext. intros k. lia.
Qed.

Lemma slot_instants_stop (start stop : instant) :
  stop <= start -> slot_instants start stop = [].
Proof. intros H. unfold slot_instants. by rewrite tick_count_stop. Qed.

(** The loop, given at least [tick_count] iterations of fuel, emits the
    labels of [slot_instants]; extra fuel changes nothing. *)
Lemma slot_loop_closed (fuel : nat) (tz : TimeZone) (start stop : instant) :
  (tick_count start stop <= fuel)%nat ->
  slot_loop fuel tz start stop =
  map (fun t => format_HHmm (seconds_of_day tz t)) (slot_instants start stop).
Proof.
  revert start. induction fuel as [|fuel IH]; intros start Hf; simpl.
  - destruct (Z.lt_ge_cases start stop) as [Hlt | Hge].
    + rewrite tick_count_step in Hf by done. lia.
    + by rewrite slot_instants_stop.
  - zcase.
    + rewrite slot_instants_step by done. simpl. f_equal.
      apply IH. rewrite tick_count_step in Hf by done. lia.
    + by rewrite slot_instants_stop.
Qed.

(** C13: the loop stops by its own condition.  With the fuel
    the model gives it, and with any larger fuel, it returns the labels of
    all the 30-minute steps from [start] strictly before [stop]. *)
Theorem slot_loop_fuel_enough (fuel : nat) (tz : TimeZone) (start stop : instant) :
  (loop_fuel start stop <= fuel)%nat ->
  slot_loop fuel tz start stop = slot_loop (loop_fuel start stop) tz start stop /\
  slot_loop fuel tz start stop =
  map (fun t => format_HHmm (seconds_of_day tz t)) (slot_instants start stop).
Proof.
  intros Hf. pose proof (tick_count_le_loop_fuel start stop).
  rewrite !slot_loop_closed by lia. done.
Qed.

(** the ticks are exactly the instants of the half-open window
    [\[start, stop)] at a multiple of 30 minutes from [start]. *)
Theorem slot_instants_spec (start stop t : instant) :
  t ∈ slot_instants start stop <->
  start <= t < stop /\ (t - start) mod SLOT_STEP = 0.
Proof.
  unfold slot_instants, tick_count, SLOT_STEP.
  rewrite list_elem_of_In, in_map_iff. split.
  - intros (k & <- & Hk). apply in_seq in Hk.
    split; [Z.div_mod_to_equations; nia |].
    replace (start + 30 * 60 * Z.of_nat k - start) with (Z.of_nat k * 1800) by lia.
    apply Z.mod_mul. lia.
  - intros [Hr Hm]. exists (Z.to_nat ((t - start) / 1800)).
    split; [Z.div_mod_to_equations; lia |].
    apply in_seq. Z.div_mod_to_equations. lia.
Qed.

Lemma slot_instants_shift (base start stop : instant) :
  slot_instants (base + start) (base + stop) = map (Z.add base) (slot_instants start stop).
Proof.
  unfold slot_instants, tick_count.
  replace (base + stop - (base + start)) with (stop - start) by lia.
  rewrite map_map. apply map_ext. intros k. lia.
Qed.

Lemma slot_instants_NoDup (start stop : instant) : NoDup (slot_instants start stop).
Proof.
  unfold slot_instants. apply NoDup_map_inj_on; [| apply NoDup_seq].
  intros x y _ _ H. unfold SLOT_STEP in H. lia.
Qed.

(** C5: the labels of a day depend only on the doctor's window: for a
    window inside one day they are the ["HH:mm"] labels of the 30-minute
    steps of [\[from, to)], whatever the date and the browser zone. *)
Theorem allPossibleSlotsForDay_spec (tz : TimeZone) (doctor : Doctor) (date : instant)
    (av : DayJsAvailability) :
  getDayJsAvailability doctor = Some av ->
  0 <= av_from av -> av_to av <= SECONDS_PER_DAY ->
  allPossibleSlotsForDay tz doctor date =
  Some (map format_HHmm (slot_instants (av_from av) (av_to av))).
Proof.
  intros Hav Hf Ht. unfold allPossibleSlotsForDay. rewrite Hav. f_equal.
  rewrite slot_loop_closed by apply tick_count_le_loop_fuel.
  unfold start_of_day. rewrite slot_instants_shift, map_map.
  apply map_ext_in. intros t Hin.
  apply list_elem_of_In, slot_instants_spec in Hin.
  rewrite seconds_of_day_midnight_add; [done | lia].
Qed.

(** C26: an empty or inverted window gives no slot at all, not an error. *)
Theorem allPossibleSlotsForDay_empty (tz : TimeZone) (doctor : Doctor) (date : instant)
    (av : DayJsAvailability) :
  getDayJsAvailability doctor = Some av -> av_to av <= av_from av ->
  allPossibleSlotsForDay tz doctor date = Some [].
Proof.
  intros Hav Hle. unfold allPossibleSlotsForDay. rewrite Hav. f_equal.
  rewrite slot_loop_closed by apply tick_count_le_loop_fuel.
  rewrite slot_instants_stop; [done | lia].
Qed.

(** Within one day the slot labels are pairwise distinct, so a label
    names one slot (the optimistic update of the modal matches on it). *)
Lemma slot_labels_NoDup (start stop : instant) :
  0 <= start -> stop <= SECONDS_PER_DAY ->
  NoDup (map format_HHmm (slot_instants start stop)).
Proof.
  intros Hs He. apply NoDup_map_inj_on; [| apply slot_instants_NoDup].
  intros x y Hx Hy Hxy.
  apply list_elem_of_In, slot_instants_spec in Hx, Hy.
  apply format_HHmm_inj in Hxy; [| lia | lia].
  unfold SLOT_STEP in *. Z.div_mod_to_equations. lia.
Qed.

(** A label the loop emits is a minute of the day in ["HH:mm"]. *)
Definition is_HHmm_label (l : string) : Prop :=
  exists m, decode_HHmm l = Some m /\ 0 <= m < 24 * 60.

Lemma format_HHmm_label (tz : TimeZone) (t : instant) :
  is_HHmm_label (format_HHmm (seconds_of_day tz t)).
Proof.
  pose proof (seconds_of_day_range tz t) as Hr. exists (seconds_of_day tz t / 60).
  rewrite format_HHmm_decode by done. unfold SECONDS_PER_DAY in Hr.
  split; [done | Z.div_mod_to_equations; lia].
Qed.

(** Whatever the doctor's columns, the fuel and the zone, every label of
    the slot loop is an ["HH:mm"] string of a minute of the day (the
    formatter reads the wall clock modulo a day). *)
Lemma slot_loop_labels_HHmm (fuel : nat) (tz : TimeZone) (currentTime endOfDay : instant) :
  Forall is_HHmm_label (slot_loop fuel tz currentTime endOfDay).
Proof.
  revert currentTime. induction fuel as [|fuel IH]; intros cur; simpl; [constructor |].
  case_match; constructor; [apply format_HHmm_label | apply IH].
Qed.

Lemma allPossibleSlotsForDay_HHmm (tz : TimeZone) (doctor : Doctor) (date : instant)
    (labels : list string) :
  allPossibleSlotsForDay tz doctor date = Some labels -> Forall is_HHmm_label labels.
Proof.
  unfold allPossibleSlotsForDay. case_match; [intros [= <-] | done].
  apply slot_loop_labels_HHmm.
Qed.

Lemma is_HHmm_label_nonempty (l : string) : is_HHmm_label l -> l <> "".
Proof. intros [m [Hd _]] ->. discriminate. Qed.

(** C22: a day has [tick_count from to] slots, one per started half hour
    of the window; a window within one day gives at most 48, and the loop
    never runs out of fuel before its condition stops it. *)
Theorem allPossibleSlotsForDay_length (tz : TimeZone) (doctor : Doctor) (date : instant)
    (av : DayJsAvailability) (labels : list string) :
  getDayJsAvailability doctor = Some av ->
  allPossibleSlotsForDay tz doctor date = Some labels ->
  List.length labels = tick_count (av_from av) (av_to av) /\
  (0 <= av_from av -> av_to av <= SECONDS_PER_DAY -> (List.length labels <= 48)%nat).
Proof.
  intros Hav. unfold allPossibleSlotsForDay. rewrite Hav. intros [= <-].
  rewrite slot_loop_closed by apply tick_count_le_loop_fuel.
  unfold slot_instants, tick_count. rewrite !length_map, length_seq.
  replace (start_of_day tz date + av_to av - (start_of_day tz date + av_from av))
    with (av_to av - av_from av) by lia.
  split; [done |]. unfold SECONDS_PER_DAY, SLOT_STEP. intros Hf Ht.
  Z.div_mod_to_equations. lia.
Qed.

(** ** Witnesses *)

(** 2024-06-08 (day 19882) is a Saturday: inside Friday-Monday. *)
Lemma isDateWithinDoctorAvailability_window_witness :
  (0 <= availableFromWeekDay weekend_doctor <= 6 /\ 0 <= availableToWeekDay weekend_doctor <= 6) /\
  (isDateWithinDoctorAvailability APP_TIMEZONE weekend_doctor (midnight APP_TIMEZONE 19882) = true <->
   getDay APP_TIMEZONE (midnight APP_TIMEZONE 19882) ∈ weekday_window 5 1).
Proof.
  split; [simpl; lia |].
  apply (isDateWithinDoctorAvailability_window APP_TIMEZONE weekend_doctor); simpl; lia.
Defined.

Lemma slot_loop_fuel_enough_witness :
  (loop_fuel (9 ʰ 0) (12 ʰ 0) <= 20)%nat /\
  slot_loop 20 APP_TIMEZONE (9 ʰ 0) (12 ʰ 0) =
  slot_loop (loop_fuel (9 ʰ 0) (12 ʰ 0)) APP_TIMEZONE (9 ʰ 0) (12 ʰ 0).
Proof.
  split; [vm_compute; lia |].
  apply (slot_loop_fuel_enough 20 APP_TIMEZONE (9 ʰ 0) (12 ʰ 0)). vm_compute. lia.
Defined.

(** The specification's example: 09:00-12:00 gives six end-exclusive ticks. *)
Example weekend_doctor_slots :
  allPossibleSlotsForDay APP_TIMEZONE weekend_doctor (midnight APP_TIMEZONE 19882) =
  Some ["09:00"; "09:30"; "10:00"; "10:30"; "11:00"; "11:30"].
Proof. vm_compute. reflexivity. Qed.

Lemma allPossibleSlotsForDay_spec_witness :
  (getDayJsAvailability sample_doctor = Some {| av_from := 9 ʰ 0; av_to := 10 ʰ 0 |} /\
   0 <= 9 ʰ 0 /\ 10 ʰ 0 <= SECONDS_PER_DAY) /\
  allPossibleSlotsForDay APP_TIMEZONE sample_doctor 0 =
  Some (map format_HHmm (slot_instants (9 ʰ 0) (10 ʰ 0))).
Proof.
  split; [split; [reflexivity | vm_compute; split; discriminate] |].
  apply (allPossibleSlotsForDay_spec APP_TIMEZONE sample_doctor 0
           {| av_from := 9 ʰ 0; av_to := 10 ʰ 0 |}); [reflexivity | | ];
    vm_compute; discriminate.
Defined.

Lemma allPossibleSlotsForDay_empty_witness :
  let d := {| doctor_id := "d"; doctor_name := "n"; availableFromWeekDay := 1;
              availableToWeekDay := 5; availableFromTime := "09:00:00";
              availableToTime := "09:00:00"; doctor_clinicId := "c" |} in
  (getDayJsAvailability d = Some {| av_from := 9 ʰ 0; av_to := 9 ʰ 0 |} /\ 9 ʰ 0 <= 9 ʰ 0) /\
  allPossibleSlotsForDay APP_TIMEZONE d 0 = Some [].
Proof.
  split; [split; [reflexivity | lia] |].
  apply (allPossibleSlotsForDay_empty _ _ _ {| av_from := 9 ʰ 0; av_to := 9 ʰ 0 |});
    [reflexivity | simpl; lia].
Defined.

Lemma allPossibleSlotsForDay_length_witness :
  (getDayJsAvailability weekend_doctor = Some {| av_from := 9 ʰ 0; av_to := 12 ʰ 0 |} /\
   allPossibleSlotsForDay APP_TIMEZONE weekend_doctor 0 =
     Some ["09:00"; "09:30"; "10:00"; "10:30"; "11:00"; "11:30"]) /\
  List.length ["09:00"; "09:30"; "10:00"; "10:30"; "11:00"; "11:30"] =
    tick_count (9 ʰ 0) (12 ʰ 0).
Proof.
  split; [split; vm_compute; reflexivity |].
  apply (allPossibleSlotsForDay_length APP_TIMEZONE weekend_doctor 0
           {| av_from := 9 ʰ 0; av_to := 12 ʰ 0 |}); vm_compute; reflexivity.
Defined.
