(* ===== verification/Table.v ===== *)
(** * Override store: tables with a unique key

    The persistence layer as the actions use it through drizzle: a table is
    the list of its rows; [insert_on_conflict_do_nothing] is
    [db.insert(t).values(r).onConflictDoNothing({ target })] and
    [delete_where] is [db.delete(t).where(p)].  A row projects to the
    abstract value the read routes expose ([proj]); the conflict target is a
    function of that value ([keyv]).  The abstract store of a table is the
    set of projected values ([view]); [abs_insert] and [abs_delete] are the
    operations the specification describes on it.  Two inserts commute on
    the view unless they claim one target with different values, and two
    deletes commute outright ([insert_comm_view], [delete_where_comm]). *)

From stdpp Require Import base list gmap strings.
From Stdlib Require Import ZArith Lia.
From S2P Require Import Prelude Calendar.

Set Warnings "-clear-no-such-hyp".

Section Table.
Context {Row V Key : Type} `{Countable V} `{EqDecision Key}.
Context (proj : Row -> V) (keyv : V -> Key).

Definition row_key (r : Row) : Key := keyv (proj r).

Definition insert_on_conflict_do_nothing (r : Row) (t : list Row) : list Row :=
  if bool_decide (row_key r ∈ map row_key t) then t else t ++ [r].

(** The [where] clause reads the projected columns. *)
Definition delete_where (q : V -> bool) (t : list Row) : list Row :=
  List.filter (fun r => negb (q (proj r))) t.

(** The unique index on the conflict target. *)
Definition unique_key (t : list Row) : Prop := NoDup (map row_key t).

(** What the read routes can observe of a table. *)
Definition view (t : list Row) : gset V := list_to_set (map proj t).

Definition key_taken (k : Key) (S : gset V) : bool :=
  existsb (fun w => bool_decide (keyv w = k)) (elements S).

Definition abs_insert (v : V) (S : gset V) : gset V :=
  if key_taken (keyv v) S then S else {[v]} ∪ S.

Definition abs_delete (v : V) (S : gset V) : gset V := S ∖ {[v]}.

(** The rows of one key. *)
Definition rows_with_key (k : Key) (t : list Row) : list Row :=
  List.filter (fun r => bool_decide (row_key r = k)) t.

(** Two tables are observably equal when their views are. *)
Definition view_equiv (t1 t2 : list Row) : Prop := view t1 = view t2.

(** ** Lemmas *)
Lemma key_in_rows_view (k : Key) (t : list Row) :
  k ∈ map row_key t <-> key_taken k (view t) = true.
Proof.
  unfold key_taken, view, row_key. rewrite existsb_exists. split.
  - intros Hk. apply list_elem_of_In, in_map_iff in Hk as (r & <- & Hr).
    exists (proj r). rewrite <- list_elem_of_In, elem_of_elements, elem_of_list_to_set.
    split; [apply list_elem_of_In, in_map_iff; eauto | by apply bool_decide_eq_true].
  - intros (w & Hw & Hk). apply bool_decide_eq_true in Hk.
    rewrite <- list_elem_of_In, elem_of_elements, elem_of_list_to_set in Hw.
    apply list_elem_of_In, in_map_iff in Hw as (r & <- & Hr).
    apply list_elem_of_In, in_map_iff. eauto.
Qed.

Lemma view_app (t1 t2 : list Row) : view (t1 ++ t2) = view t1 ∪ view t2.
Proof. unfold view. by rewrite map_app, list_to_set_app_L. Qed.

Lemma elem_of_view (v : V) (t : list Row) :
  v ∈ view t <-> exists r, In r t /\ proj r = v.
Proof.
  unfold view. rewrite elem_of_list_to_set, list_elem_of_In, in_map_iff.
  split; intros (r & H1 & H2); exists r; auto.
Qed.

Lemma In_delete_where (q : V -> bool) (t : list Row) (r : Row) :
  In r (delete_where q t) <-> In r t /\ q (proj r) = false.
Proof. unfold delete_where. by rewrite filter_In, negb_true_iff. Qed.

Lemma key_taken_spec (k : Key) (S : gset V) :
  key_taken k S = true <-> exists w, w ∈ S /\ keyv w = k.
Proof.
  unfold key_taken. rewrite existsb_exists.
  setoid_rewrite <- list_elem_of_In. setoid_rewrite elem_of_elements.
  setoid_rewrite bool_decide_eq_true. done.
Qed.

(** ** The uniqueness invariant *)
Lemma insert_preserves_unique (r : Row) (t : list Row) :
  unique_key t -> unique_key (insert_on_conflict_do_nothing r t).
Proof.
  unfold unique_key, insert_on_conflict_do_nothing. intros Hu.
  case_bool_decide as Hin; [done |].
  rewrite map_app. apply NoDup_app. split; [done | split; [| apply NoDup_singleton]].
  intros k Hk Hk'. apply list_elem_of_singleton in Hk'. subst. contradiction.
Qed.

Lemma delete_preserves_unique (q : V -> bool) (t : list Row) :
  unique_key t -> unique_key (delete_where q t).
Proof.
  unfold unique_key. induction t as [|r t IH]; intros Hu; [done |].
  simpl in Hu. apply NoDup_cons in Hu as [Hn Hu]. unfold delete_where. simpl.
  destruct (q (proj r)); simpl; [by apply IH |].
  apply NoDup_cons. split; [| by apply IH].
  intros Hin. apply Hn. apply list_elem_of_In, in_map_iff in Hin as (r' & Hk & Hr').
  apply In_delete_where in Hr' as [Hr' _].
  apply list_elem_of_In, in_map_iff. eauto.
Qed.

(** ** Refinement: the row operations implement the abstract ones *)
Lemma insert_view (r : Row) (t : list Row) :
  view (insert_on_conflict_do_nothing r t) = abs_insert (proj r) (view t).
Proof.
  unfold insert_on_conflict_do_nothing, abs_insert.
  case_bool_decide as Hin; apply key_in_rows_view in Hin || idtac.
  - unfold row_key in Hin. by rewrite Hin.
  - destruct (key_taken (keyv (proj r)) (view t)) eqn:Hk.
    + exfalso. apply Hin, key_in_rows_view, Hk.
    + rewrite view_app. unfold view at 2. simpl. set_solver.
Qed.

Lemma delete_view (q : V -> bool) (v : V) (t : list Row) :
  (forall w, q w = true <-> w = v) ->
  view (delete_where q t) = abs_delete v (view t).
Proof.
  intros Hq. apply set_eq. intros w. unfold abs_delete.
  rewrite elem_of_difference, elem_of_singleton, !elem_of_view.
  setoid_rewrite In_delete_where. split.
  - intros (r & [Hr Hqr] & <-). split; [eauto |].
    intros Heq. apply Hq in Heq. congruence.
  - intros [(r & Hr & <-) Hne]. exists r. split; [| done]. split; [done |].
    destruct (q (proj r)) eqn:E; [| done]. by apply Hq in E.
Qed.

Lemma insert_idempotent (r : Row) (t : list Row) :
  insert_on_conflict_do_nothing r (insert_on_conflict_do_nothing r t) =
  insert_on_conflict_do_nothing r t.
Proof.
  unfold insert_on_conflict_do_nothing at 1.
  rewrite bool_decide_eq_true_2; [done |].
  unfold insert_on_conflict_do_nothing.
  case_bool_decide; [done |]. rewrite map_app. apply elem_of_app.
  right. by apply list_elem_of_singleton.
Qed.

Lemma delete_idempotent (q : V -> bool) (t : list Row) :
  delete_where q (delete_where q t) = delete_where q t.
Proof.
  unfold delete_where. induction t as [|r t IH]; [done |]. simpl.
  destruct (q (proj r)) eqn:E; simpl; [done |]. by rewrite E, IH.
Qed.

Lemma insert_taken_noop (r : Row) (t : list Row) :
  row_key r ∈ map row_key t -> insert_on_conflict_do_nothing r t = t.
Proof. intros Hin. unfold insert_on_conflict_do_nothing. by rewrite bool_decide_eq_true_2. Qed.

Lemma insert_key_in (r : Row) (t : list Row) :
  row_key r ∈ map row_key (insert_on_conflict_do_nothing r t).
Proof.
  unfold insert_on_conflict_do_nothing. case_bool_decide; [done |].
  rewrite map_app. apply elem_of_app. right. by apply list_elem_of_singleton.
Qed.

(** Two inserts with the same conflict target: the second does nothing. *)
Lemma insert_same_key (r1 r2 : Row) (t : list Row) :
  row_key r1 = row_key r2 ->
  insert_on_conflict_do_nothing r2 (insert_on_conflict_do_nothing r1 t) =
  insert_on_conflict_do_nothing r1 t.
Proof. intros Hk. apply insert_taken_noop. rewrite <- Hk. apply insert_key_in. Qed.

(** Under the unique index a present key has exactly one row. *)
Lemma unique_key_one_row (k : Key) (t : list Row) :
  unique_key t -> k ∈ map row_key t -> length (rows_with_key k t) = 1%nat.
Proof.
  unfold unique_key, rows_with_key. induction t as [|r t IH]; simpl;
    intros Hu Hk; [by apply not_elem_of_nil in Hk |].
  apply NoDup_cons in Hu as [Hn Hu]. case_bool_decide as E; simpl.
  - f_equal. subst k. clear -Hn. induction t as [|r' t IH]; simpl; [done |].
    case_bool_decide as E'; simpl.
    + exfalso. apply Hn. rewrite <- E'. apply list_elem_of_here.
    + apply IH. intros Hin. apply Hn. simpl. by apply list_elem_of_further.
  - apply IH; [done |]. apply elem_of_cons in Hk as [-> | Hk]; [done | done].
Qed.

Lemma delete_where_app (q : V -> bool) (t1 t2 : list Row) :
  delete_where q (t1 ++ t2) = delete_where q t1 ++ delete_where q t2.
Proof.
  unfold delete_where. induction t1 as [|r t1 IH]; simpl; [done |].
  destruct (q (proj r)); simpl; by rewrite IH.
Qed.

(** A [where] clause that matches no row deletes nothing. *)
Lemma delete_where_none (q : V -> bool) (t : list Row) :
  (forall r, In r t -> q (proj r) = false) -> delete_where q t = t.
Proof.
  unfold delete_where. induction t as [|r t IH]; intros Hq; simpl; [done |].
  rewrite Hq by (left; done). simpl. f_equal. apply IH. intros r' Hr'. apply Hq. by right.
Qed.

(** ** Concurrent duplicate statements *)

Lemma key_taken_union_other (v : V) (k : Key) (S : gset V) :
  keyv v <> k -> key_taken k ({[v]} ∪ S) = key_taken k S.
Proof.
  intros Hk. apply Bool.eq_iff_eq_true. rewrite !key_taken_spec.
  split; intros (w & Hw & <-); exists w; [| set_solver].
  split; [| done]. apply elem_of_union in Hw as [Hw | Hw]; [| done].
  apply elem_of_singleton in Hw. by subst.
Qed.

(** Two abstract inserts commute unless they claim one conflict target
    with different values. *)
Lemma abs_insert_comm (v1 v2 : V) (S : gset V) :
  (keyv v1 = keyv v2 -> v1 = v2) ->
  abs_insert v1 (abs_insert v2 S) = abs_insert v2 (abs_insert v1 S).
Proof.
  intros Hv. destruct (decide (keyv v1 = keyv v2)) as [Hk | Hk]; [by rewrite (Hv Hk) |].
  unfold abs_insert.
  destruct (key_taken (keyv v2) S) eqn:E2, (key_taken (keyv v1) S) eqn:E1;
    rewrite ?E1, ?E2, ?key_taken_union_other, ?E1, ?E2 by done; try done.
  set_solver.
Qed.

Lemma insert_comm_view (r1 r2 : Row) (t : list Row) :
  (row_key r1 = row_key r2 -> proj r1 = proj r2) ->
  view (insert_on_conflict_do_nothing r1 (insert_on_conflict_do_nothing r2 t)) =
  view (insert_on_conflict_do_nothing r2 (insert_on_conflict_do_nothing r1 t)).
Proof.
  intros Hk. rewrite !insert_view. apply abs_insert_comm.
  intros Heq. by apply Hk.
Qed.

Lemma delete_where_comm (q1 q2 : V -> bool) (t : list Row) :
  delete_where q1 (delete_where q2 t) = delete_where q2 (delete_where q1 t).
Proof.
  unfold delete_where. induction t as [|r t IH]; [done |]. simpl.
  destruct (q1 (proj r)) eqn:E1, (q2 (proj r)) eqn:E2; simpl; rewrite ?E1, ?E2; simpl;
    by rewrite IH.
Qed.

(** ** The observable equivalence *)

#[global] Instance view_equiv_equivalence : Equivalence view_equiv.
Proof. unfold view_equiv. split; repeat intro; congruence. Qed.

#[global] Instance insert_proper (r : Row) :
  Proper (view_equiv ==> view_equiv) (insert_on_conflict_do_nothing r).
Proof. intros t1 t2 Ht. unfold view_equiv in *. by rewrite !insert_view, Ht. Qed.

#[global] Instance delete_proper (q : V -> bool) :
  Proper (view_equiv ==> view_equiv) (delete_where q).
Proof.
  intros t1 t2 Ht. unfold view_equiv in *. apply set_eq. intros w.
  rewrite !elem_of_view. setoid_rewrite In_delete_where.
  split; intros (r & [Hr Hq] & <-).
  - assert (proj r ∈ view t2) as Hv by (rewrite <- Ht; apply elem_of_view; eauto).
    apply elem_of_view in Hv as (r' & Hr' & Heq). exists r'. rewrite Heq. auto.
  - assert (proj r ∈ view t1) as Hv by (rewrite Ht; apply elem_of_view; eauto).
    apply elem_of_view in Hv as (r' & Hr' & Heq). exists r'. rewrite Heq. auto.
Qed.
End Table.

Arguments row_key {_ _ _} _ _ _.
