(* ===== verification/Store.v ===== *)
(** * The override tables, the server world and the action monad

    The three override tables of the schema ([blockedDatesTable], the ad-hoc
    availability table and the blocked-time-slot table) as instances of
    [Table], the server world (tables plus the log of [revalidatePath]
    calls), the state-and-exception monad [Act] in which the server actions
    run (a drizzle statement either throws or commits), and the two read
    routes [/api/blocked-dates] and [/api/blocked-time-slots], which are not
    part of the sources and are modelled from the specification: they filter
    by clinic and doctor and return the stored dates or times. *)

From stdpp Require Import base list gmap strings.
From Stdlib Require Import ZArith Lia.
From S2P Require Import Prelude Calendar Table.

Set Warnings "-clear-no-such-hyp".
Open Scope Z_scope.

(** [blockedDatesTable] and the ad-hoc table: [clinicId], [doctorId],
    [date] (a timestamp), [reason], [createdAt], [updatedAt]. *)
Record DateOverrideRow := {
  dr_clinicId : string;
  dr_doctorId : string;
  dr_date : instant;
  dr_reason : option string;
  dr_createdAt : instant;
  dr_updatedAt : instant
}.

(** The blocked-time-slot table adds the ["HH:mm"] [time] column. *)
Record SlotRow := {
  sr_clinicId : string;
  sr_doctorId : string;
  sr_date : instant;
  sr_time : string;
  sr_reason : option string;
  sr_createdAt : instant;
  sr_updatedAt : instant
}.

(** What the read routes see of a row: [(clinicId, doctorId, date)]. *)
Definition date_proj (r : DateOverrideRow) : string * string * instant :=
  (dr_clinicId r, dr_doctorId r, dr_date r).

(** [target: [blockedDatesTable.doctorId, blockedDatesTable.date]]: the
    conflict target leaves [clinicId] out. *)
Definition date_target (v : string * string * instant) : string * instant :=
  (v.1.2, v.2).

Definition slot_proj (r : SlotRow) : string * string * instant * string :=
  (sr_clinicId r, sr_doctorId r, sr_date r, sr_time r).

(** Spec-modelled: one row per (clinic, doctor, date, time). *)
Definition slot_target (v : string * string * instant * string) :
    string * string * instant * string := v.

Record Db := {
  blockedDatesTable : list DateOverrideRow;
  adHocAvailabilityTable : list DateOverrideRow;
  blockedTimeSlotsTable : list SlotRow
}.

(** The unique indexes of the three tables. *)
Definition db_ok (d : Db) : Prop :=
  unique_key date_proj date_target (blockedDatesTable d) /\
  unique_key date_proj date_target (adHocAvailabilityTable d) /\
  unique_key slot_proj slot_target (blockedTimeSlotsTable d).

Record World := {
  db : Db;
  revalidated : list string
}.

Definition set_blockedDates (t : list DateOverrideRow) (w : World) : World :=
  {| db := {| blockedDatesTable := t;
              adHocAvailabilityTable := adHocAvailabilityTable (db w);
              blockedTimeSlotsTable := blockedTimeSlotsTable (db w) |};
     revalidated := revalidated w |}.

Definition set_adHoc (t : list DateOverrideRow) (w : World) : World :=
  {| db := {| blockedDatesTable := blockedDatesTable (db w);
              adHocAvailabilityTable := t;
              blockedTimeSlotsTable := blockedTimeSlotsTable (db w) |};
     revalidated := revalidated w |}.

Definition set_slots (t : list SlotRow) (w : World) : World :=
  {| db := {| blockedDatesTable := blockedDatesTable (db w);
              adHocAvailabilityTable := adHocAvailabilityTable (db w);
              blockedTimeSlotsTable := t |};
     revalidated := revalidated w |}.

(** ** The action monad *)

(** What a [catch (error)] receives: an [Error] with its [message], or any
    other thrown value. *)
Inductive Thrown :=
  | ErrorObject (message : string)
  | NonErrorValue.

Definition Act (A : Type) : Type := World -> (Thrown + A) * World.

#[global] Instance Act_ret : MRet Act := fun A x w => (inr x, w).
#[global] Instance Act_bind : MBind Act := fun A B f m w =>
  match m w with
  | (inl e, w') => (inl e, w')
  | (inr a, w') => f a w'
  end.

Definition try_catch {A} (m : Act A) (handler : Thrown -> Act A) : Act A :=
  fun w => match m w with
           | (inl e, w') => handler e w'
           | r => r
           end.

(** One awaited drizzle statement: [fault] is the exception the database
    raises, if any; a statement that throws commits nothing. *)
Definition exec_stmt (fault : option Thrown) (f : World -> World) : Act unit :=
  fun w => match fault with
           | Some e => (inl e, w)
           | None => (inr tt, f w)
           end.

(** [revalidatePath(p)] from [next/cache]. *)
Definition revalidatePath (p : string) : Act unit :=
  fun w => (inr tt, {| db := db w; revalidated := revalidated w ++ [p] |}).

(** ** The read routes (spec-modelled) *)

Definition owned_by (clinicId doctorId : string) (v : string * string * instant) : bool :=
  bool_decide (v.1.1 = clinicId) && bool_decide (v.1.2 = doctorId).

(** The days (in the operating timezone) of the rows of one clinic and
    doctor, in table order. *)
Definition list_days (clinicId doctorId : string) (t : list DateOverrideRow) : list Z :=
  map (fun r => day_in APP_TIMEZONE (dr_date r))
      (List.filter (fun r => owned_by clinicId doctorId (date_proj r)) t).

(** [GET /api/blocked-dates?doctorId&clinicId]. *)
Definition blocked_dates_route (doctorId clinicId : string) (d : Db) : list Z * list Z :=
  (list_days clinicId doctorId (blockedDatesTable d),
   list_days clinicId doctorId (adHocAvailabilityTable d)).

(** The times of the slot rows of one clinic, doctor and stored date. *)
Definition slot_times (doctorId clinicId : string) (t : instant) (tbl : list SlotRow)
    : list string :=
  map sr_time (List.filter (fun r =>
      bool_decide (sr_clinicId r = clinicId) && bool_decide (sr_doctorId r = doctorId) &&
      bool_decide (sr_date r = t)) tbl).

(** [GET /api/blocked-time-slots?doctorId&clinicId&date]: the [date] string
    denotes a calendar day, stored at its midnight in the operating zone. *)
Definition blocked_time_slots_route (doctorId clinicId : string) (day : Z) (d : Db)
    : list string :=
  slot_times doctorId clinicId (midnight APP_TIMEZONE day) (blockedTimeSlotsTable d).

Lemma elem_of_slot_times (doctorId clinicId tm : string) (t : instant) (tbl : list SlotRow) :
  tm ∈ slot_times doctorId clinicId t tbl <->
  (clinicId, doctorId, t, tm) ∈ view slot_proj tbl.
Proof.
  unfold slot_times. rewrite elem_of_view, list_elem_of_In, in_map_iff.
  split.
  - intros (r & <- & Hr). apply filter_In in Hr as [Hr Hp].
    rewrite !andb_true_iff, !bool_decide_eq_true in Hp. destruct Hp as [[<- <-] <-].
    eauto.
  - intros (r & Hr & Hp). unfold slot_proj in Hp. injection Hp as Hc Hd Ht Htm.
    exists r. split; [done |]. apply filter_In. split; [done |].
    rewrite !andb_true_iff, !bool_decide_eq_true. done.
Qed.
