(* ===== verification/BlockDate.v ===== *)
(** * Mutation actions: [blockDate] and its two siblings

    [blockDate] ([src/actions/block-date.ts/index.ts]) runs behind
    next-safe-action: the zod schema [blockDateSchema] is checked first
    (a failure yields [validationErrors] and the body never runs), then the
    body reads the session, compares its clinic with the input, normalises
    the date and inserts or deletes one row inside [try]/[catch].  The
    actions [adHocAvailability] and [blockTimeSlot] that the modal imports
    are not in the sources; they are modelled from the specification with
    the same shape on their own tables ([SlotActions]).  The theorems: the
    refinement of the table by the abstract toggle, the error paths
    (authorisation, store exception), idempotence, one row per target,
    the block/unblock round trip, the commutation of duplicate toggles of
    one clinic, the unique indexes, and the two findings (the conflict
    target without [clinicId], impossible dates rolled over). *)

From stdpp Require Import base list gmap strings.
From Stdlib Require Import ZArith Lia Ascii.
From S2P Require Import Prelude Calendar Table Store.

Set Warnings "-clear-no-such-hyp".
Open Scope Z_scope.

(** ** The zod schema *)

Definition is_hex (c : ascii) : bool :=
  is_digit c ||
  ((97 <=? nat_of_ascii c)%nat && (nat_of_ascii c <=? 102)%nat) ||
  ((65 <=? nat_of_ascii c)%nat && (nat_of_ascii c <=? 70)%nat).

(** Consume [n] hexadecimal characters. *)
Fixpoint hex_run (n : nat) (cs : list ascii) : option (list ascii) :=
  match n, cs with
  | O, _ => Some cs
  | S n', c :: cs' => if is_hex c then hex_run n' cs' else None
  | S _, [] => None
  end.

Fixpoint uuid_groups (gs : list nat) (cs : list ascii) : bool :=
  match gs with
  | [] => false
  | [n] => match hex_run n cs with Some [] => true | _ => false end
  | n :: gs' =>
      match hex_run n cs with
      | Some (c :: rest) => bool_decide (c = "-"%char) && uuid_groups gs' rest
      | _ => false
      end
  end.

(** [z.string().uuid()]:
    [/^[0-9a-fA-F]{8}\b-[0-9a-fA-F]{4}\b-[0-9a-fA-F]{4}\b-[0-9a-fA-F]{4}\b-[0-9a-fA-F]{12}$/i]. *)
Definition is_uuid (s : string) : bool :=
  uuid_groups [8; 4; 4; 4; 12]%nat (String.list_ascii_of_string s).

(** The input of [blockDate]: [reason] is [z.string().optional().nullable()]. *)
Record BlockDateInput := {
  in_doctorId : string;
  in_clinicId : string;
  in_date : string;
  in_block : bool;
  in_reason : option string
}.

(** [blockDateSchema.safeParse]. *)
Definition blockDateSchema_parse (i : BlockDateInput) : option BlockDateInput :=
  if is_uuid (in_doctorId i) && is_uuid (in_clinicId i) && date_regex (in_date i)
  then Some i else None.

(** The object the body returns: [{ success, error?, block }]. *)
Record ToggleResult := {
  res_success : bool;
  res_error : option string;
  res_flag : bool
}.

(** What [useAction] receives from next-safe-action. *)
Inductive SafeActionResult (A : Type) :=
  | ValidationErrors
  | ActionData (a : A).
Arguments ValidationErrors {A}.
Arguments ActionData {A} a.

(** The request context: [session?.user?.clinic?.id], the exception the
    database raises on this call if any, and [new Date()]. *)
Record Env := {
  env_session_clinic : option string;
  env_fault : option Thrown;
  env_now : instant
}.

(** ** The body of [blockDate] *)

(** [if (!session?.user?.clinic?.id)]: a missing or empty id is falsy. *)
Definition clinic_missing (s : option string) : bool :=
  match s with
  | None => true
  | Some id => bool_decide (id = "")
  end.

(** The two early returns of the body, as the error message they carry. *)
Definition authorize (s : option string) (clinicId : string) : option string :=
  if clinic_missing s then Some "Clínica não encontrada ou não autorizado."
  else if bool_decide (s = Some clinicId) then None
  else Some "Clínica incompatível ou não autorizado para esta operação.".

(** [parsedInput.reason || null]: the empty string is falsy. *)
Definition or_null (r : option string) : option string :=
  match r with
  | Some "" => None
  | r => r
  end.

(** [error instanceof Error ? error.message : fallback] *)
Definition thrown_message (e : Thrown) (fallback : string) : string :=
  match e with
  | ErrorObject m => m
  | NonErrorValue => fallback
  end.

Definition throw {A} (e : Thrown) : Act A := fun w => (inl e, w).

(** [and(eq(t.clinicId, c), eq(t.doctorId, d), eq(t.date, x))] *)
Definition matches_date_row (clinicId doctorId : string) (x : instant)
    (v : string * string * instant) : bool :=
  bool_decide (v.1.1 = clinicId) && bool_decide (v.1.2 = doctorId) && bool_decide (v.2 = x).

(** The row of [.values({...})]: [createdAt] and [updatedAt] are both
    [new Date()]. *)
Definition new_date_row (p : BlockDateInput) (t now : instant) : DateOverrideRow :=
  {| dr_clinicId := in_clinicId p; dr_doctorId := in_doctorId p;
     dr_date := t; dr_reason := or_null (in_reason p);
     dr_createdAt := now; dr_updatedAt := now |}.

(** Lines 56-80: [if (parsedInput.block)] the insert with [onConflictDoNothing]
    on the [(doctorId, date)] target, else the delete of the clinic's row; the
    table the awaited statement leaves behind when it commits. *)
Definition blocked_after (p : BlockDateInput) (t now : instant)
    (tbl : list DateOverrideRow) : list DateOverrideRow :=
  if in_block p
  then insert_on_conflict_do_nothing date_proj date_target (new_date_row p t now) tbl
  else delete_where date_proj (matches_date_row (in_clinicId p) (in_doctorId p) t) tbl.

(** Lines 31-96.  [targetDate] (lines 50-53) is computed before the
    [try] of line 55; its [None] case is unreachable behind the schema,
    whose regex is exactly what [normalize_date] needs
    ([normalize_date_regex]).  Were it reached, dayjs would give an
    [Invalid Date] that the statement inside the [try] rejects, which is
    where the model raises it. *)
Definition blockDate_body (env : Env) (p : BlockDateInput) : Act ToggleResult :=
  match authorize (env_session_clinic env) (in_clinicId p) with
  | Some msg => mret {| res_success := false; res_error := Some msg; res_flag := in_block p |}
  | None =>
      let targetDate := normalize_date APP_TIMEZONE (in_date p) in
      try_catch
        (match targetDate with
         | None => throw (ErrorObject "Invalid time value")
         | Some t =>
             exec_stmt (env_fault env) (fun w => set_blockedDates
               (blocked_after p t (env_now env) (blockedDatesTable (db w))) w) ;;
             revalidatePath "/public-booking" ;;
             revalidatePath "/doctors" ;;
             revalidatePath "/api/available-slots" ;;
             mret {| res_success := true; res_error := None; res_flag := in_block p |}
         end)
        (fun e => mret {| res_success := false;
                          res_error := Some (thrown_message e "Falha ao operar a data.");
                          res_flag := in_block p |})
  end.

(** [blockDate = actionClient.schema(blockDateSchema).action(...)]. *)
Definition blockDate (env : Env) (i : BlockDateInput) : Act (SafeActionResult ToggleResult) :=
  match blockDateSchema_parse i with
  | None => mret ValidationErrors
  | Some p => r ← blockDate_body env p; mret (ActionData r)
  end.

Definition REVALIDATED_PATHS : list string :=
  ["/public-booking"; "/doctors"; "/api/available-slots"].

(** The same request with the flag flipped (the modal sends
    [block: !isDateBlocked(selectedDate)]). *)
Definition with_block (i : BlockDateInput) (b : bool) : BlockDateInput :=
  {| in_doctorId := in_doctorId i; in_clinicId := in_clinicId i; in_date := in_date i;
     in_block := b; in_reason := in_reason i |}.

(** ** A concrete request

    Dr. Ana of [sample_doctor]'s clinic, Monday 2024-06-10 (day 19884). *)

Definition example_doctorId : string := "8a6e0804-2bd0-4672-b79d-d97027f9071a".
Definition example_clinicId : string := "3f1c5b8e-6d2a-4c1e-9b7f-0a2d4e6f8b10".
Definition other_clinicId : string := "3f1c5b8e-6d2a-4c1e-9b7f-0a2d4e6f8b11".

Definition example_input : BlockDateInput :=
  {| in_doctorId := example_doctorId; in_clinicId := example_clinicId;
     in_date := "2024-06-10"; in_block := true; in_reason := Some "Congresso" |}.

Definition example_day : instant := midnight APP_TIMEZONE 19884.

Definition example_env : Env :=
  {| env_session_clinic := Some example_clinicId; env_fault := None; env_now := 0 |}.

Definition later_env : Env :=
  {| env_session_clinic := Some example_clinicId; env_fault := None; env_now := 3600 |}.

Definition failing_env : Env :=
  {| env_session_clinic := Some example_clinicId;
     env_fault := Some (ErrorObject "connection refused"); env_now := 0 |}.

Definition foreign_env : Env :=
  {| env_session_clinic := Some other_clinicId; env_fault := None; env_now := 0 |}.

Definition empty_tables_world : World :=
  {| db := {| blockedDatesTable := []; adHocAvailabilityTable := [];
              blockedTimeSlotsTable := [] |}; revalidated := [] |}.

(** Another clinic's block of the same doctor and day. *)
Definition other_clinic_row : DateOverrideRow :=
  {| dr_clinicId := other_clinicId; dr_doctorId := example_doctorId; dr_date := example_day;
     dr_reason := None; dr_createdAt := 0; dr_updatedAt := 0 |}.

Definition shared_world : World :=
  {| db := {| blockedDatesTable := [other_clinic_row]; adHocAvailabilityTable := [];
              blockedTimeSlotsTable := [] |}; revalidated := [] |}.

(** The same block sent from a second session of the clinic, with another
    reason. *)
Definition second_input : BlockDateInput :=
  {| in_doctorId := example_doctorId; in_clinicId := example_clinicId;
     in_date := "2024-06-10"; in_block := true; in_reason := Some "Feriado" |}.

(** ** Running the action *)

Ltac run_act :=
  unfold mbind, mret, Act_bind, Act_ret, try_catch, exec_stmt, revalidatePath, throw;
  simpl.

Lemma normalize_date_regex (tz : TimeZone) (s : string) :
  date_regex s = true -> exists t, normalize_date tz s = Some t.
Proof.
  unfold date_regex, normalize_date. destruct (date_regex_groups s) as [[[ys ms] ds]|];
    [eauto | discriminate].
Qed.

Lemma blockDateSchema_parse_date (i p : BlockDateInput) :
  blockDateSchema_parse i = Some p -> p = i /\ date_regex (in_date i) = true.
Proof.
  unfold blockDateSchema_parse. destruct (date_regex (in_date i)) eqn:E;
    rewrite ?andb_true_r, ?andb_false_r; [| discriminate].
  destruct (_ && _); [|discriminate]. intros [= <-]. done.
Qed.

Lemma authorize_same (c : string) : c <> "" -> authorize (Some c) c = None.
Proof.
  intros Hc. unfold authorize, clinic_missing.
  rewrite bool_decide_eq_false_2 by done. by rewrite bool_decide_eq_true_2.
Qed.

Lemma authorize_other (s : option string) (c : string) :
  s <> Some c -> exists msg, authorize s c = Some msg.
Proof.
  intros Hs. unfold authorize. destruct (clinic_missing s); [eauto |].
  rewrite bool_decide_eq_false_2 by done. eauto.
Qed.

(** The whole action once the schema and the session check pass. *)
Lemma blockDate_run (env : Env) (i : BlockDateInput) (w : World) (t : instant) :
  blockDateSchema_parse i = Some i ->
  env_session_clinic env = Some (in_clinicId i) -> in_clinicId i <> "" ->
  normalize_date APP_TIMEZONE (in_date i) = Some t ->
  blockDate env i w =
  match env_fault env with
  | None =>
      (inr (ActionData {| res_success := true; res_error := None; res_flag := in_block i |}),
       {| db := db (set_blockedDates (blocked_after i t (env_now env)
                                        (blockedDatesTable (db w))) w);
          revalidated := revalidated w ++ REVALIDATED_PATHS |})
  | Some e =>
      (inr (ActionData {| res_success := false;
                          res_error := Some (thrown_message e "Falha ao operar a data.");
                          res_flag := in_block i |}), w)
  end.
Proof.
  intros Hp Hs Hc Ht. unfold blockDate. rewrite Hp. unfold blockDate_body.
  rewrite Hs, authorize_same, Ht by done.
  destruct (env_fault env); run_act; rewrite <- ?app_assoc; done.
Qed.

Lemma matches_date_row_spec (c d : string) (x : instant) (v : string * string * instant) :
  matches_date_row c d x v = true <-> v = (c, d, x).
Proof.
  destruct v as [[a b] y]. unfold matches_date_row. simpl.
  rewrite !andb_true_iff, !bool_decide_eq_true. split.
  - intros [[-> ->] ->]. done.
  - intros [= -> -> ->]. done.
Qed.

Lemma blockDateSchema_with_block (i : BlockDateInput) (b : bool) :
  blockDateSchema_parse i = Some i -> blockDateSchema_parse (with_block i b) = Some (with_block i b).
Proof.
  unfold blockDateSchema_parse. simpl. by destruct (_ && _ && _).
Qed.

(** C2: a caller whose session carries no clinic, or another clinic than
    the input's, gets a failure (or a validation error) and the world,
    tables and revalidation log alike, is left as it was. *)
Theorem blockDate_unauthorized (env : Env) (i : BlockDateInput) (w : World) :
  env_session_clinic env <> Some (in_clinicId i) ->
  snd (blockDate env i w) = w /\
  (forall r, fst (blockDate env i w) = inr (ActionData r) -> res_success r = false).
Proof.
  intros Hne. unfold blockDate. destruct (blockDateSchema_parse i) eqn:E.
  - apply blockDateSchema_parse_date in E as [-> _]. unfold blockDate_body.
    destruct (authorize_other _ _ Hne) as [msg ->]. run_act.
    split; [done | intros r [= <-]; done].
  - run_act. split; [done | discriminate].
Qed.

Section Authorized.
Variable env : Env.
Variable i : BlockDateInput.
Variable t : instant.
Hypothesis Hparse : blockDateSchema_parse i = Some i.
Hypothesis Hsession : env_session_clinic env = Some (in_clinicId i).
Hypothesis Hclinic : in_clinicId i <> "".
Hypothesis Hdate : normalize_date APP_TIMEZONE (in_date i) = Some t.

(** C15: a database exception is caught: the caller gets [success: false]
    with the exception's message (or the fallback), and nothing is
    written or revalidated. *)
Theorem blockDate_store_error (e : Thrown) (w : World) :
  env_fault env = Some e ->
  blockDate env i w =
  (inr (ActionData {| res_success := false;
                      res_error := Some (thrown_message e "Falha ao operar a data.");
                      res_flag := in_block i |}), w).
Proof. intros Hf. by rewrite (blockDate_run env i w t), Hf. Qed.

(** C1: refinement.  When the statement commits, the action reports
    success and the set of (clinic, doctor, date) blocks the read routes
    see changes exactly as the abstract toggle prescribes: [abs_insert]
    (a no-op when the (doctor, date) target is taken) or [abs_delete];
    the other tables are untouched. *)
Theorem blockDate_refines (w : World) :
  env_fault env = None ->
  fst (blockDate env i w) =
    inr (ActionData {| res_success := true; res_error := None; res_flag := in_block i |}) /\
  view date_proj (blockedDatesTable (db (snd (blockDate env i w)))) =
    (if in_block i then abs_insert date_target else abs_delete)
      (in_clinicId i, in_doctorId i, t) (view date_proj (blockedDatesTable (db w))) /\
  adHocAvailabilityTable (db (snd (blockDate env i w))) = adHocAvailabilityTable (db w) /\
  blockedTimeSlotsTable (db (snd (blockDate env i w))) = blockedTimeSlotsTable (db w).
Proof.
  intros Hf. rewrite (blockDate_run env i w t), Hf by done. simpl.
  split; [done | split; [| done]]. unfold blocked_after.
  destruct (in_block i).
  - by rewrite insert_view.
  - apply delete_view. intros v. apply matches_date_row_spec.
Qed.

(** C8: idempotence.  Repeating the same toggle (even with a later
    clock) succeeds again and leaves the database as the first call left
    it. *)
Theorem blockDate_idempotent (env2 : Env) (w : World) :
  env_fault env = None ->
  env_session_clinic env2 = env_session_clinic env -> env_fault env2 = None ->
  fst (blockDate env2 i (snd (blockDate env i w))) = fst (blockDate env i w) /\
  db (snd (blockDate env2 i (snd (blockDate env i w)))) = db (snd (blockDate env i w)).
Proof.
  intros Hf Hs2 Hf2.
  rewrite (blockDate_run env i w t), Hf by done. simpl.
  rewrite (blockDate_run env2 i _ t), Hf2 by congruence. simpl.
  split; [done |]. f_equal. unfold blocked_after. destruct (in_block i).
  - by apply insert_same_key.
  - apply delete_idempotent.
Qed.

(** C16: after a committed block the (doctor, date) target has exactly one
    row, whatever rows were there before. *)
Theorem blockDate_one_row (w : World) :
  env_fault env = None -> in_block i = true ->
  unique_key date_proj date_target (blockedDatesTable (db w)) ->
  length (rows_with_key date_proj date_target (in_doctorId i, t)
            (blockedDatesTable (db (snd (blockDate env i w))))) = 1%nat.
Proof.
  intros Hf Hb Hu. rewrite (blockDate_run env i w t), Hf by done. simpl.
  unfold blocked_after. rewrite Hb.
  apply unique_key_one_row; [by apply insert_preserves_unique |].
  apply (insert_key_in date_proj date_target (new_date_row i t (env_now env))).
Qed.

(** C17: round trip.  Blocking a day that had no row for its (doctor, date)
    target and then unblocking it restores the table exactly. *)
Theorem blockDate_roundtrip (env2 : Env) (w : World) :
  env_fault env = None -> env_session_clinic env2 = env_session_clinic env ->
  env_fault env2 = None -> in_block i = true ->
  (in_doctorId i, t) ∉ map (row_key date_proj date_target) (blockedDatesTable (db w)) ->
  blockedDatesTable
    (db (snd (blockDate env2 (with_block i false) (snd (blockDate env i w))))) =
  blockedDatesTable (db w).
Proof.
  intros Hf Hs2 Hf2 Hb Hnot.
  rewrite (blockDate_run env i w t), Hf by done. simpl.
  rewrite (blockDate_run env2 (with_block i false) _ t), Hf2;
    [| by apply blockDateSchema_with_block | simpl; congruence | done | done].
  simpl. unfold blocked_after. rewrite Hb. simpl.
  unfold insert_on_conflict_do_nothing. rewrite bool_decide_eq_false_2 by done.
  rewrite delete_where_app. unfold delete_where at 2. simpl.
  unfold matches_date_row at 2. simpl. rewrite !bool_decide_eq_true_2 by done. simpl.
  rewrite app_nil_r. apply (delete_where_none date_proj). intros r Hr.
  destruct (matches_date_row _ _ _ _) eqn:E; [| done]. exfalso.
  apply matches_date_row_spec in E. apply Hnot.
  apply list_elem_of_In, in_map_iff. exists r. split; [| done].
  unfold row_key, date_target. by rewrite E.
Qed.

(** C9: the conflict target [(doctorId, date)] omits [clinicId].  When
    another clinic already holds a row for the same doctor and date, this
    clinic's block reports success, writes nothing, and this clinic ends
    with no block for that doctor and date. *)
Theorem blockDate_conflict_other_clinic (w : World) (r : DateOverrideRow) :
  env_fault env = None -> in_block i = true ->
  In r (blockedDatesTable (db w)) -> dr_doctorId r = in_doctorId i -> dr_date r = t ->
  dr_clinicId r <> in_clinicId i ->
  unique_key date_proj date_target (blockedDatesTable (db w)) ->
  fst (blockDate env i w) =
    inr (ActionData {| res_success := true; res_error := None; res_flag := true |}) /\
  blockedDatesTable (db (snd (blockDate env i w))) = blockedDatesTable (db w) /\
  (in_clinicId i, in_doctorId i, t) ∉ view date_proj (blockedDatesTable (db (snd (blockDate env i w)))).
Proof.
  intros Hf Hb Hr Hd Ht Hc Hu.
  assert (blocked_after i t (env_now env) (blockedDatesTable (db w)) = blockedDatesTable (db w))
    as Hnoop.
  { unfold blocked_after. rewrite Hb. apply insert_taken_noop.
    apply list_elem_of_In, in_map_iff. exists r. split; [| done].
    unfold row_key, date_target, date_proj. simpl. by rewrite Hd, Ht. }
  rewrite (blockDate_run env i w t), Hf by done. simpl. rewrite Hnoop, Hb.
  split; [done | split; [done |]].
  intros Hin. apply elem_of_view in Hin as (r' & Hr' & Hp).
  assert (r' = r) as ->.
  { apply (NoDup_map_in_eq (row_key date_proj date_target) _ _ _ Hu Hr' Hr).
    unfold row_key, date_target. rewrite Hp. unfold date_proj. simpl. by rewrite Hd, Ht. }
  unfold date_proj in Hp. simplify_eq.
Qed.
End Authorized.

(** Concurrent duplicate toggles commute (section 5 of the
    specification).  Two committed [blockDate] calls of one clinic that both
    block, or both unblock, leave the same set of (clinic, doctor, date)
    blocks whichever runs first; only the stored reason and timestamps
    (those of the first insert) depend on the order.  Across clinics the
    order matters ([blockDate_conflict_other_clinic]). *)
Theorem blockDate_duplicates_commute (env1 env2 : Env) (i1 i2 : BlockDateInput)
    (t1 t2 : instant) (w : World) :
  blockDateSchema_parse i1 = Some i1 -> blockDateSchema_parse i2 = Some i2 ->
  env_session_clinic env1 = Some (in_clinicId i1) ->
  env_session_clinic env2 = Some (in_clinicId i2) ->
  in_clinicId i1 = in_clinicId i2 -> in_clinicId i1 <> "" ->
  normalize_date APP_TIMEZONE (in_date i1) = Some t1 ->
  normalize_date APP_TIMEZONE (in_date i2) = Some t2 ->
  env_fault env1 = None -> env_fault env2 = None -> in_block i1 = in_block i2 ->
  view_equiv date_proj (blockedDatesTable (db (snd (blockDate env2 i2 (snd (blockDate env1 i1 w))))))
                       (blockedDatesTable (db (snd (blockDate env1 i1 (snd (blockDate env2 i2 w)))))).
Proof.
  intros Hp1 Hp2 Hs1 Hs2 Hc Hne Ht1 Ht2 Hf1 Hf2 Hb.
  rewrite (blockDate_run env1 i1 w t1), Hf1 by done. simpl.
  rewrite (blockDate_run env2 i2 _ t2), Hf2 by congruence. simpl.
  rewrite (blockDate_run env2 i2 w t2), Hf2 by congruence. simpl.
  rewrite (blockDate_run env1 i1 _ t1), Hf1 by done. simpl.
  unfold view_equiv, blocked_after. rewrite <- Hb. destruct (in_block i1).
  - apply insert_comm_view. unfold row_key, date_target, date_proj. simpl.
    intros [= -> ->]. by rewrite Hc.
  - by rewrite delete_where_comm.
Qed.

(** C24: every run of [blockDate], whatever its outcome, keeps the unique
    indexes of the three tables. *)
Theorem blockDate_preserves_db_ok (env : Env) (i : BlockDateInput) (w : World) :
  db_ok (db w) -> db_ok (db (snd (blockDate env i w))).
Proof.
  intros (H1 & H2 & H3). unfold blockDate.
  destruct (blockDateSchema_parse i) as [p|]; [| run_act; done].
  unfold blockDate_body. destruct (authorize _ _); [run_act; done |].
  destruct (normalize_date _ _); [| run_act; done].
  destruct (env_fault env); run_act; try done.
  repeat split; try done. unfold blocked_after. destruct (in_block p).
  - by apply insert_preserves_unique.
  - by apply delete_preserves_unique.
Qed.

(** C25: the schema's regex admits impossible calendar dates, and dayjs
    rolls them over: blocking ["2024-02-30"] does exactly what blocking
    ["2024-03-01"] does. *)
Theorem blockDate_impossible_date_aliases (env : Env) (d c : string) (b : bool)
    (reason : option string) (w : World) :
  is_uuid d = true -> is_uuid c = true ->
  blockDate env {| in_doctorId := d; in_clinicId := c; in_date := "2024-02-30";
                   in_block := b; in_reason := reason |} w =
  blockDate env {| in_doctorId := d; in_clinicId := c; in_date := "2024-03-01";
                   in_block := b; in_reason := reason |} w.
Proof.
  intros Hd Hc.
  assert (normalize_date APP_TIMEZONE "2024-02-30" = normalize_date APP_TIMEZONE "2024-03-01")
    as Hn by (vm_compute; reflexivity).
  unfold blockDate, blockDateSchema_parse. cbn [in_doctorId in_clinicId in_date].
  rewrite Hd, Hc. vm_compute (date_regex _). cbn [andb].
  unfold blockDate_body. cbn [in_date in_clinicId in_doctorId in_block in_reason].
  rewrite Hn. reflexivity.
Qed.

(** ** Witnesses *)
Lemma blockDate_unauthorized_witness :
  snd (blockDate foreign_env example_input empty_tables_world) = empty_tables_world /\
  (forall r, fst (blockDate foreign_env example_input empty_tables_world) = inr (ActionData r) ->
             res_success r = false).
Proof. apply blockDate_unauthorized. concrete. Defined.

Lemma blockDate_store_error_witness :
  blockDate failing_env example_input empty_tables_world =
  (inr (ActionData {| res_success := false;
                      res_error := Some (thrown_message (ErrorObject "connection refused")
                                                        "Falha ao operar a data.");
                      res_flag := in_block example_input |}), empty_tables_world).
Proof. eapply (blockDate_store_error failing_env example_input example_day); concrete. Defined.

Lemma blockDate_refines_witness :
  view date_proj (blockedDatesTable (db (snd (blockDate example_env example_input empty_tables_world)))) =
  {[(example_clinicId, example_doctorId, example_day)]}.
Proof.
  edestruct (blockDate_refines example_env example_input example_day) as (_ & -> & _);
    concrete.
Defined.

Lemma blockDate_idempotent_witness :
  db (snd (blockDate later_env example_input (snd (blockDate example_env example_input empty_tables_world)))) =
  db (snd (blockDate example_env example_input empty_tables_world)).
Proof.
  edestruct (blockDate_idempotent example_env example_input example_day) as (_ & ->);
    concrete.
Defined.

Lemma blockDate_one_row_witness :
  length (rows_with_key date_proj date_target (example_doctorId, example_day)
            (blockedDatesTable (db (snd (blockDate example_env example_input empty_tables_world))))) = 1%nat.
Proof. apply (blockDate_one_row example_env example_input example_day); concrete. Defined.

Lemma blockDate_roundtrip_witness :
  blockedDatesTable (db (snd (blockDate later_env (with_block example_input false)
                           (snd (blockDate example_env example_input empty_tables_world))))) = [].
Proof. apply (blockDate_roundtrip example_env example_input example_day); concrete. Defined.

Lemma blockDate_conflict_other_clinic_witness :
  blockedDatesTable (db (snd (blockDate example_env example_input shared_world))) = [other_clinic_row].
Proof.
  edestruct (blockDate_conflict_other_clinic example_env example_input example_day)
    with (w := shared_world) (r := other_clinic_row) as (_ & -> & _); concrete.
Defined.

Lemma blockDate_preserves_db_ok_witness :
  db_ok (db (snd (blockDate example_env example_input shared_world))).
Proof. apply blockDate_preserves_db_ok. concrete. Defined.

Lemma blockDate_impossible_date_aliases_witness :
  blockDate example_env {| in_doctorId := example_doctorId; in_clinicId := example_clinicId;
                           in_date := "2024-02-30"; in_block := true; in_reason := None |}
            empty_tables_world =
  blockDate example_env {| in_doctorId := example_doctorId; in_clinicId := example_clinicId;
                           in_date := "2024-03-01"; in_block := true; in_reason := None |}
            empty_tables_world.
Proof. apply blockDate_impossible_date_aliases; concrete. Defined.

Lemma blockDate_duplicates_commute_witness :
  view_equiv date_proj
    (blockedDatesTable (db (snd (blockDate later_env second_input
                                   (snd (blockDate example_env example_input empty_tables_world))))))
    (blockedDatesTable (db (snd (blockDate example_env example_input
                                   (snd (blockDate later_env second_input empty_tables_world)))))).
Proof.
  apply (blockDate_duplicates_commute example_env later_env example_input second_input
           example_day example_day); concrete.
Defined.
