(* ===== verification/SlotActions.v ===== *)
(** * The spec-modelled actions [adHocAvailability] and [blockTimeSlot]

    The modal imports [@/actions/ad-hoc-availability.ts] and
    [@/actions/block-time-slot.ts], which are not among the sources.  They
    are modelled from the specification (section 4.4) with the shape of
    [blockDate]: schema, session check, date normalisation, one insert (ON
    CONFLICT DO NOTHING) or delete in [try]/[catch], then revalidation.
    [toggle_body] is that shared shape; [toggle_body_run] runs it. *)

From stdpp Require Import base list gmap strings.
From Stdlib Require Import ZArith Lia Ascii.
From S2P Require Import Prelude Calendar Table Store BlockDate.

Set Warnings "-clear-no-such-hyp".
Open Scope Z_scope.

(** The body shared by the two actions: [stmt t] is the write on the
    normalised date [t]. *)
Definition toggle_body (env : Env) (clinicId date : string) (flag : bool)
    (fallback : string) (stmt : instant -> World -> World) : Act ToggleResult :=
  match authorize (env_session_clinic env) clinicId with
  | Some msg => mret {| res_success := false; res_error := Some msg; res_flag := flag |}
  | None =>
      try_catch
        (match normalize_date APP_TIMEZONE date with
         | None => throw (ErrorObject "Invalid time value")
         | Some t =>
             exec_stmt (env_fault env) (stmt t) ;;
             revalidatePath "/public-booking" ;;
             revalidatePath "/doctors" ;;
             revalidatePath "/api/available-slots" ;;
             mret {| res_success := true; res_error := None; res_flag := flag |}
         end)
        (fun e => mret {| res_success := false;
                          res_error := Some (thrown_message e fallback);
                          res_flag := flag |})
  end.

(** [adHocAvailability({ doctorId, clinicId, date, available, reason })];
    [in_block] carries [available]. *)
Definition adHocAvailability (env : Env) (i : BlockDateInput)
    : Act (SafeActionResult ToggleResult) :=
  match blockDateSchema_parse i with
  | None => mret ValidationErrors
  | Some p =>
      r ← toggle_body env (in_clinicId p) (in_date p) (in_block p)
            "Falha ao operar a disponibilidade."
            (fun t w => set_adHoc
               (if in_block p
                then insert_on_conflict_do_nothing date_proj date_target
                       (new_date_row p t (env_now env)) (adHocAvailabilityTable (db w))
                else delete_where date_proj
                       (matches_date_row (in_clinicId p) (in_doctorId p) t)
                       (adHocAvailabilityTable (db w))) w) ;
      mret (ActionData r)
  end.

Record SlotInput := {
  si_doctorId : string;
  si_clinicId : string;
  si_date : string;
  si_time : string;
  si_block : bool;
  si_reason : option string
}.

(** The schema adds an ["HH:mm"] [time]. *)
Definition blockTimeSlotSchema_parse (i : SlotInput) : option SlotInput :=
  if is_uuid (si_doctorId i) && is_uuid (si_clinicId i) && date_regex (si_date i) &&
     match decode_HHmm (si_time i) with Some _ => true | None => false end
  then Some i else None.

Definition new_slot_row (p : SlotInput) (t now : instant) : SlotRow :=
  {| sr_clinicId := si_clinicId p; sr_doctorId := si_doctorId p; sr_date := t;
     sr_time := si_time p; sr_reason := or_null (si_reason p);
     sr_createdAt := now; sr_updatedAt := now |}.

Definition matches_slot_row (p : SlotInput) (t : instant)
    (v : string * string * instant * string) : bool :=
  bool_decide (v = (si_clinicId p, si_doctorId p, t, si_time p)).

(** The table [blockTimeSlot] leaves behind when its statement commits. *)
Definition slots_after (p : SlotInput) (t now : instant) (tbl : list SlotRow) : list SlotRow :=
  if si_block p
  then insert_on_conflict_do_nothing slot_proj slot_target (new_slot_row p t now) tbl
  else delete_where slot_proj (matches_slot_row p t) tbl.

(** [blockTimeSlot({ doctorId, clinicId, date, time, block, reason })]. *)
Definition blockTimeSlot (env : Env) (i : SlotInput) : Act (SafeActionResult ToggleResult) :=
  match blockTimeSlotSchema_parse i with
  | None => mret ValidationErrors
  | Some p =>
      r ← toggle_body env (si_clinicId p) (si_date p) (si_block p)
            "Falha ao operar o horário."
            (fun t w => set_slots (slots_after p t (env_now env) (blockedTimeSlotsTable (db w))) w) ;
      mret (ActionData r)
  end.

(** The same request with [block] set to [b] (the button's next click). *)
Definition with_slot_block (i : SlotInput) (b : bool) : SlotInput :=
  {| si_doctorId := si_doctorId i; si_clinicId := si_clinicId i; si_date := si_date i;
     si_time := si_time i; si_block := b; si_reason := si_reason i |}.

(** ** Running the shared body *)
Lemma toggle_body_run (env : Env) (c date : string) (flag : bool) (fb : string)
    (stmt : instant -> World -> World) (t : instant) (w : World) :
  env_session_clinic env = Some c -> c <> "" ->
  normalize_date APP_TIMEZONE date = Some t ->
  toggle_body env c date flag fb stmt w =
  match env_fault env with
  | None => (inr {| res_success := true; res_error := None; res_flag := flag |},
             {| db := db (stmt t w); revalidated := revalidated (stmt t w) ++ REVALIDATED_PATHS |})
  | Some e => (inr {| res_success := false; res_error := Some (thrown_message e fb);
                      res_flag := flag |}, w)
  end.
Proof.
  intros Hs Hc Ht. unfold toggle_body. rewrite Hs, authorize_same, Ht by done.
  destruct (env_fault env); run_act; rewrite <- ?app_assoc; done.
Qed.

Lemma blockTimeSlot_run (env : Env) (i : SlotInput) (t : instant) (w : World) :
  blockTimeSlotSchema_parse i = Some i ->
  env_session_clinic env = Some (si_clinicId i) -> si_clinicId i <> "" ->
  normalize_date APP_TIMEZONE (si_date i) = Some t ->
  blockTimeSlot env i w =
  match env_fault env with
  | None =>
      (inr (ActionData {| res_success := true; res_error := None; res_flag := si_block i |}),
       {| db := db (set_slots (slots_after i t (env_now env) (blockedTimeSlotsTable (db w))) w);
          revalidated := revalidated w ++ REVALIDATED_PATHS |})
  | Some e =>
      (inr (ActionData {| res_success := false;
                          res_error := Some (thrown_message e "Falha ao operar o horário.");
                          res_flag := si_block i |}), w)
  end.
Proof.
  intros Hp Hs Hc Ht. unfold blockTimeSlot. rewrite Hp. unfold mbind, Act_bind.
  rewrite (toggle_body_run env _ _ _ _ _ t w Hs Hc Ht).
  destruct (env_fault env); run_act; done.
Qed.

(** What the slot route returns after a committed [blockTimeSlot]: the
    toggled time is present exactly when [block] was set, every other time
    keeps its membership. *)
Lemma slot_times_after (p : SlotInput) (t now : instant) (tbl : list SlotRow) (tm : string) :
  tm ∈ slot_times (si_doctorId p) (si_clinicId p) t (slots_after p t now tbl) <->
  (if bool_decide (tm = si_time p) then si_block p = true
   else tm ∈ slot_times (si_doctorId p) (si_clinicId p) t tbl).
Proof.
  rewrite !elem_of_slot_times. unfold slots_after. destruct (si_block p).
  - rewrite insert_view. unfold abs_insert.
    destruct (key_taken _ _) eqn:Hk.
    + apply key_taken_spec in Hk as (w & Hw & Hwk). unfold slot_target in Hwk. subst w.
      case_bool_decide; subst; [split; [by intros | intros _; exact Hw] |].
      by rewrite elem_of_slot_times.
    + rewrite elem_of_union, elem_of_singleton.
      case_bool_decide; subst; [split; [by intros | intros _; by left] |].
      rewrite elem_of_slot_times.
      split; [intros [Heq | Hin]; [unfold slot_proj, new_slot_row in Heq; simplify_eq | done] | by right].
  - rewrite (delete_view slot_proj _ (si_clinicId p, si_doctorId p, t, si_time p));
      [| intros v; unfold matches_slot_row; apply bool_decide_eq_true].
    unfold abs_delete. rewrite elem_of_difference, elem_of_singleton.
    case_bool_decide; subst; [split; [intros [_ []]; done | discriminate] |].
    rewrite elem_of_slot_times.
    split; [by intros [? _] | intros Hin; split; [done | intros Heq; simplify_eq]].
Qed.

Lemma blockTimeSlotSchema_with_slot_block (i : SlotInput) (b : bool) :
  blockTimeSlotSchema_parse i = Some i ->
  blockTimeSlotSchema_parse (with_slot_block i b) = Some (with_slot_block i b).
Proof.
  unfold blockTimeSlotSchema_parse. simpl. by destruct (_ && _ && _ && _).
Qed.
