(* ===== verification/Modal.v ===== *)
(** * State reconciliation: [DoctorBlockCalendarModal]

    The client component of
    [src/app/(protected)/doctors/_components/doctor-block-calendar-modal.tsx].
    Its [useState] hooks are the fields of [ModalState] (plus the log of
    toasts it shows).  Each callback is a function returning the new state
    and the asynchronous work it starts ([Pending]): fetches, server-action
    calls and their replies, and the 50 ms timer.  A React effect is run
    right after the state change that alters one of its dependencies.  The
    whole system, server world included, is the relation [sys_step], in
    which pending items resolve in any order. *)

From stdpp Require Import base list gmap strings.
From Stdlib Require Import ZArith Lia Ascii.
From S2P Require Import Prelude Calendar DateString Availability Table Store BlockDate SlotActions.

Set Warnings "-clear-no-such-hyp".
Open Scope Z_scope.

(** [interface AdminTimeSlot { time: string; isBlocked: boolean }] *)
Record AdminTimeSlot := { slot_time : string; slot_isBlocked : bool }.

(** [toast.success] and [toast.error]. *)
Inductive Toast :=
  | ToastSuccess (message : string)
  | ToastError (message : string).

Record ModalState := {
  isOpen : bool;
  selectedDate : option instant;
  blockedDates : list instant;
  adHocAvailableDates : list instant;
  blockedTimeSlots : gset string;
  reason : string;
  currentDaySlots : list AdminTimeSlot;
  refreshKey : nat;
  toasts : list Toast
}.

(** The asynchronous work in flight. *)
Inductive Pending :=
  | FetchDates
  | FetchSlots (date : instant) (allSlots : list string)
  | CallBlockDate (input : BlockDateInput)
  | CallAdHoc (input : BlockDateInput)
  | CallBlockSlot (input : SlotInput)
  | ReplyBlockDate (r : Thrown + SafeActionResult ToggleResult)
  | ReplyAdHoc (r : Thrown + SafeActionResult ToggleResult)
  | ReplyBlockSlot (input : SlotInput) (r : Thrown + SafeActionResult ToggleResult)
  | RefreshTimer (captured : option instant).

(** ** State setters (the [set...] functions of the hooks) *)

Definition set_open (b : bool) (s : ModalState) : ModalState :=
  {| isOpen := b; selectedDate := selectedDate s; blockedDates := blockedDates s;
     adHocAvailableDates := adHocAvailableDates s; blockedTimeSlots := blockedTimeSlots s;
     reason := reason s; currentDaySlots := currentDaySlots s; refreshKey := refreshKey s;
     toasts := toasts s |}.

Definition set_selected (d : option instant) (s : ModalState) : ModalState :=
  {| isOpen := isOpen s; selectedDate := d; blockedDates := blockedDates s;
     adHocAvailableDates := adHocAvailableDates s; blockedTimeSlots := blockedTimeSlots s;
     reason := reason s; currentDaySlots := currentDaySlots s; refreshKey := refreshKey s;
     toasts := toasts s |}.

Definition set_reason (r : string) (s : ModalState) : ModalState :=
  {| isOpen := isOpen s; selectedDate := selectedDate s; blockedDates := blockedDates s;
     adHocAvailableDates := adHocAvailableDates s; blockedTimeSlots := blockedTimeSlots s;
     reason := r; currentDaySlots := currentDaySlots s; refreshKey := refreshKey s;
     toasts := toasts s |}.

(** [setBlockedDates] and [setAdHocAvailableDates], always called together. *)
Definition set_day_sets (bd ad : list instant) (s : ModalState) : ModalState :=
  {| isOpen := isOpen s; selectedDate := selectedDate s; blockedDates := bd;
     adHocAvailableDates := ad; blockedTimeSlots := blockedTimeSlots s;
     reason := reason s; currentDaySlots := currentDaySlots s; refreshKey := refreshKey s;
     toasts := toasts s |}.

Definition set_blockedTimeSlots (b : gset string) (s : ModalState) : ModalState :=
  {| isOpen := isOpen s; selectedDate := selectedDate s; blockedDates := blockedDates s;
     adHocAvailableDates := adHocAvailableDates s; blockedTimeSlots := b;
     reason := reason s; currentDaySlots := currentDaySlots s; refreshKey := refreshKey s;
     toasts := toasts s |}.

Definition set_currentDaySlots (c : list AdminTimeSlot) (s : ModalState) : ModalState :=
  {| isOpen := isOpen s; selectedDate := selectedDate s; blockedDates := blockedDates s;
     adHocAvailableDates := adHocAvailableDates s; blockedTimeSlots := blockedTimeSlots s;
     reason := reason s; currentDaySlots := c; refreshKey := refreshKey s;
     toasts := toasts s |}.

Definition bump_refreshKey (s : ModalState) : ModalState :=
  {| isOpen := isOpen s; selectedDate := selectedDate s; blockedDates := blockedDates s;
     adHocAvailableDates := adHocAvailableDates s; blockedTimeSlots := blockedTimeSlots s;
     reason := reason s; currentDaySlots := currentDaySlots s; refreshKey := S (refreshKey s);
     toasts := toasts s |}.

Definition add_toast (t : Toast) (s : ModalState) : ModalState :=
  {| isOpen := isOpen s; selectedDate := selectedDate s; blockedDates := blockedDates s;
     adHocAvailableDates := adHocAvailableDates s; blockedTimeSlots := blockedTimeSlots s;
     reason := reason s; currentDaySlots := currentDaySlots s; refreshKey := refreshKey s;
     toasts := toasts s ++ [t] |}.

(** The initial state of the hooks. *)
Definition initial_state : ModalState :=
  {| isOpen := false; selectedDate := None; blockedDates := []; adHocAvailableDates := [];
     blockedTimeSlots := ∅; reason := ""; currentDaySlots := []; refreshKey := 0;
     toasts := [] |}.

(** What a callback returns: the new state and the work it starts. *)
Definition Upd : Type := ModalState * list Pending.

(** [result.data?.error || fallback] *)
Definition error_or (e : option string) (fallback : string) : string :=
  match e with
  | Some m => if bool_decide (m = "") then fallback else m
  | None => fallback
  end.

Section Callbacks.
(** The browser's zone and the [doctor] prop. *)
Variable browser : TimeZone.
Variable doctor : Doctor.

(** Lines 71-82. *)
Definition isDateBlocked (s : ModalState) (date : instant) : bool :=
  existsb (fun b => isSame_day APP_TIMEZONE (start_of_day APP_TIMEZONE b)
                               (start_of_day APP_TIMEZONE date))
          (blockedDates s).

(** Lines 84-95. *)
Definition isDateAdHocAvailable (s : ModalState) (date : instant) : bool :=
  existsb (fun b => isSame_day APP_TIMEZONE (start_of_day APP_TIMEZONE b)
                               (start_of_day APP_TIMEZONE date))
          (adHocAvailableDates s).

(** Lines 112-119. *)
Definition isDefaultUnavailable (s : ModalState) (date : instant) : bool :=
  negb (isDateWithinDoctorAvailability browser doctor date) &&
  negb (isDateAdHocAvailable s date).

(** Lines 408-412. *)
Definition isSelectedDayManagable (s : ModalState) : bool :=
  match selectedDate s with
  | None => false
  | Some d => (isDateWithinDoctorAvailability browser doctor d || isDateAdHocAvailable s d)
              && negb (isDateBlocked s d)
  end.

(** [format(date, "yyyy-MM-dd")] on the browser's wall clock. *)
Definition formatDate (date : instant) : string :=
  format_yyyy_MM_dd (day_in browser date).

Definition doctor_ids_missing : bool :=
  bool_decide (doctor_id doctor = "") || bool_decide (doctor_clinicId doctor = "").

(** [fetchBlockedTimeSlotsForSelectedDate(date)] up to its [await]
    (lines 266-297): the slot labels are computed, then the fetch starts. *)
Definition fetchBlockedTimeSlotsForSelectedDate (s : ModalState) (date : instant) : Upd :=
  if doctor_ids_missing
  then (set_currentDaySlots [] (set_blockedTimeSlots ∅ s), [])
  else match allPossibleSlotsForDay browser doctor date with
       | None => (set_currentDaySlots []
                    (add_toast (ToastError "Erro ao carregar horários para o dia selecionado.") s),
                  [])
       | Some all => (s, [FetchSlots date all])
       end.

(** The rest of it once the response is in (lines 298-315); [None] is a
    failed request. *)
Definition fetchSlots_resolved (s : ModalState) (all : list string)
    (resp : option (list string)) : ModalState :=
  match resp with
  | Some blockedTimes =>
      let newBlockedTimeSlots : gset string := list_to_set blockedTimes in
      set_currentDaySlots
        (map (fun time => {| slot_time := time;
                             slot_isBlocked := bool_decide (time ∈ newBlockedTimeSlots) |}) all)
        (set_blockedTimeSlots newBlockedTimeSlots s)
  | None =>
      set_currentDaySlots []
        (add_toast (ToastError "Erro ao carregar horários para o dia selecionado.") s)
  end.

(** The effect of lines 337-354 (dependencies: [selectedDate],
    [isDateBlocked], [refreshKey]). *)
Definition effect_slots (s : ModalState) : Upd :=
  match selectedDate s with
  | Some d =>
      if isDateBlocked s d
      then (set_blockedTimeSlots ∅ (set_currentDaySlots [] s), [])
      else fetchBlockedTimeSlotsForSelectedDate s d
  | None => (set_blockedTimeSlots ∅ (set_currentDaySlots [] s), [])
  end.

(** Re-render after new day sets: [isDateBlocked] changes identity, so
    [effect_slots] runs. *)
Definition set_day_sets_and_render (bd ad : list instant) (s : ModalState) : Upd :=
  effect_slots (set_day_sets bd ad s).

(** [fetchBlockedAndAdHocDates()] up to its [await] (lines 236-244). *)
Definition fetchBlockedAndAdHocDates (s : ModalState) : Upd :=
  if doctor_ids_missing then set_day_sets_and_render [] [] s else (s, [FetchDates]).

(** Lines 247-263 once the response is in. *)
Definition fetchDates_resolved (s : ModalState) (resp : option (list Z * list Z)) : Upd :=
  match resp with
  | Some (bd, ad) =>
      set_day_sets_and_render (map (midnight APP_TIMEZONE) bd)
                              (map (midnight APP_TIMEZONE) ad) s
  | None => (add_toast (ToastError "Erro ao carregar dias de agenda para o médico.") s, [])
  end.

Definition then_upd (u : Upd) (f : ModalState -> Upd) : Upd :=
  let '(s', ps) := f (fst u) in (s', snd u ++ ps).

(** The effect of lines 325-334 (dependency: [isOpen]); closing changes
    [selectedDate], which runs [effect_slots]. *)
Definition effect_open (s : ModalState) : Upd :=
  if isOpen s then fetchBlockedAndAdHocDates s
  else effect_slots (set_currentDaySlots [] (set_blockedTimeSlots ∅
                      (set_reason "" (set_selected None s)))).

(** [handleDatesChange] (lines 356-359), followed by [effect_slots]. *)
Definition handleDatesChange (date : option instant) (s : ModalState) : Upd :=
  effect_slots (set_reason "" (set_selected date s)).

(** [handleBlockToggle] (lines 361-374). *)
Definition handleBlockToggle (s : ModalState) : Upd :=
  match selectedDate s with
  | None => (add_toast (ToastError "Por favor, selecione uma data.") s, [])
  | Some d =>
      (s, [CallBlockDate {| in_doctorId := doctor_id doctor; in_date := formatDate d;
                            in_block := negb (isDateBlocked s d); in_reason := Some (reason s);
                            in_clinicId := doctor_clinicId doctor |}])
  end.

(** [handleAdHocToggle] (lines 376-389). *)
Definition handleAdHocToggle (s : ModalState) : Upd :=
  match selectedDate s with
  | None => (add_toast (ToastError "Por favor, selecione uma data.") s, [])
  | Some d =>
      (s, [CallAdHoc {| in_doctorId := doctor_id doctor; in_date := formatDate d;
                        in_block := negb (isDateAdHocAvailable s d);
                        in_reason := Some (reason s);
                        in_clinicId := doctor_clinicId doctor |}])
  end.

(** [handleTimeSlotToggle(time)] (lines 391-405). *)
Definition handleTimeSlotToggle (time : string) (s : ModalState) : Upd :=
  match selectedDate s with
  | None => (add_toast (ToastError "Por favor, selecione uma data primeiro.") s, [])
  | Some d =>
      (s, [CallBlockSlot {| si_doctorId := doctor_id doctor; si_clinicId := doctor_clinicId doctor;
                            si_date := formatDate d; si_time := time;
                            si_block := negb (bool_decide (time ∈ blockedTimeSlots s));
                            si_reason := Some (reason s) |}])
  end.

(** [onError] of the three [useAction]s (lines 135-145, 164-174,
    223-233): a thrown server error shows its message
    ([error.serverError]), a schema failure the fallback. *)
Definition on_action_error (r : Thrown + SafeActionResult ToggleResult) (s : ModalState) : Upd :=
  let msg := match r with
             | inl (ErrorObject m) => error_or (Some m) "Erro ao comunicar com o servidor."
             | _ => "Erro ao comunicar com o servidor."
             end in
  (add_toast (ToastError msg) s, []).

(** [blockDateAction]'s callbacks (lines 121-146). *)
Definition onBlockDateResult (r : Thrown + SafeActionResult ToggleResult) (s : ModalState) : Upd :=
  match r with
  | inr (ActionData res) =>
      if res_success res then
        then_upd (fetchBlockedAndAdHocDates
                    (add_toast (ToastSuccess (if res_flag res then "Dia bloqueado com sucesso!"
                                              else "Dia desbloqueado com sucesso!")) s))
                 (fun s' => (set_reason "" s', []))
      else (add_toast (ToastError (error_or (res_error res) "Erro na operação do dia.")) s, [])
  | _ => on_action_error r s
  end.

(** [adHocAvailabilityAction]'s callbacks (lines 148-175). *)
Definition onAdHocResult (r : Thrown + SafeActionResult ToggleResult) (s : ModalState) : Upd :=
  match r with
  | inr (ActionData res) =>
      if res_success res then
        then_upd (fetchBlockedAndAdHocDates
                    (add_toast (ToastSuccess (if res_flag res
                                              then "Disponibilidade adicionada com sucesso!"
                                              else "Disponibilidade removida com sucesso!")) s))
                 (fun s' => (set_reason "" s', []))
      else (add_toast (ToastError (error_or (res_error res)
                                     "Erro na operação de disponibilidade.")) s, [])
  | _ => on_action_error r s
  end.

(** The optimistic update of lines 187-194. *)
Definition optimistic_slots (time : string) (b : bool) (slots : list AdminTimeSlot)
    : list AdminTimeSlot :=
  map (fun slot => if bool_decide (slot_time slot = time)
                   then {| slot_time := slot_time slot; slot_isBlocked := b |}
                   else slot) slots.

(** Lines 196-209: [if (toggledTime)] skips the empty string. *)
Definition optimistic_set (time : string) (b : bool) (set : gset string) : gset string :=
  if bool_decide (time = "") then set
  else if b then {[time]} ∪ set else set ∖ {[time]}.

(** [blockTimeSlotAction]'s callbacks (lines 177-234): the optimistic
    update, then the 50 ms timer. *)
Definition onBlockSlotResult (i : SlotInput) (r : Thrown + SafeActionResult ToggleResult)
    (s : ModalState) : Upd :=
  match r with
  | inr (ActionData res) =>
      if res_success res then
        (set_blockedTimeSlots (optimistic_set (si_time i) (res_flag res) (blockedTimeSlots s))
           (set_currentDaySlots (optimistic_slots (si_time i) (res_flag res) (currentDaySlots s))
              (add_toast (ToastSuccess (if res_flag res then "Horário bloqueado com sucesso!"
                                        else "Horário desbloqueado com sucesso!")) s)),
         [RefreshTimer (selectedDate s)])
      else (add_toast (ToastError (error_or (res_error res) "Erro na operação do horário.")) s, [])
  | _ => on_action_error r s
  end.

(** The timer of lines 212-218: bumping [refreshKey] reruns [effect_slots]. *)
Definition onRefreshTimer (captured : option instant) (s : ModalState) : Upd :=
  match captured with
  | Some _ => effect_slots (bump_refreshKey s)
  | None => (s, [])
  end.
End Callbacks.

(** ** The whole system *)

(** What the administrator can do. *)
Inductive UserEvent :=
  | OpenModal
  | CloseModal
  | SelectDate (d : option instant)
  | TypeReason (r : string)
  | ClickBlockDay
  | ClickAdHoc
  | ClickSlot (time : string).

Definition action_pending (p : Pending) : bool :=
  match p with
  | CallBlockDate _ | CallAdHoc _ | CallBlockSlot _
  | ReplyBlockDate _ | ReplyAdHoc _ | ReplyBlockSlot _ _ => true
  | _ => false
  end.

Record Sys := {
  sys_world : World;
  sys_ui : ModalState;
  sys_pending : list Pending
}.

Definition apply_upd (w : World) (rest : list Pending) (u : Upd) : Sys :=
  {| sys_world := w; sys_ui := fst u; sys_pending := rest ++ snd u |}.

Section System.
Variable browser : TimeZone.
Variable doctor : Doctor.
(** The clinic of the administrator's session, as the server sees it. *)
Variable session : option string.

Definition user_event (e : UserEvent) (s : ModalState) : Upd :=
  match e with
  | OpenModal => effect_open browser doctor (set_open true s)
  | CloseModal => effect_open browser doctor (set_open false s)
  | SelectDate d => handleDatesChange browser doctor d s
  | TypeReason r => (set_reason r s, [])
  | ClickBlockDay => handleBlockToggle browser doctor s
  | ClickAdHoc => handleAdHocToggle browser doctor s
  | ClickSlot t => handleTimeSlotToggle browser doctor t s
  end.

(** The [disabled] props of the dialog (lines 460-463, 469-473, 487-491,
    518-523): inputs are disabled while any action is pending, a slot
    button also when the day is not manageable. *)
Definition event_enabled (e : UserEvent) (s : ModalState) (ps : list Pending) : bool :=
  match e with
  | OpenModal => negb (isOpen s)
  | CloseModal => isOpen s
  | SelectDate _ => isOpen s
  | TypeReason _ | ClickBlockDay | ClickAdHoc =>
      isOpen s && negb (existsb action_pending ps)
  | ClickSlot t =>
      isOpen s && negb (existsb action_pending ps) &&
      isSelectedDayManagable browser doctor s &&
      existsb (fun slot => bool_decide (slot_time slot = t)) (currentDaySlots s)
  end.

(** The server's answer to [GET /api/blocked-time-slots] for [date]: the
    query carries [format(date, "yyyy-MM-dd")], i.e. the browser-local day. *)
Definition slots_response (w : World) (date : instant) : list string :=
  blocked_time_slots_route (doctor_id doctor) (doctor_clinicId doctor)
                           (day_in browser date) (db w).

Inductive sys_step : Sys -> Sys -> Prop :=
| step_user e w s ps :
    event_enabled e s ps = true ->
    sys_step (Build_Sys w s ps) (apply_upd w ps (user_event e s))
| step_blockDate env i w s l1 l2 :
    env_session_clinic env = session ->
    sys_step (Build_Sys w s (l1 ++ CallBlockDate i :: l2))
             (Build_Sys (snd (blockDate env i w)) s
                        (l1 ++ ReplyBlockDate (fst (blockDate env i w)) :: l2))
| step_adHoc env i w s l1 l2 :
    env_session_clinic env = session ->
    sys_step (Build_Sys w s (l1 ++ CallAdHoc i :: l2))
             (Build_Sys (snd (adHocAvailability env i w)) s
                        (l1 ++ ReplyAdHoc (fst (adHocAvailability env i w)) :: l2))
| step_blockSlot env i w s l1 l2 :
    env_session_clinic env = session ->
    sys_step (Build_Sys w s (l1 ++ CallBlockSlot i :: l2))
             (Build_Sys (snd (blockTimeSlot env i w)) s
                        (l1 ++ ReplyBlockSlot i (fst (blockTimeSlot env i w)) :: l2))
| step_replyBlockDate r w s l1 l2 :
    sys_step (Build_Sys w s (l1 ++ ReplyBlockDate r :: l2))
             (apply_upd w (l1 ++ l2) (onBlockDateResult browser doctor r s))
| step_replyAdHoc r w s l1 l2 :
    sys_step (Build_Sys w s (l1 ++ ReplyAdHoc r :: l2))
             (apply_upd w (l1 ++ l2) (onAdHocResult browser doctor r s))
| step_replyBlockSlot i r w s l1 l2 :
    sys_step (Build_Sys w s (l1 ++ ReplyBlockSlot i r :: l2))
             (apply_upd w (l1 ++ l2) (onBlockSlotResult i r s))
| step_fetchDates w s l1 l2 :
    sys_step (Build_Sys w s (l1 ++ FetchDates :: l2))
             (apply_upd w (l1 ++ l2) (fetchDates_resolved browser doctor s
                (Some (blocked_dates_route (doctor_id doctor) (doctor_clinicId doctor) (db w)))))
| step_fetchDates_fail w s l1 l2 :
    sys_step (Build_Sys w s (l1 ++ FetchDates :: l2))
             (apply_upd w (l1 ++ l2) (fetchDates_resolved browser doctor s None))
| step_fetchSlots date all w s l1 l2 :
    sys_step (Build_Sys w s (l1 ++ FetchSlots date all :: l2))
             (Build_Sys w (fetchSlots_resolved s all (Some (slots_response w date))) (l1 ++ l2))
| step_fetchSlots_fail date all w s l1 l2 :
    sys_step (Build_Sys w s (l1 ++ FetchSlots date all :: l2))
             (Build_Sys w (fetchSlots_resolved s all None) (l1 ++ l2))
| step_timer c w s l1 l2 :
    sys_step (Build_Sys w s (l1 ++ RefreshTimer c :: l2))
             (apply_upd w (l1 ++ l2) (onRefreshTimer browser doctor c s)).

Definition reachable (w0 : World) (S : Sys) : Prop :=
  star sys_step (Build_Sys w0 initial_state []) S.

End System.
