(* ===== verification/ModalView.v ===== *)
(** * What the dialog renders (lines 408-551 of the modal)

    The JSX of [DoctorBlockCalendarModal] as a function of the state and of
    the work in flight: the calendar's day modifiers and disabled days, the
    controls of the selected day (the reason input and the two toggle
    buttons, their labels and variants), and the slot column (a prompt, the
    grid of slot buttons, or one of two messages).  [useAction(..).isPending]
    is read off the pending list: an action is pending from its call until
    its reply has been handled.

    react-day-picker matches a [Date[]] modifier with date-fns [isSameDay],
    that is on the browser's wall clock; [isDateBlocked] compares in the
    operating zone.  [day_modifiers_blocked_fetched] and
    [isDateBlocked_fetched] give the day the calendar paints and the day
    [isDateBlocked] tests; [blocked_day_clears_slots] shows what a blocked
    selected day renders. *)

From stdpp Require Import base list gmap strings.
From Stdlib Require Import ZArith Lia Btauto.
From S2P Require Import Prelude Calendar Availability Store BlockDate SlotActions Modal.

Set Warnings "-clear-no-such-hyp".
Open Scope Z_scope.

(** [blockDateAction.isPending], [adHocAvailabilityAction.isPending] and
    [blockTimeSlotAction.isPending] with its [input]. *)
Definition blockDate_pending (ps : list Pending) : bool :=
  existsb (fun p => match p with CallBlockDate _ | ReplyBlockDate _ => true | _ => false end) ps.

Definition adHoc_pending (ps : list Pending) : bool :=
  existsb (fun p => match p with CallAdHoc _ | ReplyAdHoc _ => true | _ => false end) ps.

Fixpoint slot_action_input (ps : list Pending) : option SlotInput :=
  match ps with
  | [] => None
  | (CallBlockSlot i | ReplyBlockSlot i _) :: _ => Some i
  | _ :: ps' => slot_action_input ps'
  end.

Definition blockSlot_pending (ps : list Pending) : bool :=
  match slot_action_input ps with Some _ => true | None => false end.

(** One button of the slot grid (lines 514-531). *)
Record SlotButton := {
  btn_time : string;
  btn_label : string;
  btn_destructive : bool;
  btn_disabled : bool
}.

(** The slot column (lines 510-548). *)
Inductive SlotPanel :=
  | PanelSelectDate
  | PanelGrid (buttons : list SlotButton)
  | PanelDayBlocked
  | PanelNoSlots.

(** The controls under the calendar (lines 449-503). *)
Record DayControls := {
  input_disabled : bool;
  block_label : string;
  block_destructive : bool;
  adhoc_label : string;
  adhoc_default : bool
}.

(** The [modifiers] of lines 414-419, evaluated on one day. *)
Record DayModifiers := {
  mod_blocked : bool;
  mod_adHocAvailable : bool;
  mod_workingDays : bool;
  mod_defaultUnavailable : bool
}.

(** The header of the dialog (lines 429-434). *)
Record DialogHeader := {
  dialog_title : string;
  dialog_description : string
}.

(** The props of [<Calendar>] that depend on the state (lines 440-447):
    [selected], the day modifiers and the [disabled] matcher. *)
Record CalendarView := {
  cal_selected : option instant;
  cal_modifiers : instant -> DayModifiers;
  cal_disabled : instant -> bool
}.

Section View.
Variable browser : TimeZone.
Variable doctor : Doctor.

(** A [Date[]] matcher: some date of the list on the same local day. *)
Definition matches_dates (ds : list instant) (date : instant) : bool :=
  existsb (fun b => isSame_day browser b date) ds.

Definition day_modifiers (s : ModalState) (date : instant) : DayModifiers :=
  {| mod_blocked := matches_dates (blockedDates s) date;
     mod_adHocAvailable := matches_dates (adHocAvailableDates s) date;
     mod_workingDays := isDateWithinDoctorAvailability browser doctor date;
     mod_defaultUnavailable := isDefaultUnavailable browser doctor s date |}.

(** [disabled={(date) => date < new Date()}]. *)
Definition calendar_disabled (now date : instant) : bool := date <? now.

Definition dialog_header : DialogHeader :=
  {| dialog_title := "Bloquear/Adicionar Agenda para " +:+ doctor_name doctor;
     dialog_description :=
       "Selecione dias e horários para gerenciar a agenda de " +:+ doctor_name doctor +:+ "." |}.

(** [onSelect={handleDatesChange}] is the event [SelectDate] of [sys_step]. *)
Definition calendar_view (now : instant) (s : ModalState) : CalendarView :=
  {| cal_selected := selectedDate s;
     cal_modifiers := day_modifiers s;
     cal_disabled := calendar_disabled now |}.

Definition any_action_pending (ps : list Pending) : bool :=
  blockDate_pending ps || adHoc_pending ps || blockSlot_pending ps.

Definition day_controls (s : ModalState) (ps : list Pending) : option DayControls :=
  match selectedDate s with
  | None => None
  | Some d =>
      Some {| input_disabled := any_action_pending ps;
              block_label := if blockDate_pending ps then "Processando..."
                             else if isDateBlocked s d then "Desbloquear Dia Inteiro"
                             else "Bloquear Dia Inteiro";
              block_destructive := isDateBlocked s d;
              adhoc_label := if adHoc_pending ps then "Processando..."
                             else if isDateAdHocAvailable s d then "Remover Ad-Hoc"
                             else "Adicionar Ad-Hoc";
              adhoc_default := isDateAdHocAvailable s d |}
  end.

Definition slot_button (s : ModalState) (ps : list Pending) (slot : AdminTimeSlot) : SlotButton :=
  {| btn_time := slot_time slot;
     btn_label := match slot_action_input ps with
                  | Some i => if bool_decide (si_time i = slot_time slot) then "..."
                              else slot_time slot
                  | None => slot_time slot
                  end;
     btn_destructive := slot_isBlocked slot;
     btn_disabled := negb (isSelectedDayManagable browser doctor s) ||
                     blockSlot_pending ps || blockDate_pending ps || adHoc_pending ps |}.

Definition slot_panel (s : ModalState) (ps : list Pending) : SlotPanel :=
  match selectedDate s with
  | None => PanelSelectDate
  | Some d =>
      match currentDaySlots s with
      | [] => if isDateBlocked s d then PanelDayBlocked else PanelNoSlots
      | _ :: _ => PanelGrid (map (slot_button s ps) (currentDaySlots s))
      end
  end.
End View.

(** How many days the wall clock of [tz] is ahead of that of [tz'] at a
    midnight of [tz'] (rounded down). *)
Definition day_shift (tz tz' : TimeZone) : Z :=
  (tz_offset tz - tz_offset tz') / SECONDS_PER_DAY.

(** ** The calendar's painting of the fetched days *)
Lemma matches_dates_fetched (browser : TimeZone) (bd : list Z) (d : Z) :
  matches_dates browser (map (midnight APP_TIMEZONE) bd) (midnight browser d) =
  bool_decide ((d - day_shift browser APP_TIMEZONE) ∈ bd).
Proof.
  unfold matches_dates, isSame_day. rewrite day_in_midnight.
  apply existsb_map_shift. intros k. by rewrite day_in_midnight_shift.
Qed.

Lemma existsb_day_in_map (k : Z) (bd : list Z) :
  existsb (fun b => isSame_day APP_TIMEZONE (start_of_day APP_TIMEZONE b)
                              (midnight APP_TIMEZONE k))
          (map (midnight APP_TIMEZONE) bd) =
  bool_decide (k ∈ bd).
Proof.
  unfold isSame_day. rewrite day_in_midnight.
  rewrite (existsb_map_shift _ _ 0); [by rewrite Z.sub_0_r |].
  intros b. unfold start_of_day. rewrite !day_in_midnight. lia.
Qed.

(** C23: the calendar paints the local day [d] red when the day
    [d - day_shift browser APP_TIMEZONE] is blocked: the stored midnight of
    a day in Fortaleza falls on the previous local day in a browser west of
    it. *)
Theorem day_modifiers_blocked_fetched (browser : TimeZone) (doctor : Doctor) (bd ad : list Z)
    (s : ModalState) (d : Z) :
  mod_blocked (day_modifiers browser doctor
                 (set_day_sets (map (midnight APP_TIMEZONE) bd) ad s) (midnight browser d)) =
  bool_decide ((d - day_shift browser APP_TIMEZONE) ∈ bd).
Proof. apply matches_dates_fetched. Qed.

(** C10: once the fetched blocks are in, [isDateBlocked] of the day clicked
    in the calendar (local midnight of day [d] in the browser's zone) tests
    the block of day [d + day_shift APP_TIMEZONE browser].  It tests day [d]
    itself exactly when the browser is at most one day west of, and not
    east of, the operating zone; the calendar paints [d] for the day
    [d - day_shift browser APP_TIMEZONE], and the two agree only when the
    offsets differ by whole days. *)
Theorem isDateBlocked_fetched (browser : TimeZone) (bd ad : list Z) (s : ModalState) (d : Z) :
  isDateBlocked (set_day_sets (map (midnight APP_TIMEZONE) bd) ad s) (midnight browser d) =
  bool_decide ((d + day_shift APP_TIMEZONE browser) ∈ bd).
Proof.
  unfold isDateBlocked. simpl. unfold start_of_day at 2.
  rewrite day_in_midnight_shift. apply existsb_day_in_map.
Qed.

(** The disabled props and [event_enabled] read the same pending flags. *)
Lemma any_action_pending_spec (ps : list Pending) :
  existsb action_pending ps = any_action_pending ps.
Proof.
  unfold any_action_pending, blockDate_pending, adHoc_pending, blockSlot_pending.
  induction ps as [|p ps IH]; [done |]. destruct p; simpl; rewrite ?IH; btauto.
Qed.

(** C19: when the day sets just fetched mark the selected day blocked, the
    re-render empties the slot list and starts no slot fetch: the slot
    column shows the whole-day message and the day is not manageable. *)
Theorem blocked_day_clears_slots (browser : TimeZone) (doctor : Doctor) (s : ModalState)
    (bd ad : list instant) (d : instant) (ps : list Pending) :
  selectedDate s = Some d -> isDateBlocked (set_day_sets bd ad s) d = true ->
  currentDaySlots (fst (set_day_sets_and_render browser doctor bd ad s)) = [] /\
  snd (set_day_sets_and_render browser doctor bd ad s) = [] /\
  slot_panel browser doctor (fst (set_day_sets_and_render browser doctor bd ad s)) ps =
    PanelDayBlocked /\
  isSelectedDayManagable browser doctor (fst (set_day_sets_and_render browser doctor bd ad s)) =
    false.
Proof.
  intros Hsel Hb. unfold set_day_sets_and_render, effect_slots. simpl. rewrite Hsel.
  unfold isDateBlocked in *. simpl in *. rewrite Hb. simpl.
  unfold slot_panel, isSelectedDayManagable, isDateBlocked. simpl. rewrite Hsel, Hb.
  by rewrite andb_false_r.
Qed.

(** The guard of a slot click in [sys_step] is what the dialog renders:
    a click on label [t] is possible exactly when the dialog is open and
    the slot column shows the grid with an enabled button of that label. *)
Theorem click_slot_enabled_rendered (browser : TimeZone) (doctor : Doctor) (t : string)
    (s : ModalState) (ps : list Pending) :
  event_enabled browser doctor (ClickSlot t) s ps =
  isOpen s && match slot_panel browser doctor s ps with
              | PanelGrid bs => existsb (fun b => bool_decide (btn_time b = t) && negb (btn_disabled b)) bs
              | _ => false
              end.
Proof.
  unfold event_enabled, slot_panel. rewrite any_action_pending_spec.
  destruct (selectedDate s) as [d|] eqn:Hd; [| unfold isSelectedDayManagable; rewrite Hd;
    simpl; by rewrite !andb_false_r].
  destruct (currentDaySlots s) as [|x l] eqn:Hc.
  - simpl. rewrite !andb_false_r. destruct (isDateBlocked s d); simpl; by rewrite ?andb_false_r.
  - rewrite <- Hc, existsb_map_fuse. unfold slot_button. simpl.
    rewrite existsb_andb_const. unfold any_action_pending.
    generalize (existsb (fun slot => bool_decide (slot_time slot = t)) (currentDaySlots s)).
    intros b. btauto.
Qed.

(** C30: a failed read.  When the slot fetch of a selected day that is not
    blocked fails, the slot list is emptied (line 314), so the column tells
    the administrator that no slot is configured for the day, next to the
    error toast, while [blockedTimeSlots] keeps the old set.  (A failed
    fetch of the day sets, by contrast, only adds its toast.) *)
Theorem read_failures_displayed (browser : TimeZone) (doctor : Doctor) (s : ModalState)
    (all : list string) (ps : list Pending) (d : instant) :
  selectedDate s = Some d -> isDateBlocked s d = false ->
  currentDaySlots (fetchSlots_resolved s all None) = [] /\
  slot_panel browser doctor (fetchSlots_resolved s all None) ps = PanelNoSlots /\
  last (toasts (fetchSlots_resolved s all None)) =
    Some (ToastError "Erro ao carregar horários para o dia selecionado.") /\
  blockedTimeSlots (fetchSlots_resolved s all None) = blockedTimeSlots s.
Proof.
  intros Hd Hb. unfold slot_panel. simpl. rewrite Hd. unfold isDateBlocked in *. simpl.
  rewrite Hb. by rewrite last_snoc.
Qed.

(** ** Witnesses *)

Lemma blocked_day_clears_slots_witness :
  slot_panel APP_TIMEZONE sample_doctor
    (fst (set_day_sets_and_render APP_TIMEZONE sample_doctor [midnight APP_TIMEZONE 19882] []
            (set_selected (Some (midnight APP_TIMEZONE 19882)) initial_state))) [] =
  PanelDayBlocked.
Proof.
  edestruct (blocked_day_clears_slots APP_TIMEZONE sample_doctor
               (set_selected (Some (midnight APP_TIMEZONE 19882)) initial_state)
               [midnight APP_TIMEZONE 19882] [] (midnight APP_TIMEZONE 19882) [])
    as (_ & _ & -> & _); concrete.
Defined.

Lemma read_failures_displayed_witness :
  slot_panel APP_TIMEZONE sample_doctor
    (fetchSlots_resolved (set_selected (Some (midnight APP_TIMEZONE 19884)) initial_state)
       ["09:00"; "09:30"] None) [] = PanelNoSlots.
Proof.
  edestruct (read_failures_displayed APP_TIMEZONE sample_doctor
               (set_selected (Some (midnight APP_TIMEZONE 19884)) initial_state)
               ["09:00"; "09:30"] [] (midnight APP_TIMEZONE 19884))
    as (_ & -> & _); concrete.
Defined.
