(* ===== verification/Scheduler.v ===== *)
(** * An executable scheduler for the modal system

    [sys_step] lets any pending item resolve next.  A [Choice] names one
    step: a user event, the server running the action call at position [n]
    of the pending list under an environment, or the [n]-th fetch, reply or
    timer completing (successfully or, for fetches, failing).
    [exec_choice] performs it, and [exec_choice_spec] shows the scheduler is
    exactly the step relation: the reachable states are the results of the
    scripts, so a script evaluated by [vm_compute]
    exhibits a reachable state ([exec_script_witness]). *)

From stdpp Require Import base list gmap strings.
From Stdlib Require Import ZArith Lia.
From S2P Require Import Prelude Calendar Availability Store BlockDate SlotActions Modal.

Set Warnings "-clear-no-such-hyp".

Inductive Choice :=
  | ChUser (e : UserEvent)
  | ChServer (env : Env) (n : nat)
  | ChResolve (n : nat)
  | ChFail (n : nat).

Section Scheduler.
Variable browser : TimeZone.
Variable doctor : Doctor.
Variable session : option string.

Definition exec_choice (c : Choice) (S : Sys) : option Sys :=
  let w := sys_world S in
  let s := sys_ui S in
  let ps := sys_pending S in
  match c with
  | ChUser e =>
      if event_enabled browser doctor e s ps
      then Some (apply_upd w ps (user_event browser doctor e s)) else None
  | ChServer env n =>
      if bool_decide (env_session_clinic env = session) then
        match drop n ps with
        | CallBlockDate i :: l2 =>
            Some (Build_Sys (snd (blockDate env i w)) s
                            (take n ps ++ ReplyBlockDate (fst (blockDate env i w)) :: l2))
        | CallAdHoc i :: l2 =>
            Some (Build_Sys (snd (adHocAvailability env i w)) s
                            (take n ps ++ ReplyAdHoc (fst (adHocAvailability env i w)) :: l2))
        | CallBlockSlot i :: l2 =>
            Some (Build_Sys (snd (blockTimeSlot env i w)) s
                            (take n ps ++ ReplyBlockSlot i (fst (blockTimeSlot env i w)) :: l2))
        | _ => None
        end
      else None
  | ChResolve n =>
      match drop n ps with
      | ReplyBlockDate r :: l2 =>
          Some (apply_upd w (take n ps ++ l2) (onBlockDateResult browser doctor r s))
      | ReplyAdHoc r :: l2 =>
          Some (apply_upd w (take n ps ++ l2) (onAdHocResult browser doctor r s))
      | ReplyBlockSlot i r :: l2 =>
          Some (apply_upd w (take n ps ++ l2) (onBlockSlotResult i r s))
      | FetchDates :: l2 =>
          Some (apply_upd w (take n ps ++ l2) (fetchDates_resolved browser doctor s
                  (Some (blocked_dates_route (doctor_id doctor) (doctor_clinicId doctor) (db w)))))
      | FetchSlots date all :: l2 =>
          Some (Build_Sys w (fetchSlots_resolved s all
                  (Some (slots_response browser doctor w date))) (take n ps ++ l2))
      | RefreshTimer cap :: l2 =>
          Some (apply_upd w (take n ps ++ l2) (onRefreshTimer browser doctor cap s))
      | _ => None
      end
  | ChFail n =>
      match drop n ps with
      | FetchDates :: l2 =>
          Some (apply_upd w (take n ps ++ l2) (fetchDates_resolved browser doctor s None))
      | FetchSlots date all :: l2 =>
          Some (Build_Sys w (fetchSlots_resolved s all None) (take n ps ++ l2))
      | _ => None
      end
  end.

Fixpoint exec_script (cs : list Choice) (S : Sys) : option Sys :=
  match cs with
  | [] => Some S
  | c :: cs' => S' ← exec_choice c S; exec_script cs' S'
  end.

Lemma exec_choice_sound (c : Choice) (S S' : Sys) :
  exec_choice c S = Some S' -> sys_step browser doctor session S S'.
Proof.
  destruct S as [w s ps]. destruct c as [e | env n | n | n]; simpl.
  - destruct (event_enabled _ _ e s ps) eqn:He; [| discriminate].
    intros [= <-]. by constructor.
  - case_bool_decide as Hs; [| discriminate].
    pose proof (take_drop n ps) as Hps.
    destruct (drop n ps) as [|[] l2]; try discriminate; intros [= <-];
      rewrite <- Hps at 1; by constructor.
  - pose proof (take_drop n ps) as Hps.
    destruct (drop n ps) as [|[] l2]; try discriminate; intros [= <-];
      rewrite <- Hps at 1; by constructor.
  - pose proof (take_drop n ps) as Hps.
    destruct (drop n ps) as [|[] l2]; try discriminate; intros [= <-];
      rewrite <- Hps at 1; by constructor.
Qed.

Lemma exec_choice_complete (S S' : Sys) :
  sys_step browser doctor session S S' -> exists c, exec_choice c S = Some S'.
Proof.
  intros Hs. destruct Hs as [e w s ps He | env i w s l1 l2 Hs | env i w s l1 l2 Hs
    | env i w s l1 l2 Hs | r w s l1 l2 | r w s l1 l2 | i r w s l1 l2 | w s l1 l2
    | w s l1 l2 | date all w s l1 l2 | date all w s l1 l2 | cap w s l1 l2].
  1: { exists (ChUser e). simpl. by rewrite He. }
  all: first [ exists (ChServer env (length l1)); simpl;
               rewrite bool_decide_eq_true_2 by done; rewrite drop_app_length, take_app_length; reflexivity
             | exists (ChResolve (length l1)); simpl; rewrite drop_app_length, take_app_length; reflexivity
             | exists (ChFail (length l1)); simpl; rewrite drop_app_length, take_app_length; reflexivity ].
Qed.

Lemma exec_choice_iff (S S' : Sys) :
  sys_step browser doctor session S S' <-> exists c, exec_choice c S = Some S'.
Proof.
  split; [apply exec_choice_complete | intros [c Hc]; by eapply exec_choice_sound].
Qed.

Lemma exec_script_star (cs : list Choice) (S S' : Sys) :
  exec_script cs S = Some S' -> star (sys_step browser doctor session) S S'.
Proof.
  revert S. induction cs as [|c cs IH]; simpl; intros S H.
  - injection H as <-. constructor.
  - destruct (exec_choice c S) as [S1|] eqn:Hc; [| discriminate].
    econstructor; [by eapply exec_choice_sound | by apply IH].
Qed.

Lemma star_exec_script (S S' : Sys) :
  star (sys_step browser doctor session) S S' -> exists cs, exec_script cs S = Some S'.
Proof.
  induction 1 as [S | S S1 S' Hs _ [cs Hcs]]; [by exists [] |].
  destruct (exec_choice_complete _ _ Hs) as [c Hc].
  exists (c :: cs). simpl. by rewrite Hc.
Qed.

(** The scheduler is the step relation: a step of [sys_step] is
    exactly the result of some [Choice], and the reachable states are
    exactly the results of the scripts of choices run from the initial
    state. *)
Theorem exec_choice_spec :
  (forall S S', sys_step browser doctor session S S' <-> exists c, exec_choice c S = Some S') /\
  (forall w0 S, reachable browser doctor session w0 S <->
                exists cs, exec_script cs (Build_Sys w0 initial_state []) = Some S).
Proof.
  split; [apply exec_choice_iff |]. intros w0 S.
  split; [apply star_exec_script | intros [cs Hcs]; by eapply exec_script_star].
Qed.

(** Evaluating a script is enough to exhibit a reachable state with a
    property, or two states of one run. *)
Lemma exec_script_witness (w0 : World) (cs : list Choice) (P : Sys -> Prop) :
  match exec_script cs (Build_Sys w0 initial_state []) with
  | Some St => P St
  | None => False
  end ->
  exists S, reachable browser doctor session w0 S /\ P S.
Proof.
  destruct (exec_script cs _) as [St|] eqn:Hs; [| done]. intros HP.
  exists St. split; [by eapply exec_script_star | done].
Qed.

Lemma exec_script_witness2 (w0 : World) (cs1 cs2 : list Choice) (P1 P2 : Sys -> Prop) :
  match exec_script cs1 (Build_Sys w0 initial_state []) with
  | Some S1 => P1 S1 /\ match exec_script cs2 S1 with Some S2 => P2 S2 | None => False end
  | None => False
  end ->
  exists S1 S2, reachable browser doctor session w0 S1 /\
                star (sys_step browser doctor session) S1 S2 /\ P1 S1 /\ P2 S2.
Proof.
  destruct (exec_script cs1 _) as [S1|] eqn:Hs1; [| done].
  destruct (exec_script cs2 S1) as [S2|] eqn:Hs2; [| by intros []]. intros [HP1 HP2].
  exists S1, S2. split; [by eapply exec_script_star |].
  split; [by eapply exec_script_star | done].
Qed.
End Scheduler.
