(* ===== verification/DayToggle.v ===== *)
(** * The day toggle end to end: dialog, action, table, route and back

    One click on the dialog's day button ([onClick={handleBlockToggle}]),
    composed with everything it sets off: the server runs [blockDate] on
    the store, the dialog's [onSuccess] callback toasts and refetches, and
    the refetch reads [GET /api/blocked-dates] on the store the action
    wrote.  [toggle_day_script] is that run as four choices of the
    scheduler of [Scheduler.v]: the click, the server's call, the reply and
    the fetch.  [toggle_day_roundtrip] shows that, for a day the dialog
    selected in the operating zone and a table whose rows lie at
    midnights, the run is possible and ends with the day's block flipped
    in the dialog, in agreement with what the route reads, the reason
    cleared and the success toast shown; it needs the (doctor, day) row
    not to belong to another clinic, the conflict target of
    [blockDate_conflict_other_clinic].  [toggle_day_failure] is the same
    click when the action fails (another clinic's session, or the store
    throws): the store is untouched, no refetch starts, and the dialog is
    as before but for one error toast. *)

From stdpp Require Import base list gmap strings.
From Stdlib Require Import ZArith Lia.
From S2P Require Import Prelude Calendar DateString Availability Table Store BlockDate Modal ModalView Scheduler.

Set Warnings "-clear-no-such-hyp".
Open Scope Z_scope.

(** The button's click (line 468), the server action it calls, the
    action's reply and the refetch the reply starts, in that order, each
    taking the head of the pending list. *)
Definition toggle_day_script (env : Env) : list Choice :=
  [ChUser ClickBlockDay; ChServer env 0; ChResolve 0; ChResolve 0].

(** The rows of a date table lie at midnights of the operating zone, as
    the actions store them ([dayjs.tz(..).startOf("day")]). *)
Definition dates_normalized (tbl : list DateOverrideRow) : Prop :=
  Forall (fun r => dr_date r = midnight APP_TIMEZONE (day_in APP_TIMEZONE (dr_date r))) tbl.

#[export] Instance dates_normalized_dec (tbl : list DateOverrideRow) :
  Decision (dates_normalized tbl).
Proof. unfold dates_normalized. apply _. Defined.

(** No other clinic holds the row of [doctorId] at [t]: the insert's
    conflict target [(doctorId, date)] then only meets this clinic's row. *)
Definition no_foreign_row (clinicId doctorId : string) (t : instant)
    (tbl : list DateOverrideRow) : Prop :=
  Forall (fun r => dr_doctorId r = doctorId -> dr_date r = t -> dr_clinicId r = clinicId) tbl.

(** Sample run: [sample_doctor]'s Monday 2024-06-10 (day 19884), blocked
    by the doctor's clinic and selected in the open dialog. *)
Definition monday : instant := midnight APP_TIMEZONE 19884.

Definition own_monday_row : DateOverrideRow :=
  {| dr_clinicId := doctor_clinicId sample_doctor; dr_doctorId := doctor_id sample_doctor;
     dr_date := monday; dr_reason := Some "Congresso"; dr_createdAt := 0; dr_updatedAt := 0 |}.

Definition monday_blocked_world : World :=
  {| db := {| blockedDatesTable := [own_monday_row]; adHocAvailabilityTable := [];
              blockedTimeSlotsTable := [] |}; revalidated := [] |}.

Definition monday_selected : ModalState :=
  {| isOpen := true; selectedDate := Some monday; blockedDates := [monday];
     adHocAvailableDates := []; blockedTimeSlots := ∅; reason := "";
     currentDaySlots := []; refreshKey := 0; toasts := [] |}.

Definition failing_clinic_env : Env :=
  {| env_session_clinic := Some (doctor_clinicId sample_doctor);
     env_fault := Some (ErrorObject "connection refused"); env_now := 0 |}.

Definition clinic_env : Env :=
  {| env_session_clinic := Some (doctor_clinicId sample_doctor); env_fault := None;
     env_now := 0 |}.

(** ** The store side *)

Lemma is_uuid_nonempty (s : string) : is_uuid s = true -> s <> "".
Proof. intros H ->. discriminate H. Qed.

Lemma elem_of_list_days (c d : string) (k : Z) (tbl : list DateOverrideRow) :
  k ∈ list_days c d tbl <->
  exists r, In r tbl /\ dr_clinicId r = c /\ dr_doctorId r = d /\
            day_in APP_TIMEZONE (dr_date r) = k.
Proof.
  unfold list_days. rewrite list_elem_of_In, in_map_iff.
  setoid_rewrite filter_In. unfold owned_by, date_proj. simpl.
  setoid_rewrite andb_true_iff. setoid_rewrite bool_decide_eq_true. naive_solver.
Qed.

Section Store.
Variable p : BlockDateInput.
Variable k : Z.
Variable now : instant.

(** A block lists the day for the input's clinic: the row is inserted, or
    the target was already taken, by this clinic's row. *)
Lemma block_lists_day (tbl : list DateOverrideRow) :
  in_block p = true -> no_foreign_row (in_clinicId p) (in_doctorId p) (midnight APP_TIMEZONE k) tbl ->
  k ∈ list_days (in_clinicId p) (in_doctorId p) (blocked_after p (midnight APP_TIMEZONE k) now tbl).
Proof.
  intros Hb Hf. unfold blocked_after. rewrite Hb, elem_of_list_days.
  unfold insert_on_conflict_do_nothing. case_bool_decide as Hk.
  - apply list_elem_of_In, in_map_iff in Hk as (r & Hr & Hin).
    unfold row_key, date_proj, date_target in Hr. simpl in Hr. injection Hr as Hd Ht.
    pose proof (proj1 (List.Forall_forall _ _) Hf r Hin) as Hr.
    exists r. rewrite Ht, day_in_midnight. naive_solver.
  - exists (new_date_row p (midnight APP_TIMEZONE k) now).
    rewrite in_app_iff. simpl. rewrite day_in_midnight. naive_solver.
Qed.

(** An unblock leaves no row of the clinic and doctor on the day: every
    such row lies at the day's midnight, which the delete matches. *)
Lemma unblock_clears_day (tbl : list DateOverrideRow) :
  in_block p = false -> dates_normalized tbl ->
  k ∉ list_days (in_clinicId p) (in_doctorId p) (blocked_after p (midnight APP_TIMEZONE k) now tbl).
Proof.
  intros Hb Hn. unfold blocked_after. rewrite Hb, elem_of_list_days.
  intros (r & Hin & Hc & Hd & Hk). apply In_delete_where in Hin as [Hin Hq].
  pose proof (proj1 (List.Forall_forall _ _) Hn r Hin) as Hr. simpl in Hr. rewrite Hk in Hr.
  assert (matches_date_row (in_clinicId p) (in_doctorId p) (midnight APP_TIMEZONE k)
            (date_proj r) = true) as Hm
    by (apply matches_date_row_spec; unfold date_proj; by rewrite Hc, Hd, Hr).
  by rewrite Hm in Hq.
Qed.

Lemma blocked_after_lists_day (tbl : list DateOverrideRow) :
  dates_normalized tbl -> no_foreign_row (in_clinicId p) (in_doctorId p) (midnight APP_TIMEZONE k) tbl ->
  bool_decide (k ∈ list_days (in_clinicId p) (in_doctorId p)
                 (blocked_after p (midnight APP_TIMEZONE k) now tbl)) = in_block p.
Proof.
  intros Hn Hf. destruct (in_block p) eqn:Hb.
  - apply bool_decide_eq_true_2. by apply block_lists_day.
  - apply bool_decide_eq_false_2. by apply unblock_clears_day.
Qed.

(** The action keeps the rows at midnights. *)
Lemma blocked_after_normalized (tbl : list DateOverrideRow) :
  dates_normalized tbl -> dates_normalized (blocked_after p (midnight APP_TIMEZONE k) now tbl).
Proof.
  intros Hn. unfold blocked_after, dates_normalized in *. destruct (in_block p).
  - unfold insert_on_conflict_do_nothing. case_bool_decide; [done |].
    apply Forall_app. split; [done |]. constructor; [| done]. simpl. by rewrite day_in_midnight.
  - unfold delete_where. apply List.Forall_forall. intros r Hr%filter_In. exact (proj1 (List.Forall_forall _ _) Hn r (proj1 Hr)).
Qed.
End Store.

(** ** The dialog side *)

Section Dialog.
Variable browser : TimeZone.
Variable doctor : Doctor.

Lemma effect_slots_keeps (s : ModalState) :
  blockedDates (fst (effect_slots browser doctor s)) = blockedDates s /\
  reason (fst (effect_slots browser doctor s)) = reason s /\
  toasts s `prefix_of` toasts (fst (effect_slots browser doctor s)).
Proof.
  unfold effect_slots, fetchBlockedTimeSlotsForSelectedDate.
  repeat case_match; simpl; split_and!; try done; by eexists.
Qed.

Lemma effect_slots_no_action (s : ModalState) :
  any_action_pending (snd (effect_slots browser doctor s)) = false.
Proof.
  unfold effect_slots, fetchBlockedTimeSlotsForSelectedDate. by repeat case_match.
Qed.

(** After a fetch, [isDateBlocked] of a day's midnight reads that day in
    the fetched list. *)
Lemma fetched_isDateBlocked (s : ModalState) (bd ad : list Z) (k : Z) :
  isDateBlocked (fst (fetchDates_resolved browser doctor s (Some (bd, ad))))
                (midnight APP_TIMEZONE k) = bool_decide (k ∈ bd).
Proof.
  unfold fetchDates_resolved, set_day_sets_and_render, isDateBlocked.
  rewrite (proj1 (effect_slots_keeps _)). simpl.
  unfold start_of_day at 2. rewrite day_in_midnight. apply existsb_day_in_map.
Qed.

(** A fetch of the day sets keeps the reason and the toasts so far, and
    starts no action. *)
Lemma fetchDates_resolved_keeps (s : ModalState) (bd ad : list Z) :
  reason (fst (fetchDates_resolved browser doctor s (Some (bd, ad)))) = reason s /\
  toasts s `prefix_of` toasts (fst (fetchDates_resolved browser doctor s (Some (bd, ad)))) /\
  any_action_pending (snd (fetchDates_resolved browser doctor s (Some (bd, ad)))) = false.
Proof.
  unfold fetchDates_resolved, set_day_sets_and_render.
  pose proof (effect_slots_keeps (set_day_sets (map (midnight APP_TIMEZONE) bd)
                                               (map (midnight APP_TIMEZONE) ad) s)) as (_ & Hr & Ht).
  split_and!; [exact Hr | exact Ht |]. apply effect_slots_no_action.
Qed.
End Dialog.

(** ** The scheduler's steps of the run *)

Section Run.
Variable browser : TimeZone.
Variable doctor : Doctor.
Variable session : option string.

Lemma exec_user_enabled (e : UserEvent) (w : World) (s : ModalState) (ps : list Pending) :
  event_enabled browser doctor e s ps = true ->
  exec_choice browser doctor session (ChUser e) (Build_Sys w s ps) =
  Some (apply_upd w ps (user_event browser doctor e s)).
Proof. intros He. unfold exec_choice. simpl. by rewrite He. Qed.

Lemma exec_server_head (env : Env) (i : BlockDateInput) (w : World) (s : ModalState)
    (l : list Pending) :
  env_session_clinic env = session ->
  exec_choice browser doctor session (ChServer env 0) (Build_Sys w s (CallBlockDate i :: l)) =
  Some (Build_Sys (snd (blockDate env i w)) s (ReplyBlockDate (fst (blockDate env i w)) :: l)).
Proof. intros He. unfold exec_choice. cbn [sys_world sys_ui sys_pending drop take app].
  by rewrite bool_decide_eq_true_2. Qed.

Lemma exec_reply_head (r : Thrown + SafeActionResult ToggleResult) (w : World) (s : ModalState)
    (l : list Pending) :
  exec_choice browser doctor session (ChResolve 0) (Build_Sys w s (ReplyBlockDate r :: l)) =
  Some (apply_upd w l (onBlockDateResult browser doctor r s)).
Proof. reflexivity. Qed.

Lemma exec_fetchDates_head (w : World) (s : ModalState) (l : list Pending) :
  exec_choice browser doctor session (ChResolve 0) (Build_Sys w s (FetchDates :: l)) =
  Some (apply_upd w l (fetchDates_resolved browser doctor s
          (Some (blocked_dates_route (doctor_id doctor) (doctor_clinicId doctor) (db w))))).
Proof. reflexivity. Qed.

(** A successful reply toasts, refetches the day sets and clears the reason. *)
Lemma onBlockDateResult_success (e : option string) (f : bool) (s : ModalState) :
  doctor_ids_missing doctor = false ->
  onBlockDateResult browser doctor
    (inr (ActionData {| res_success := true; res_error := e; res_flag := f |})) s =
  (set_reason "" (add_toast (ToastSuccess (if f then "Dia bloqueado com sucesso!"
                                           else "Dia desbloqueado com sucesso!")) s),
   [FetchDates]).
Proof.
  intros Hm. unfold onBlockDateResult, then_upd, fetchBlockedAndAdHocDates.
  cbn [res_success res_flag]. by rewrite Hm.
Qed.

End Run.

Lemma doctor_ids_present (doctor : Doctor) :
  is_uuid (doctor_id doctor) = true -> is_uuid (doctor_clinicId doctor) = true ->
  doctor_ids_missing doctor = false.
Proof.
  intros Hd Hc. unfold doctor_ids_missing.
  rewrite !bool_decide_eq_false_2; [done | |]; by apply is_uuid_nonempty.
Qed.

(** The request the day button builds for a selected midnight passes the
    schema and normalises back to that midnight. *)
Lemma day_input_valid (doctor : Doctor) (k : Z) (b : bool) (r : option string) :
  is_uuid (doctor_id doctor) = true -> is_uuid (doctor_clinicId doctor) = true ->
  (let '(y, _, _) := civil_from_days k in 100 <= y <= 9999) ->
  let i := {| in_doctorId := doctor_id doctor; in_clinicId := doctor_clinicId doctor;
              in_date := formatDate APP_TIMEZONE (midnight APP_TIMEZONE k);
              in_block := b; in_reason := r |} in
  blockDateSchema_parse i = Some i /\
  normalize_date APP_TIMEZONE (in_date i) = Some (midnight APP_TIMEZONE k).
Proof.
  intros Hid Hcl Hy i.
  assert (Hnorm : normalize_date APP_TIMEZONE (in_date i) = Some (midnight APP_TIMEZONE k)).
  { simpl. unfold formatDate. rewrite day_in_midnight. by apply format_normalize. }
  split; [| exact Hnorm].
  unfold blockDateSchema_parse. rewrite (normalize_date_regex_true _ _ _ Hnorm).
  unfold i. cbn [in_doctorId in_clinicId]. by rewrite Hid, Hcl.
Qed.

(** A request that passes the schema fails, and leaves the world as it
    was, when the session is not the input's clinic or the store throws. *)
Lemma blockDate_fails (env : Env) (i : BlockDateInput) (w : World) (t : instant) :
  blockDateSchema_parse i = Some i -> in_clinicId i <> "" ->
  normalize_date APP_TIMEZONE (in_date i) = Some t ->
  env_session_clinic env <> Some (in_clinicId i) \/ env_fault env <> None ->
  exists m, blockDate env i w =
    (inr (ActionData {| res_success := false; res_error := Some m; res_flag := in_block i |}), w).
Proof.
  intros Hp Hc Ht Hfail.
  destruct (decide (env_session_clinic env = Some (in_clinicId i))) as [Hs | Hs].
  - destruct Hfail as [? | Hf]; [done |].
    rewrite (blockDate_run env i w t Hp Hs Hc Ht).
    destruct (env_fault env); [eauto | done].
  - destruct (authorize_other _ (in_clinicId i) Hs) as [m Hm]. exists m.
    unfold blockDate. rewrite Hp. unfold blockDate_body. rewrite Hm. run_act. reflexivity.
Qed.

(** ** The round trip *)

(** C27: one click on the day button, in the operating zone, of a dialog
    that has a day selected and nothing in flight: the scheduler can run
    the click, the server's [blockDate] (session of the doctor's clinic,
    no fault), the reply and the refetch of the day sets, and after the
    run the dialog shows the day's block flipped, in agreement with what
    [GET /api/blocked-dates] reads from the store the action wrote; the
    table keeps its rows at midnights, the reason is cleared, the success
    toast for the new state is the first toast of the run, and no action
    is pending any more.  The (doctor, day) row must not belong to another
    clinic: otherwise the insert hits the conflict target and nothing is
    written. *)
Theorem toggle_day_roundtrip (doctor : Doctor) (env : Env) (w : World) (s : ModalState) (k : Z) :
  is_uuid (doctor_id doctor) = true -> is_uuid (doctor_clinicId doctor) = true ->
  env_session_clinic env = Some (doctor_clinicId doctor) -> env_fault env = None ->
  (let '(y, _, _) := civil_from_days k in 100 <= y <= 9999) ->
  isOpen s = true -> selectedDate s = Some (midnight APP_TIMEZONE k) ->
  dates_normalized (blockedDatesTable (db w)) ->
  no_foreign_row (doctor_clinicId doctor) (doctor_id doctor) (midnight APP_TIMEZONE k)
                 (blockedDatesTable (db w)) ->
  exists S',
    exec_script APP_TIMEZONE doctor (Some (doctor_clinicId doctor)) (toggle_day_script env)
                (Build_Sys w s []) = Some S' /\
    isDateBlocked (sys_ui S') (midnight APP_TIMEZONE k) =
      negb (isDateBlocked s (midnight APP_TIMEZONE k)) /\
    isDateBlocked (sys_ui S') (midnight APP_TIMEZONE k) =
      bool_decide (k ∈ (blocked_dates_route (doctor_id doctor) (doctor_clinicId doctor)
                                            (db (sys_world S'))).1) /\
    dates_normalized (blockedDatesTable (db (sys_world S'))) /\
    reason (sys_ui S') = "" /\
    toasts s ++ [ToastSuccess (if isDateBlocked s (midnight APP_TIMEZONE k)
                               then "Dia desbloqueado com sucesso!"
                               else "Dia bloqueado com sucesso!")] `prefix_of` toasts (sys_ui S') /\
    any_action_pending (sys_pending S') = false.
Proof.
  intros Hid Hcl Hsess Hf Hy Hopen Hsel Hn Hfr.
  set (d := midnight APP_TIMEZONE k) in *.
  set (i := {| in_doctorId := doctor_id doctor; in_clinicId := doctor_clinicId doctor;
               in_date := formatDate APP_TIMEZONE d; in_block := negb (isDateBlocked s d);
               in_reason := Some (reason s) |}).
  destruct (day_input_valid doctor k (negb (isDateBlocked s d)) (Some (reason s)) Hid Hcl Hy)
    as [Hsch Hnorm].
  pose proof (blockDate_run env i w d Hsch Hsess (is_uuid_nonempty _ Hcl) Hnorm) as Hrun.
  rewrite Hf in Hrun.
  assert (Hh : handleBlockToggle APP_TIMEZONE doctor s = (s, [CallBlockDate i]))
    by (unfold handleBlockToggle; by rewrite Hsel).
  unfold toggle_day_script. cbn [exec_script].
  rewrite exec_user_enabled by (simpl; by rewrite Hopen).
  cbn [user_event]. rewrite Hh. cbn [apply_upd fst snd app mbind option_bind].
  unfold apply_upd at 1. cbn [fst snd app].
  rewrite exec_server_head by done. cbn [mbind option_bind]. rewrite Hrun. cbn [fst snd].
  rewrite exec_reply_head, onBlockDateResult_success by (by apply doctor_ids_present).
  unfold apply_upd at 1. cbn [fst snd app mbind option_bind].
  rewrite exec_fetchDates_head. cbn [mbind option_bind].
  eexists. split; [reflexivity |].
  unfold apply_upd. cbn [sys_ui sys_world sys_pending db blockedDatesTable app].
  pose proof (blocked_after_lists_day i k (env_now env) _ Hn Hfr) as Hl.
  unfold blocked_dates_route. cbn [db set_blockedDates blockedDatesTable fst].
  unfold d. rewrite fetched_isDateBlocked. split_and!.
  - exact Hl.
  - reflexivity.
  - by apply blocked_after_normalized.
  - by rewrite (proj1 (fetchDates_resolved_keeps _ _ _ _ _)).
  - etrans; [| apply (proj1 (proj2 (fetchDates_resolved_keeps _ _ _ _ _)))].
    simpl. unfold i, d. cbn [in_block]. by destruct (isDateBlocked s (midnight APP_TIMEZONE k)).
  - apply (proj2 (proj2 (fetchDates_resolved_keeps _ _ _ _ _))).
Qed.

(** C29: the same click when the action fails: the session is not the
    doctor's clinic, or the store throws.  The scheduler runs the click,
    the server's call and the reply; the store and the revalidation log
    are as they were, nothing is left in flight (no refetch starts), and
    the dialog is exactly as before the click but for one error toast: the
    day sets, the selection and the reason are kept. *)
Theorem toggle_day_failure (doctor : Doctor) (env : Env) (w : World) (s : ModalState) (k : Z) :
  is_uuid (doctor_id doctor) = true -> is_uuid (doctor_clinicId doctor) = true ->
  env_session_clinic env <> Some (doctor_clinicId doctor) \/ env_fault env <> None ->
  (let '(y, _, _) := civil_from_days k in 100 <= y <= 9999) ->
  isOpen s = true -> selectedDate s = Some (midnight APP_TIMEZONE k) ->
  exists S' msg,
    exec_script APP_TIMEZONE doctor (env_session_clinic env) (take 3 (toggle_day_script env))
                (Build_Sys w s []) = Some S' /\
    sys_world S' = w /\ sys_pending S' = [] /\
    sys_ui S' = add_toast (ToastError msg) s.
Proof.
  intros Hid Hcl Hfail Hy Hopen Hsel.
  set (i := {| in_doctorId := doctor_id doctor; in_clinicId := doctor_clinicId doctor;
               in_date := formatDate APP_TIMEZONE (midnight APP_TIMEZONE k);
               in_block := negb (isDateBlocked s (midnight APP_TIMEZONE k));
               in_reason := Some (reason s) |}).
  destruct (day_input_valid doctor k (negb (isDateBlocked s (midnight APP_TIMEZONE k)))
              (Some (reason s)) Hid Hcl Hy) as [Hsch Hnorm].
  destruct (blockDate_fails env i w _ Hsch (is_uuid_nonempty _ Hcl) Hnorm Hfail) as [m Hres].
  assert (Hh : handleBlockToggle APP_TIMEZONE doctor s = (s, [CallBlockDate i]))
    by (unfold handleBlockToggle; by rewrite Hsel).
  eexists _, _. unfold toggle_day_script. cbn [take exec_script].
  rewrite exec_user_enabled by (simpl; by rewrite Hopen).
  cbn [user_event]. rewrite Hh. unfold apply_upd at 1. cbn [fst snd app mbind option_bind].
  rewrite exec_server_head by done. cbn [mbind option_bind]. rewrite Hres. cbn [fst snd].
  rewrite exec_reply_head. cbn [mbind option_bind].
  split_and!; reflexivity.
Qed.

(** ** Witnesses *)

(** The sample Monday is unblocked by the run, on screen and in the store. *)
Lemma toggle_day_roundtrip_witness :
  exists S',
    exec_script APP_TIMEZONE sample_doctor (Some (doctor_clinicId sample_doctor))
                (toggle_day_script clinic_env) (Build_Sys monday_blocked_world monday_selected []) =
    Some S' /\
    isDateBlocked (sys_ui S') monday = negb (isDateBlocked monday_selected monday) /\
    isDateBlocked (sys_ui S') monday =
      bool_decide (19884 ∈ (blocked_dates_route (doctor_id sample_doctor)
                              (doctor_clinicId sample_doctor) (db (sys_world S'))).1) /\
    dates_normalized (blockedDatesTable (db (sys_world S'))) /\
    reason (sys_ui S') = "" /\
    toasts monday_selected ++
      [ToastSuccess (if isDateBlocked monday_selected monday
                     then "Dia desbloqueado com sucesso!"
                     else "Dia bloqueado com sucesso!")] `prefix_of` toasts (sys_ui S') /\
    any_action_pending (sys_pending S') = false.
Proof.
  apply toggle_day_roundtrip; try reflexivity.
  - vm_compute. split; intros H; discriminate H.
  - apply (bool_decide_unpack _). vm_compute. exact I.
  - repeat constructor.
Defined.

(** The store refuses the sample Monday's unblock: nothing changes but the
    toast. *)
Lemma toggle_day_failure_witness :
  exists S' msg,
    exec_script APP_TIMEZONE sample_doctor (env_session_clinic failing_clinic_env)
                (take 3 (toggle_day_script failing_clinic_env))
                (Build_Sys monday_blocked_world monday_selected []) = Some S' /\
    sys_world S' = monday_blocked_world /\ sys_pending S' = [] /\
    sys_ui S' = add_toast (ToastError msg) monday_selected.
Proof.
  apply (toggle_day_failure _ _ _ _ 19884); try reflexivity.
  - right. discriminate.
  - vm_compute. split; intros H; discriminate H.
Defined.
