(* ===== verification/Liveness.v ===== *)
(** * Termination and liveness of the dialog's background work

    Without new input from the administrator, the work the dialog has
    started (fetches, server-action calls, their replies, the 50 ms timer)
    always runs out: each item is weighed by how much work its completion
    can start ([pending_weight]), each callback starts work lighter than
    the item it completes ([effect_slots] at most one slot fetch, a reply at
    most one day-set fetch or one timer), so every step that is not a user
    event lowers the total weight of the pending list.  Hence no infinite
    run of background steps ([background_terminates]), a background step is
    always possible while work is pending ([background_progress]), and
    every run of background steps, in whatever order the scheduler picks,
    ends with nothing in flight ([background_drains]); then every input of
    the dialog is enabled again. *)

From stdpp Require Import base list list_numbers gmap strings.
From Stdlib Require Import ZArith Lia.
From S2P Require Import Prelude Calendar Availability Store BlockDate SlotActions Modal ModalView Scheduler.

Set Warnings "-clear-no-such-hyp".
Local Open Scope nat_scope.

(** How much work completing an item can start, plus one. *)
Definition pending_weight (p : Pending) : nat :=
  match p with
  | FetchSlots _ _ => 1
  | FetchDates | RefreshTimer _ => 2
  | ReplyBlockDate _ | ReplyAdHoc _ | ReplyBlockSlot _ _ => 3
  | CallBlockDate _ | CallAdHoc _ | CallBlockSlot _ => 4
  end.

Definition work (ps : list Pending) : nat := sum_list_with pending_weight ps.

Definition sys_work (S : Sys) : nat := work (sys_pending S).

(** The scheduler's choices that are not user events. *)
Definition is_background (c : Choice) : bool :=
  match c with ChUser _ => false | _ => true end.

(** The server as the administrator's session sees it, with no fault. *)
Definition session_env (session : option string) : Env :=
  {| env_session_clinic := session; env_fault := None; env_now := 0%Z |}.

Section Background.
Variable browser : TimeZone.
Variable doctor : Doctor.
Variable session : option string.

Definition background_step (S S' : Sys) : Prop :=
  exists c, is_background c = true /\ exec_choice browser doctor session c S = Some S'.

Definition quiescent (S : Sys) : Prop := sys_pending S = [].

#[local] Instance quiescent_dec (S : Sys) : Decision (quiescent S).
Proof. unfold quiescent. destruct (sys_pending S); [left | right]; done. Defined.

(** ** What each callback starts *)

Lemma work_app (l1 l2 : list Pending) : work (l1 ++ l2) = work l1 + work l2.
Proof. apply sum_list_with_app. Qed.

Lemma work_drop (n : nat) (ps l2 : list Pending) (p : Pending) :
  drop n ps = p :: l2 -> work ps = work (take n ps) + pending_weight p + work l2.
Proof. intros Hd. rewrite <- (take_drop n ps) at 1. rewrite Hd, work_app. simpl. lia. Qed.

Lemma effect_slots_work (s : ModalState) : work (snd (effect_slots browser doctor s)) <= 1.
Proof.
  unfold effect_slots, fetchBlockedTimeSlotsForSelectedDate. repeat case_match; simpl; lia.
Qed.

Lemma set_day_sets_and_render_work (bd ad : list instant) (s : ModalState) :
  work (snd (set_day_sets_and_render browser doctor bd ad s)) <= 1.
Proof. apply effect_slots_work. Qed.

Lemma fetchBlockedAndAdHocDates_work (s : ModalState) :
  work (snd (fetchBlockedAndAdHocDates browser doctor s)) <= 2.
Proof.
  unfold fetchBlockedAndAdHocDates. case_match; [| simpl; lia].
  pose proof (set_day_sets_and_render_work [] [] s). lia.
Qed.

Lemma fetchDates_resolved_work (s : ModalState) (resp : option (list Z * list Z)) :
  work (snd (fetchDates_resolved browser doctor s resp)) <= 1.
Proof.
  unfold fetchDates_resolved. repeat case_match; [apply set_day_sets_and_render_work | simpl; lia].
Qed.

(** A successful day toggle refetches the day sets and clears the reason. *)
Lemma refetch_work (s : ModalState) :
  work (snd (then_upd (fetchBlockedAndAdHocDates browser doctor s)
                      (fun s' => (set_reason "" s', [])))) <= 2.
Proof.
  unfold then_upd. simpl. rewrite work_app. pose proof (fetchBlockedAndAdHocDates_work s).
  simpl. lia.
Qed.

Lemma reply_work (r : Thrown + SafeActionResult ToggleResult) (i : SlotInput) (s : ModalState) :
  work (snd (onBlockDateResult browser doctor r s)) <= 2 /\
  work (snd (onAdHocResult browser doctor r s)) <= 2 /\
  work (snd (onBlockSlotResult i r s)) <= 2.
Proof.
  unfold onBlockDateResult, onAdHocResult, onBlockSlotResult, on_action_error.
  split; [| split]; repeat case_match; simpl; try lia; apply refetch_work.
Qed.

Lemma onRefreshTimer_work (c : option instant) (s : ModalState) :
  work (snd (onRefreshTimer browser doctor c s)) <= 1.
Proof. unfold onRefreshTimer. case_match; [apply effect_slots_work | simpl; lia]. Qed.

(** ** Each background step lowers the work *)

Ltac work_bound :=
  repeat match goal with
  | |- context [snd (onBlockDateResult ?b ?d ?r ?s)] =>
      pose proof (proj1 (reply_work r (Build_SlotInput "" "" "" "" false None) s));
      generalize dependent (snd (onBlockDateResult b d r s))
  | |- context [snd (onAdHocResult ?b ?d ?r ?s)] =>
      pose proof (proj1 (proj2 (reply_work r (Build_SlotInput "" "" "" "" false None) s)));
      generalize dependent (snd (onAdHocResult b d r s))
  | |- context [snd (onBlockSlotResult ?i ?r ?s)] =>
      pose proof (proj2 (proj2 (reply_work r i s)));
      generalize dependent (snd (onBlockSlotResult i r s))
  | |- context [snd (fetchDates_resolved ?b ?d ?s ?resp)] =>
      pose proof (fetchDates_resolved_work s resp);
      generalize dependent (snd (fetchDates_resolved b d s resp))
  | |- context [snd (set_day_sets_and_render ?b ?d ?bd ?ad ?s)] =>
      pose proof (set_day_sets_and_render_work bd ad s);
      generalize dependent (snd (set_day_sets_and_render b d bd ad s))
  | |- context [snd (onRefreshTimer ?b ?d ?c ?s)] =>
      pose proof (onRefreshTimer_work c s);
      generalize dependent (snd (onRefreshTimer b d c s))
  end; intros; lia.

Lemma background_step_work (S S' : Sys) :
  background_step S S' -> sys_work S' < sys_work S.
Proof.
  intros (c & Hc & Hx). destruct S as [w s ps]. unfold sys_work. simpl.
  destruct c as [e | env n | n | n]; simpl in Hx; [discriminate | | |].
  1: { case_bool_decide; [| discriminate].
         destruct (drop n ps) as [|[] l2] eqn:Hd; try discriminate; injection Hx as <-;
           simpl; rewrite (work_drop n ps l2 _ Hd), work_app; simpl; lia. }
  all: destruct (drop n ps) as [|[] l2] eqn:Hd; try discriminate; injection Hx as <-;
    cbn [sys_pending apply_upd]; rewrite (work_drop n ps l2 _ Hd), ?work_app; simpl;
    work_bound.
Qed.

(** Any pending item can complete next: a call is run by the server of the
    session, anything else resolves. *)
Lemma background_step_head (S : Sys) (p : Pending) (l : list Pending) :
  sys_pending S = p :: l -> exists S', background_step S S'.
Proof.
  destruct S as [w s ps]. simpl. intros ->. unfold background_step.
  destruct p; eexists;
    first [ exists (ChServer (session_env session) 0); split; [done |]; simpl;
            rewrite bool_decide_eq_true_2 by done; reflexivity
          | exists (ChResolve 0); split; [done | reflexivity] ].
Qed.

(** No background step from a quiescent state: the scheduler only
    completes work that is in flight. *)
Lemma background_step_pending (S S' : Sys) : background_step S S' -> sys_pending S <> [].
Proof.
  intros (c & Hc & Hx) Hp. destruct S as [w s ps]. simpl in Hp. subst ps.
  destruct c; simpl in Hx; rewrite ?drop_nil in Hx; [discriminate | | done | done].
  by case_bool_decide.
Qed.

Lemma background_progress (S : Sys) : ~ quiescent S -> exists S', background_step S S'.
Proof.
  unfold quiescent. destruct (sys_pending S) as [|p l] eqn:Hp; [done |].
  intros _. by eapply background_step_head.
Qed.

Lemma background_sys_step (S S' : Sys) :
  background_step S S' -> sys_step browser doctor session S S'.
Proof. intros (c & _ & Hx). by eapply exec_choice_sound. Qed.

(** ** Termination and liveness *)

(** Background work terminates: there is no infinite run of steps
    that are not user events, whatever order the fetches, calls, replies
    and timers complete in; the pending work [sys_work] drops at each
    step. *)
Theorem background_terminates : well_founded (fun S' S => background_step S S').
Proof. apply (measure_wf _ sys_work), background_step_work. Qed.

(** While work is pending some item can complete, and no run goes on
    forever. *)
Lemma background_eventually (S : Sys) : eventually background_step quiescent S.
Proof.
  apply (measure_eventually _ sys_work background_step_work).
  - apply background_progress.
  - intros S0. destruct (decide (quiescent S0)); [by left | by right].
Qed.
(** C34: every run of background steps, in any order, ends with nothing
    in flight, and a state is a stopping point of such runs exactly when
    nothing is in flight.  Every reachable state therefore leads, without
    user input, to a reachable state in which no action is pending, where
    every control of the dialog is enabled again (a run that never arrived
    there would leave a button on ["Processando..."]). *)
Theorem background_drains :
  (forall S, eventually background_step quiescent S) /\
  (forall S, quiescent S <-> ~ exists S', background_step S S') /\
  (forall w0 S, reachable browser doctor session w0 S ->
     exists S', reachable browser doctor session w0 S' /\
                star (sys_step browser doctor session) S S' /\ sys_pending S' = [] /\
                any_action_pending (sys_pending S') = false).
Proof.
  split; [exact background_eventually | split].
  - intros S. split; [intros Hq [S' Hs]; by apply (background_step_pending S S') |].
    intros Hn. destruct (decide (quiescent S)) as [Hq | Hq]; [done |].
    by destruct (Hn (background_progress S Hq)).
  - intros w0 S Hr.
    destruct (eventually_star _ _ _ (background_eventually S)) as (S' & Hs & Hq).
    assert (Hs' : star (sys_step browser doctor session) S S')
      by (eapply star_mono; [apply background_sys_step | exact Hs]).
    exists S'. split; [by eapply star_trans |]. unfold quiescent in Hq. by rewrite Hq.
Qed.
End Background.
