(* ===== verification/CalendarGuard.v ===== *)
(** * The calendar's past-date filter

    [<Calendar disabled={(date) => date < new Date()} />] (line 447) keeps
    the administrator from selecting a day whose local midnight has passed,
    and the widget hands out local midnights only.  [sys_step] lets any
    date be selected; [calendar_step] is the scheduler restricted to the
    selections the calendar lets through at the moment [now] the dialog was
    opened (time only moves on, so a later clock disables more days and the
    guarded runs over-approximate the real ones).  Every guarded run is a
    run of [sys_step] ([calendar_step_sys_step]), so the invariants of
    [ModalTheorems] and [SlotFlags] hold for it.  What the filter adds
    ([calendar_guard_future_days]): the selected day and the date of every
    request in flight are local midnights not before [now], hence, unless
    the dialog was opened exactly at midnight, days strictly after today:
    today itself can never be blocked, opened or have a slot toggled from
    the dialog. *)

From stdpp Require Import base list gmap strings.
From Stdlib Require Import ZArith Lia.
From S2P Require Import Prelude Calendar Availability Store BlockDate SlotActions Modal ModalView Scheduler.

Set Warnings "-clear-no-such-hyp".
Open Scope Z_scope.

(** A day cell of the calendar: the local midnight of its day. *)
Definition is_local_midnight (browser : TimeZone) (d : instant) : bool :=
  bool_decide (d = midnight browser (day_in browser d)).

(** The scheduler's choices the calendar lets through at [now]: a date is
    selected only from an enabled cell. *)
Definition choice_allowed (browser : TimeZone) (now : instant) (c : Choice) : bool :=
  match c with
  | ChUser (SelectDate (Some d)) => negb (calendar_disabled now d) && is_local_midnight browser d
  | _ => true
  end.

(** The request dates the dialog sends for a selected day. *)
Definition call_date_ok (browser : TimeZone) (P : instant -> Prop) (p : Pending) : Prop :=
  match p with
  | CallBlockDate i | CallAdHoc i => exists d, P d /\ in_date i = formatDate browser d
  | CallBlockSlot i => exists d, P d /\ si_date i = formatDate browser d
  | _ => True
  end.

(** ** A concrete run

    [sample_doctor]'s dialog opened on Thursday 2024-06-06 at 10:00 in
    Fortaleza (day 19880): Monday 2024-06-10 is selected and blocked. *)
Definition opened_at : instant := midnight APP_TIMEZONE 19880 + 10 * 3600.

Definition block_monday_script : list Choice :=
  [ChUser OpenModal; ChResolve 0; ChUser (SelectDate (Some (midnight APP_TIMEZONE 19884)));
   ChResolve 0; ChUser ClickBlockDay].

Definition blocking_monday : Sys :=
  default (Build_Sys empty_tables_world initial_state [])
    (exec_script APP_TIMEZONE sample_doctor (Some (doctor_clinicId sample_doctor))
       block_monday_script (Build_Sys empty_tables_world initial_state [])).

Section Guarded.
Variable browser : TimeZone.
Variable doctor : Doctor.
Variable session : option string.
Variable now : instant.

Definition calendar_step (S S' : Sys) : Prop :=
  exists c, choice_allowed browser now c = true /\ exec_choice browser doctor session c S = Some S'.

Definition reachable_at (w0 : World) (S : Sys) : Prop :=
  star calendar_step (Build_Sys w0 initial_state []) S.

Fixpoint exec_script_at (cs : list Choice) (S : Sys) : option Sys :=
  match cs with
  | [] => Some S
  | c :: cs' =>
      if choice_allowed browser now c
      then S' ← exec_choice browser doctor session c S; exec_script_at cs' S'
      else None
  end.

(** A day the calendar lets the administrator select. *)
Definition selectable (d : instant) : Prop := now <= d /\ is_local_midnight browser d = true.

Definition guard_inv (S : Sys) : Prop :=
  (forall d, selectedDate (sys_ui S) = Some d -> selectable d) /\
  Forall (call_date_ok browser selectable) (sys_pending S).

(** A callback that keeps the selection and starts no server call. *)
Definition background_upd (s : ModalState) (u : Upd) : Prop :=
  selectedDate (fst u) = selectedDate s /\ Forall (call_date_ok browser selectable) (snd u).

Ltac bg_tac :=
  repeat match goal with
  | |- background_upd _ _ => split; simpl
  | |- Forall _ [] => constructor
  | |- Forall _ (_ :: _) => constructor; simpl
  | |- True => exact I
  end; try reflexivity.

Lemma effect_slots_bg (s : ModalState) : background_upd s (effect_slots browser doctor s).
Proof. unfold effect_slots, fetchBlockedTimeSlotsForSelectedDate. repeat case_match; bg_tac. Qed.

Lemma background_upd_same (s s' : ModalState) (u : Upd) :
  selectedDate s = selectedDate s' -> background_upd s' u -> background_upd s u.
Proof. unfold background_upd. intros -> . done. Qed.

Lemma set_day_sets_and_render_bg (bd ad : list instant) (s : ModalState) :
  background_upd s (set_day_sets_and_render browser doctor bd ad s).
Proof. eapply background_upd_same; [| apply effect_slots_bg]. done. Qed.

Lemma fetchBlockedAndAdHocDates_bg (s : ModalState) :
  background_upd s (fetchBlockedAndAdHocDates browser doctor s).
Proof.
  unfold fetchBlockedAndAdHocDates, set_day_sets_and_render. case_match; [| bg_tac].
  eapply background_upd_same; [| apply effect_slots_bg]. done.
Qed.

Lemma fetchDates_resolved_bg (s : ModalState) (resp : option (list Z * list Z)) :
  background_upd s (fetchDates_resolved browser doctor s resp).
Proof.
  unfold fetchDates_resolved, set_day_sets_and_render. repeat case_match; [| bg_tac].
  eapply background_upd_same; [| apply effect_slots_bg]. done.
Qed.

Lemma onRefreshTimer_bg (c : option instant) (s : ModalState) :
  background_upd s (onRefreshTimer browser doctor c s).
Proof.
  unfold onRefreshTimer. case_match; [| bg_tac].
  eapply background_upd_same; [| apply effect_slots_bg]. done.
Qed.

Lemma reply_bg (r : Thrown + SafeActionResult ToggleResult) (i : SlotInput) (s : ModalState) :
  background_upd s (onBlockDateResult browser doctor r s) /\
  background_upd s (onAdHocResult browser doctor r s) /\
  background_upd s (onBlockSlotResult i r s).
Proof.
  pose proof (fetchBlockedAndAdHocDates_bg) as Hf.
  unfold onBlockDateResult, onAdHocResult, onBlockSlotResult, on_action_error, then_upd.
  split; [| split]; repeat case_match; bg_tac;
    match goal with
    | |- context [fetchBlockedAndAdHocDates browser doctor ?s'] =>
        destruct (Hf s') as [?Hsel ?Hcall]; rewrite ?app_nil_r; done
    end.
Qed.
Lemma selected_fetchSlots_resolved (s : ModalState) (all : list string) (resp : option (list string)) :
  selectedDate (fetchSlots_resolved s all resp) = selectedDate s.
Proof. unfold fetchSlots_resolved. by case_match. Qed.

Lemma user_event_guard (e : UserEvent) (s : ModalState) :
  choice_allowed browser now (ChUser e) = true ->
  (forall d, selectedDate s = Some d -> selectable d) ->
  (forall d, selectedDate (fst (user_event browser doctor e s)) = Some d -> selectable d) /\
  Forall (call_date_ok browser selectable) (snd (user_event browser doctor e s)).
Proof.
  intros Ha Hs. destruct e as [| | [d|] | r | | | t]; cbn [user_event].
  - unfold effect_open. cbn [isOpen set_open].
    destruct (fetchBlockedAndAdHocDates_bg (set_open true s)) as [-> ?]. done.
  - unfold effect_open. cbn [isOpen set_open]. destruct (effect_slots_bg (set_currentDaySlots []
      (set_blockedTimeSlots ∅ (set_reason "" (set_selected None (set_open false s)))))) as [-> ?].
    done.
  - unfold handleDatesChange.
    destruct (effect_slots_bg (set_reason "" (set_selected (Some d) s))) as [-> ?].
    simpl in Ha. apply andb_prop in Ha as [Hn Hm]. unfold calendar_disabled in Hn.
    split; [| done]. intros d' [= <-]. split; [apply negb_true_iff, Z.ltb_ge in Hn | ]; done.
  - unfold handleDatesChange.
    destruct (effect_slots_bg (set_reason "" (set_selected None s))) as [-> ?]. done.
  - done.
  - unfold handleBlockToggle. destruct (selectedDate s) as [d|] eqn:E; simpl;
      [| split; [intros d0; by rewrite E | constructor]].
    split; [intros d0 Hd0; apply Hs; congruence |]. repeat constructor. exists d. split; [by apply Hs | done].
  - unfold handleAdHocToggle. destruct (selectedDate s) as [d|] eqn:E; simpl;
      [| split; [intros d0; by rewrite E | constructor]].
    split; [intros d0 Hd0; apply Hs; congruence |]. repeat constructor. exists d. split; [by apply Hs | done].
  - unfold handleTimeSlotToggle. destruct (selectedDate s) as [d|] eqn:E; simpl;
      [| split; [intros d0; by rewrite E | constructor]].
    split; [intros d0 Hd0; apply Hs; congruence |]. repeat constructor. exists d. split; [by apply Hs | done].
Qed.

Lemma apply_upd_guard (w : World) (rest : list Pending) (s : ModalState) (u : Upd) :
  (forall d, selectedDate s = Some d -> selectable d) ->
  Forall (call_date_ok browser selectable) rest -> background_upd s u ->
  guard_inv (apply_upd w rest u).
Proof.
  intros Hs Hr [Hsel Hc]. split; simpl; [by rewrite Hsel | by apply Forall_app].
Qed.

Lemma calendar_step_guard (S S' : Sys) : calendar_step S S' -> guard_inv S -> guard_inv S'.
Proof.
  intros (c & Ha & Hx) [Hs Hp]. destruct S as [w s ps]. cbn [sys_ui sys_pending] in Hs, Hp.
  destruct c as [e | env n | n | n]; cbn [exec_choice sys_world sys_ui sys_pending] in Hx.
  - destruct (event_enabled _ _ e s ps); [injection Hx as <- | discriminate].
    destruct (user_event_guard e s Ha Hs) as [H1 H2].
    split; simpl; [done | by apply Forall_app].
  - case_bool_decide; [| discriminate]. pose proof (take_drop n ps) as Htd.
    destruct (drop n ps) as [|[] l2]; try discriminate; injection Hx as <-;
      rewrite <- Htd in Hp; apply Forall_middle in Hp as [_ Hp];
      (split; [done | by apply Forall_middle_insert]).
  - pose proof (take_drop n ps) as Htd.
    destruct (drop n ps) as [|[] l2]; try discriminate; injection Hx as <-;
      rewrite <- Htd in Hp; apply Forall_middle in Hp as [_ Hp].
    all: first [ split; [intros d Hd; exact (Hs d Hd) | exact Hp]
               | apply (apply_upd_guard _ _ s); [done | done |] ].
    all: first [ apply fetchDates_resolved_bg | apply onRefreshTimer_bg | apply set_day_sets_and_render_bg
               | apply (proj1 (reply_bg _ (Build_SlotInput "" "" "" "" false None) _))
               | apply (proj1 (proj2 (reply_bg _ (Build_SlotInput "" "" "" "" false None) _)))
               | apply (proj2 (proj2 (reply_bg _ _ _))) ].
  - pose proof (take_drop n ps) as Htd.
    destruct (drop n ps) as [|[] l2]; try discriminate; injection Hx as <-;
      rewrite <- Htd in Hp; apply Forall_middle in Hp as [_ Hp].
    + apply (apply_upd_guard _ _ s); [done | done | bg_tac].
    + split; [intros d Hd; exact (Hs d Hd) | exact Hp].
Qed.
Lemma calendar_step_sys_step (S S' : Sys) :
  calendar_step S S' -> sys_step browser doctor session S S'.
Proof. intros (c & _ & Hx). by eapply exec_choice_sound. Qed.

(** Every guarded run is a run of [sys_step]. *)
Lemma reachable_at_reachable (w0 : World) (S : Sys) :
  reachable_at w0 S -> reachable browser doctor session w0 S.
Proof. apply star_mono, calendar_step_sys_step. Qed.

Lemma exec_script_at_star (cs : list Choice) (S S' : Sys) :
  exec_script_at cs S = Some S' -> star calendar_step S S'.
Proof.
  revert S. induction cs as [|c cs IH]; simpl; intros S H; [injection H as <-; constructor |].
  destruct (choice_allowed browser now c) eqn:Ha; [| discriminate].
  destruct (exec_choice browser doctor session c S) as [S1|] eqn:Hc; [| discriminate].
  eapply star_step; [by exists c | by apply IH].
Qed.

Lemma reachable_at_guard (w0 : World) (S : Sys) : reachable_at w0 S -> guard_inv S.
Proof.
  intros H. eapply star_invariant; [intros x y Hx Hs; exact (calendar_step_guard x y Hs Hx) | | exact H].
  split; [done | constructor].
Qed.

(** A selectable day of a dialog opened after midnight is after today. *)
Lemma selectable_after_today (d : instant) :
  selectable d -> 0 < seconds_of_day browser now -> day_in browser now < day_in browser d.
Proof.
  intros [Hle Hm] Hs. unfold is_local_midnight in Hm. apply bool_decide_eq_true in Hm.
  unfold midnight, day_in, seconds_of_day, SECONDS_PER_DAY in *.
  Z.div_mod_to_equations. nia.
Qed.

Lemma call_date_ok_impl (P Q : instant -> Prop) (p : Pending) :
  (forall d, P d -> Q d) -> call_date_ok browser P p -> call_date_ok browser Q p.
Proof. intros HPQ. destruct p; simpl; try done; intros (d & Hd & He); eauto. Qed.

(** C28: the calendar's past-date filter.  In every run the calendar lets
    through, the selected date and the date of every request in flight
    are local midnights not before the moment [now] the dialog was opened;
    so, unless it was opened exactly at midnight, every day the dialog
    selects, blocks, opens or toggles slots of is strictly after today:
    today itself is out of reach of the dialog. *)
Theorem calendar_guard_future_days (w0 : World) (S : Sys) :
  reachable_at w0 S ->
  (forall d, selectedDate (sys_ui S) = Some d -> now <= d /\ is_local_midnight browser d = true) /\
  Forall (call_date_ok browser selectable) (sys_pending S) /\
  (0 < seconds_of_day browser now ->
   (forall d, selectedDate (sys_ui S) = Some d -> day_in browser now < day_in browser d) /\
   Forall (call_date_ok browser (fun d => day_in browser now < day_in browser d)) (sys_pending S)).
Proof.
  intros Hr. destruct (reachable_at_guard _ _ Hr) as [Hs Hp].
  split; [exact Hs | split; [exact Hp |]]. intros Hn. split.
  - intros d Hd. apply selectable_after_today; [by apply Hs | done].
  - eapply Forall_impl; [exact Hp |]. intros p. apply call_date_ok_impl.
    intros d Hd. by apply selectable_after_today.
Qed.
End Guarded.


(** ** Witnesses *)

Lemma calendar_guard_future_days_witness :
  (forall d, selectedDate (sys_ui blocking_monday) = Some d ->
             opened_at <= d /\ is_local_midnight APP_TIMEZONE d = true) /\
  Forall (call_date_ok APP_TIMEZONE (selectable APP_TIMEZONE opened_at)) (sys_pending blocking_monday) /\
  (0 < seconds_of_day APP_TIMEZONE opened_at ->
   (forall d, selectedDate (sys_ui blocking_monday) = Some d ->
              day_in APP_TIMEZONE opened_at < day_in APP_TIMEZONE d) /\
   Forall (call_date_ok APP_TIMEZONE (fun d => day_in APP_TIMEZONE opened_at < day_in APP_TIMEZONE d))
          (sys_pending blocking_monday)).
Proof.
  apply (calendar_guard_future_days APP_TIMEZONE sample_doctor (Some (doctor_clinicId sample_doctor))
           opened_at empty_tables_world).
  apply (exec_script_at_star _ _ _ _ block_monday_script). vm_compute. reflexivity.
Defined.
