(* ===== verification/ModalTheorems.v ===== *)
(** * Theorems on the reconciliation engine

    The specification's authoritative slot view [computeDaySlots], then: the
    invariant of the whole system (the slot list is always empty or the full
    tick sequence of some day, and every in-flight slot fetch carries the
    ticks of its own date), proved by rule induction on [sys_step]; the
    authority of the refetch; the agreement of the optimistic update with
    the server; the round trip of a slot block; and the frame condition
    [keeps_day_sets] of the slot-toggle path, which refreshes no day-level
    state.  The witnesses run [sample_doctor] on Saturday 2024-06-08. *)

From stdpp Require Import base list gmap strings.
From Stdlib Require Import ZArith Lia Ascii.
From S2P Require Import Prelude Calendar DateString Availability Table Store BlockDate SlotActions Modal ModalView Scheduler.

Set Warnings "-clear-no-such-hyp".
Open Scope Z_scope.

(** The authoritative slot view of [date] (the specification's
    [computeDaySlots], section 4.3) for a day that is not blocked: the
    labels of the doctor's window, each blocked exactly when the server
    lists it.  The specification's other branch, no slot on a blocked day,
    is not part of it; [slot_fetch_lands_on_blocked_day] shows the dialog
    does not follow that branch. *)
Definition computeDaySlots (browser : TimeZone) (doctor : Doctor) (w : World) (date : instant)
    : list AdminTimeSlot :=
  match allPossibleSlotsForDay browser doctor date with
  | Some all =>
      map (fun time => {| slot_time := time;
                          slot_isBlocked := bool_decide (time ∈ slots_response browser doctor w date) |}) all
  | None => []
  end.

(** A callback that leaves the day-level state alone: the blocked and
    ad-hoc days are unchanged and no fetch of them is started. *)
Definition keeps_day_sets (s : ModalState) (u : Upd) : Prop :=
  blockedDates (fst u) = blockedDates s /\ adHocAvailableDates (fst u) = adHocAvailableDates s /\
  FetchDates ∉ snd u.

(** ** Fixtures of the witnesses

    [sample_doctor] with no override: Saturday 2024-06-08 (day 19882)
    selected, its slot fetch in flight, then resolved; and a click on its
    09:00. *)

Definition no_overrides : World :=
  {| db := {| blockedDatesTable := []; adHocAvailabilityTable := [];
              blockedTimeSlotsTable := [] |}; revalidated := [] |}.

Definition admin_env : Env :=
  {| env_session_clinic := Some (doctor_clinicId sample_doctor); env_fault := None;
     env_now := 0 |}.

Definition run_from (w0 : World) (cs : list Choice) : Sys :=
  default (Build_Sys w0 initial_state [])
          (exec_script APP_TIMEZONE sample_doctor (Some (doctor_clinicId sample_doctor)) cs
             (Build_Sys w0 initial_state [])).

Definition fetching_saturday_script : list Choice :=
  [ChUser OpenModal; ChResolve 0; ChUser (SelectDate (Some (midnight APP_TIMEZONE 19882)))].

Definition fetching_saturday : Sys := run_from no_overrides fetching_saturday_script.

Definition showing_saturday : Sys :=
  run_from no_overrides (fetching_saturday_script ++ [ChResolve 0]).

Definition click_0900 : SlotInput :=
  {| si_doctorId := doctor_id sample_doctor; si_clinicId := doctor_clinicId sample_doctor;
     si_date := "2024-06-08"; si_time := "09:00"; si_block := true; si_reason := Some "" |}.

Section Invariant.
Variable browser : TimeZone.
Variable doctor : Doctor.
Variable session : option string.

(** The slot list of the dialog: empty, or one label per tick of some
    day's window, in order. *)
Definition slots_from_window (l : list AdminTimeSlot) : Prop :=
  l = [] \/ exists d all, allPossibleSlotsForDay browser doctor d = Some all /\
                          map slot_time l = all.

Definition pending_item_ok (p : Pending) : Prop :=
  match p with
  | FetchSlots d all => allPossibleSlotsForDay browser doctor d = Some all
  | _ => True
  end.

Definition sys_inv (S : Sys) : Prop :=
  slots_from_window (currentDaySlots (sys_ui S)) /\ Forall pending_item_ok (sys_pending S).

(** A callback keeps the slot list well formed and starts well-formed
    work. *)
Definition upd_ok (s : ModalState) (u : Upd) : Prop :=
  (slots_from_window (currentDaySlots s) -> slots_from_window (currentDaySlots (fst u))) /\
  Forall pending_item_ok (snd u).

Ltac upd_ok_tac :=
  repeat match goal with
  | |- upd_ok _ _ => split; simpl
  | |- Forall _ [] => constructor
  | |- Forall _ (_ :: _) => constructor; simpl
  | |- True => exact I
  | |- Forall _ _ => progress simpl
  | |- _ -> _ => progress simpl
  | |- slots_from_window _ -> slots_from_window _ =>
      first [intros _; left; reflexivity | intros ?; assumption]
  end.

Lemma upd_ok_same (s s' : ModalState) (u : Upd) :
  currentDaySlots s = currentDaySlots s' -> upd_ok s' u -> upd_ok s u.
Proof. unfold upd_ok. intros ->. done. Qed.

Lemma effect_slots_ok (s : ModalState) : upd_ok s (effect_slots browser doctor s).
Proof.
  unfold effect_slots, fetchBlockedTimeSlotsForSelectedDate.
  repeat case_match; upd_ok_tac; done.
Qed.

Lemma then_upd_ok (s : ModalState) (u : Upd) (f : ModalState -> Upd) :
  upd_ok s u -> (forall s', upd_ok s' (f s')) -> upd_ok s (then_upd u f).
Proof.
  unfold then_upd. intros [H1 H2] Hf. destruct (f (fst u)) as [s' ps] eqn:E.
  pose proof (Hf (fst u)) as [H3 H4]. rewrite E in H3, H4. split; simpl in *.
  - auto.
  - by apply Forall_app.
Qed.

Lemma fetchBlockedAndAdHocDates_ok (s : ModalState) :
  upd_ok s (fetchBlockedAndAdHocDates browser doctor s).
Proof.
  unfold fetchBlockedAndAdHocDates, set_day_sets_and_render. case_match.
  - eapply upd_ok_same; [| apply effect_slots_ok]. done.
  - upd_ok_tac.
Qed.

Lemma fetchDates_resolved_ok (s : ModalState) (resp : option (list Z * list Z)) :
  upd_ok s (fetchDates_resolved browser doctor s resp).
Proof.
  unfold fetchDates_resolved. repeat case_match; subst.
  - eapply upd_ok_same; [| apply effect_slots_ok]. done.
  - upd_ok_tac.
Qed.

Lemma optimistic_slots_times (time : string) (b : bool) (l : list AdminTimeSlot) :
  map slot_time (optimistic_slots time b l) = map slot_time l.
Proof.
  unfold optimistic_slots. rewrite map_map. apply map_ext. intros a. by case_bool_decide.
Qed.

Lemma optimistic_slots_window (time : string) (b : bool) (l : list AdminTimeSlot) :
  slots_from_window l -> slots_from_window (optimistic_slots time b l).
Proof.
  intros [-> | (d & all & Ha & Hm)]; [by left |]. right. exists d, all.
  by rewrite optimistic_slots_times.
Qed.

Lemma user_event_ok (e : UserEvent) (s : ModalState) :
  upd_ok s (user_event browser doctor e s).
Proof.
  destruct e; simpl.
  - unfold effect_open. simpl. eapply upd_ok_same; [| apply fetchBlockedAndAdHocDates_ok]. done.
  - unfold effect_open. simpl. pose proof (effect_slots_ok
      (set_currentDaySlots [] (set_blockedTimeSlots ∅ (set_reason "" (set_selected None
         (set_open false s)))))) as [H1 H2].
    split; [intros _; apply H1; by left | done].
  - eapply upd_ok_same; [| apply effect_slots_ok]. done.
  - upd_ok_tac.
  - unfold handleBlockToggle. case_match; upd_ok_tac.
  - unfold handleAdHocToggle. case_match; upd_ok_tac.
  - unfold handleTimeSlotToggle. case_match; upd_ok_tac.
Qed.

Lemma reply_ok (r : Thrown + SafeActionResult ToggleResult) (i : SlotInput) (s : ModalState) :
  upd_ok s (onBlockDateResult browser doctor r s) /\
  upd_ok s (onAdHocResult browser doctor r s) /\
  upd_ok s (onBlockSlotResult i r s).
Proof.
  unfold onBlockDateResult, onAdHocResult, onBlockSlotResult, on_action_error.
  split; [| split]; repeat case_match;
    try (apply then_upd_ok;
         [eapply upd_ok_same; [| apply fetchBlockedAndAdHocDates_ok]; done
         | intros; upd_ok_tac]);
    upd_ok_tac; apply optimistic_slots_window.
Qed.

Lemma onRefreshTimer_ok (c : option instant) (s : ModalState) :
  upd_ok s (onRefreshTimer browser doctor c s).
Proof.
  unfold onRefreshTimer. case_match.
  - eapply upd_ok_same; [| apply effect_slots_ok]. done.
  - upd_ok_tac.
Qed.

Lemma apply_upd_inv (w : World) (rest : list Pending) (s : ModalState) (u : Upd) :
  slots_from_window (currentDaySlots s) -> Forall pending_item_ok rest ->
  upd_ok s u -> sys_inv (apply_upd w rest u).
Proof.
  intros Hw Hr [H1 H2]. split; simpl; [auto | by apply Forall_app].
Qed.

Lemma sys_step_inv (S S' : Sys) :
  sys_step browser doctor session S S' -> sys_inv S -> sys_inv S'.
Proof.
  intros Hs [Hw Hp]. destruct Hs;
    try (apply Forall_middle in Hp as [Hx Hp]; simpl in Hx).
  - apply (apply_upd_inv _ _ s); [done | done | apply user_event_ok].
  - split; [done | by apply Forall_middle_insert].
  - split; [done | by apply Forall_middle_insert].
  - split; [done | by apply Forall_middle_insert].
  - apply (apply_upd_inv _ _ s); [done | done | apply (proj1 (reply_ok r (Build_SlotInput "" "" "" "" false None) s))].
  - apply (apply_upd_inv _ _ s); [done | done | apply (proj1 (proj2 (reply_ok r (Build_SlotInput "" "" "" "" false None) s)))].
  - apply (apply_upd_inv _ _ s); [done | done | apply (proj2 (proj2 (reply_ok r i s)))].
  - apply (apply_upd_inv _ _ s); [done | done | apply fetchDates_resolved_ok].
  - apply (apply_upd_inv _ _ s); [done | done | apply fetchDates_resolved_ok].
  - split; [| done]. simpl. right. exists date, all. split; [done |].
    by rewrite map_map, map_id.
  - split; [| done]. by left.
  - apply (apply_upd_inv _ _ s); [done | done | apply onRefreshTimer_ok].
Qed.

Lemma reachable_inv (w0 : World) (S : Sys) :
  reachable browser doctor session w0 S -> sys_inv S.
Proof.
  intros H. eapply star_invariant; [| | exact H].
  - intros x y Hx Hs. exact (sys_step_inv x y Hs Hx).
  - split; [by left | constructor].
Qed.
End Invariant.

(** ** The slot view against the server *)

Section Reconciliation.
Variable browser : TimeZone.
Variable doctor : Doctor.
Variable session : option string.

(** C7: every reachable state satisfies the invariant: the slot list is
    empty or the full label sequence of some day's window, and each
    in-flight slot fetch carries the labels of its own date. *)
Theorem reachable_slots_from_window (w0 : World) (S : Sys) :
  reachable browser doctor session w0 S ->
  slots_from_window browser doctor (currentDaySlots (sys_ui S)) /\
  Forall (pending_item_ok browser doctor) (sys_pending S).
Proof. apply reachable_inv. Qed.

(** so, when the doctor's window lies within one day, the slot
    buttons of any reachable state carry pairwise distinct labels: the
    optimistic update, which matches on the label, touches one slot. *)
Theorem reachable_slot_labels_distinct (w0 : World) (S : Sys) (av : DayJsAvailability) :
  reachable browser doctor session w0 S ->
  getDayJsAvailability doctor = Some av -> 0 <= av_from av -> av_to av <= SECONDS_PER_DAY ->
  NoDup (map slot_time (currentDaySlots (sys_ui S))).
Proof.
  intros Hr Hav Hf Ht. destruct (reachable_inv _ _ _ _ _ Hr) as [[-> | (d & all & Ha & Hm)] _].
  - constructor.
  - rewrite Hm. rewrite (allPossibleSlotsForDay_spec _ _ _ av Hav Hf Ht) in Ha.
    injection Ha as <-. by apply slot_labels_NoDup.
Qed.

Lemma elem_of_list_to_set_decide (x : string) (l : list string) :
  bool_decide (x ∈ (list_to_set l : gset string)) = bool_decide (x ∈ l).
Proof. apply bool_decide_ext. apply elem_of_list_to_set. Qed.

(** C6: the refetch is authoritative.  Whenever an in-flight slot fetch of
    a reachable state resolves, the slot list becomes exactly the server's
    view of that date at that moment, whatever happened in between. *)
Theorem fetchSlots_authoritative (w0 w : World) (s : ModalState) (l1 l2 : list Pending)
    (date : instant) (all : list string) :
  reachable browser doctor session w0 (Build_Sys w s (l1 ++ FetchSlots date all :: l2)) ->
  currentDaySlots (fetchSlots_resolved s all (Some (slots_response browser doctor w date))) =
  computeDaySlots browser doctor w date.
Proof.
  intros Hr. destruct (reachable_inv _ _ _ _ _ Hr) as [_ Hp]. simpl in Hp.
  apply Forall_middle in Hp as [Ha _]. simpl in Ha.
  unfold computeDaySlots. rewrite Ha. simpl. apply map_ext. intros t.
  by rewrite elem_of_list_to_set_decide.
Qed.

(** C4: the optimistic update agrees with the server.  If the slot list
    showed the server's view of the selected day and a [blockTimeSlot] of
    this doctor, whose date the server normalises to that day (as it does
    for the modal's [formatDate], by [normalize_date_format]), commits
    with no other write in between, the list after the optimistic update
    is the server's view after the write: the refetch that follows
    changes nothing. *)
Theorem optimistic_update_matches_refetch (env : Env) (i : SlotInput) (w : World)
    (s : ModalState) (d : instant) :
  selectedDate s = Some d ->
  currentDaySlots s = computeDaySlots browser doctor w d ->
  si_doctorId i = doctor_id doctor -> si_clinicId i = doctor_clinicId doctor ->
  normalize_date APP_TIMEZONE (si_date i) = Some (midnight APP_TIMEZONE (day_in browser d)) ->
  blockTimeSlotSchema_parse i = Some i ->
  env_session_clinic env = Some (doctor_clinicId doctor) -> doctor_clinicId doctor <> "" ->
  env_fault env = None ->
  currentDaySlots (fst (onBlockSlotResult i (fst (blockTimeSlot env i w)) s)) =
  computeDaySlots browser doctor (snd (blockTimeSlot env i w)) d.
Proof.
  intros Hsel Hsync Hd Hc Hn Hp Hs Hne Hf.
  rewrite <- Hc in Hs, Hne.
  rewrite (blockTimeSlot_run env i (midnight APP_TIMEZONE (day_in browser d)) w Hp Hs Hne Hn).
  rewrite Hf. simpl. rewrite Hsync. unfold computeDaySlots, slots_response.
  destruct (allPossibleSlotsForDay browser doctor d) as [all|]; [| done].
  unfold optimistic_slots. rewrite map_map. apply map_ext. intros x. simpl.
  unfold blocked_time_slots_route. simpl. rewrite <- Hd, <- Hc.
  case_bool_decide as Hx; f_equal.
  - subst x. destruct (si_block i) eqn:Eb; symmetry;
      [apply bool_decide_eq_true_2 | apply bool_decide_eq_false_2];
      rewrite slot_times_after, bool_decide_eq_true_2 by done; congruence.
  - apply bool_decide_ext. rewrite slot_times_after. by rewrite bool_decide_eq_false_2.
Qed.

(** C18: blocking a free slot of the selected day and unblocking it again
    (two committed [blockTimeSlot] calls whose date the server normalises
    to that day) restores the server's slot view of that day. *)
Theorem slot_block_unblock_roundtrip (env env2 : Env) (i : SlotInput) (w : World) (d : instant) :
  si_doctorId i = doctor_id doctor -> si_clinicId i = doctor_clinicId doctor ->
  normalize_date APP_TIMEZONE (si_date i) = Some (midnight APP_TIMEZONE (day_in browser d)) ->
  blockTimeSlotSchema_parse i = Some i ->
  env_session_clinic env = Some (doctor_clinicId doctor) ->
  env_session_clinic env2 = Some (doctor_clinicId doctor) -> doctor_clinicId doctor <> "" ->
  env_fault env = None -> env_fault env2 = None ->
  si_time i ∉ slots_response browser doctor w d ->
  computeDaySlots browser doctor
    (snd (blockTimeSlot env2 (with_slot_block i false)
            (snd (blockTimeSlot env (with_slot_block i true) w)))) d =
  computeDaySlots browser doctor w d.
Proof.
  intros Hd Hc Hn Hp Hs Hs2 Hne Hf Hf2 Hfree.
  rewrite <- Hc in Hs, Hs2, Hne.
  rewrite (blockTimeSlot_run env (with_slot_block i true) (midnight APP_TIMEZONE (day_in browser d)) w), Hf;
    [| by apply blockTimeSlotSchema_with_slot_block | done..].
  rewrite (blockTimeSlot_run env2 (with_slot_block i false) (midnight APP_TIMEZONE (day_in browser d))), Hf2;
    [| by apply blockTimeSlotSchema_with_slot_block | done..].
  unfold computeDaySlots. destruct (allPossibleSlotsForDay browser doctor d) as [all|]; [| done].
  apply map_ext. intros x. f_equal. apply bool_decide_ext.
  unfold slots_response, blocked_time_slots_route in *. simpl. rewrite <- Hd, <- Hc in *.
  pose proof (slot_times_after (with_slot_block i false)) as H1.
  pose proof (slot_times_after (with_slot_block i true)) as H2. simpl in H1, H2.
  rewrite H1. case_bool_decide as Hx; [subst x; split; [discriminate | done] |].
  by rewrite H2, bool_decide_eq_false_2.
Qed.
End Reconciliation.

(** ** Day-level state *)
(** C21: a slot toggle refreshes no day-level state: its reply and the timer
    it arms leave the blocked and ad-hoc days as they were and never fetch
    them again. *)
Theorem blockSlot_path_keeps_day_sets (browser : TimeZone) (doctor : Doctor)
    (i : SlotInput) (r : Thrown + SafeActionResult ToggleResult) (s : ModalState)
    (c : option instant) :
  keeps_day_sets s (onBlockSlotResult i r s) /\
  keeps_day_sets s (onRefreshTimer browser doctor c s).
Proof.
  unfold keeps_day_sets, onBlockSlotResult, on_action_error, onRefreshTimer, effect_slots,
    fetchBlockedTimeSlotsForSelectedDate.
  repeat case_match; simpl; repeat split; try done;
    rewrite ?elem_of_cons; try (intros [? | ?]; [discriminate | by eapply not_elem_of_nil]);
    by apply not_elem_of_nil.
Qed.


(** ** Witnesses *)

Lemma reachable_slots_from_window_witness :
  slots_from_window APP_TIMEZONE sample_doctor (currentDaySlots (sys_ui showing_saturday)) /\
  Forall (pending_item_ok APP_TIMEZONE sample_doctor) (sys_pending showing_saturday).
Proof.
  apply (reachable_slots_from_window APP_TIMEZONE sample_doctor
           (Some (doctor_clinicId sample_doctor)) no_overrides).
  apply (exec_script_star _ _ _ (fetching_saturday_script ++ [ChResolve 0])).
  vm_compute. reflexivity.
Defined.

Lemma fetchSlots_authoritative_witness :
  currentDaySlots (fetchSlots_resolved (sys_ui fetching_saturday) ["09:00"; "09:30"]
                     (Some (slots_response APP_TIMEZONE sample_doctor no_overrides
                              (midnight APP_TIMEZONE 19882)))) =
  computeDaySlots APP_TIMEZONE sample_doctor no_overrides (midnight APP_TIMEZONE 19882).
Proof.
  apply (fetchSlots_authoritative APP_TIMEZONE sample_doctor
           (Some (doctor_clinicId sample_doctor)) no_overrides no_overrides
           (sys_ui fetching_saturday) [] []).
  apply (exec_script_star _ _ _ fetching_saturday_script). vm_compute. reflexivity.
Defined.

Lemma optimistic_update_matches_refetch_witness :
  currentDaySlots (fst (onBlockSlotResult click_0900
                          (fst (blockTimeSlot admin_env click_0900 no_overrides))
                          (sys_ui showing_saturday))) =
  computeDaySlots APP_TIMEZONE sample_doctor (snd (blockTimeSlot admin_env click_0900 no_overrides))
                  (midnight APP_TIMEZONE 19882).
Proof. apply optimistic_update_matches_refetch; concrete. Defined.

Lemma slot_block_unblock_roundtrip_witness :
  computeDaySlots APP_TIMEZONE sample_doctor
    (snd (blockTimeSlot admin_env (with_slot_block click_0900 false)
            (snd (blockTimeSlot admin_env (with_slot_block click_0900 true) no_overrides))))
    (midnight APP_TIMEZONE 19882) =
  computeDaySlots APP_TIMEZONE sample_doctor no_overrides (midnight APP_TIMEZONE 19882).
Proof. apply slot_block_unblock_roundtrip; concrete. Defined.
