(* ===== verification/SlotFlags.v ===== *)
(** * The slot flags and what a click sends

    The modal keeps the blocked times twice: as the [isBlocked] flag of each
    entry of [currentDaySlots] (what a button shows) and as the set
    [blockedTimeSlots] (what [handleTimeSlotToggle] reads to choose between
    block and unblock, line 402).  Both are written together by the slot
    fetch (lines 300-310) and by the optimistic update (lines 187-209), and
    cleared together by the effect of lines 337-354.  [flags_inv] states
    that they agree on every shown slot, and that every slot call in flight
    carries an ["HH:mm"] label; it holds in every reachable state
    ([reachable_slot_flags_consistent]).  So a click on a slot button sends
    the opposite of what the button shows, with a time [blockTimeSlot]'s
    schema accepts ([click_sends_opposite_flag]).  The optimistic set
    update skips the empty label ([if (toggledTime)], line 199) while the
    list update does not: the agreement needs the labels to be non-empty,
    which the slot loop guarantees. *)

From stdpp Require Import base list gmap strings.
From Stdlib Require Import ZArith Lia.
From S2P Require Import Prelude Calendar Availability Store BlockDate SlotActions Modal Scheduler ModalTheorems.

Set Warnings "-clear-no-such-hyp".

(** Each shown slot is flagged exactly when its label is in the set. *)
Definition slot_flags_ok (s : ModalState) : Prop :=
  Forall (fun slot => slot_isBlocked slot = bool_decide (slot_time slot ∈ blockedTimeSlots s))
         (currentDaySlots s).

(** A slot call in flight carries an ["HH:mm"] label. *)
Definition pending_time_ok (p : Pending) : Prop :=
  match p with
  | CallBlockSlot i | ReplyBlockSlot i _ => is_HHmm_label (si_time i)
  | _ => True
  end.

Definition flags_inv (S : Sys) : Prop :=
  slot_flags_ok (sys_ui S) /\ Forall pending_time_ok (sys_pending S).

(** A callback keeps the flags in agreement and starts well-labelled work. *)
Definition upd_flags_ok (s : ModalState) (u : Upd) : Prop :=
  (slot_flags_ok s -> slot_flags_ok (fst u)) /\ Forall pending_time_ok (snd u).

(** Monday 2024-06-10 (day 19884) selected and its slots shown, for
    [sample_doctor] with no override. *)
Definition showing_monday : Sys :=
  run_from no_overrides
    [ChUser OpenModal; ChResolve 0; ChUser (SelectDate (Some (midnight APP_TIMEZONE 19884)));
     ChResolve 0].

Ltac flags_tac :=
  repeat match goal with
  | |- upd_flags_ok _ _ => split; simpl
  | |- Forall _ [] => constructor
  | |- Forall _ (_ :: _) => constructor; simpl
  | |- True => exact I
  | |- slot_flags_ok (set_currentDaySlots [] _) => constructor
  | |- slot_flags_ok (set_blockedTimeSlots _ (set_currentDaySlots [] _)) => constructor
  | |- slot_flags_ok _ -> slot_flags_ok _ =>
      first [intros _; constructor | intros ?; assumption]
  end.

Lemma upd_flags_same (s s' : ModalState) (u : Upd) :
  currentDaySlots s = currentDaySlots s' -> blockedTimeSlots s = blockedTimeSlots s' ->
  upd_flags_ok s' u -> upd_flags_ok s u.
Proof. unfold upd_flags_ok, slot_flags_ok. intros -> ->. done. Qed.

Lemma then_upd_flags (s : ModalState) (u : Upd) (f : ModalState -> Upd) :
  upd_flags_ok s u -> (forall s', upd_flags_ok s' (f s')) -> upd_flags_ok s (then_upd u f).
Proof.
  unfold then_upd. intros [H1 H2] Hf. destruct (f (fst u)) as [s' ps] eqn:E.
  pose proof (Hf (fst u)) as [H3 H4]. rewrite E in H3, H4. split; simpl in *.
  - auto.
  - by apply Forall_app.
Qed.

Lemma fetchSlots_resolved_flags (s : ModalState) (all : list string)
    (resp : option (list string)) :
  slot_flags_ok (fetchSlots_resolved s all resp).
Proof.
  unfold fetchSlots_resolved, slot_flags_ok. case_match; simpl; [| constructor].
  apply Forall_forall. intros slot Hin. apply list_elem_of_In, in_map_iff in Hin.
  by destruct Hin as (t & <- & _).
Qed.

(** The optimistic update of a non-empty label flips the flag and the set
    membership together. *)
Lemma optimistic_flags (t : string) (b : bool) (s : ModalState) :
  t <> "" -> slot_flags_ok s ->
  slot_flags_ok (set_blockedTimeSlots (optimistic_set t b (blockedTimeSlots s))
                   (set_currentDaySlots (optimistic_slots t b (currentDaySlots s)) s)).
Proof.
  unfold slot_flags_ok, optimistic_slots, optimistic_set. simpl. intros Ht Hf.
  rewrite bool_decide_eq_false_2 by done.
  apply Forall_map. eapply Forall_impl; [exact Hf |]. intros slot Hs.
  case_bool_decide as Heq; simpl.
  - subst t. destruct b; symmetry; apply bool_decide_eq_true_2 || apply bool_decide_eq_false_2;
      set_solver.
  - rewrite Hs. apply bool_decide_ext. destruct b; set_solver.
Qed.

Section Flags.
Variable browser : TimeZone.
Variable doctor : Doctor.
Variable session : option string.

Lemma effect_slots_flags (s : ModalState) : upd_flags_ok s (effect_slots browser doctor s).
Proof.
  unfold effect_slots, fetchBlockedTimeSlotsForSelectedDate.
  repeat case_match; flags_tac.
Qed.

Lemma fetchBlockedAndAdHocDates_flags (s : ModalState) :
  upd_flags_ok s (fetchBlockedAndAdHocDates browser doctor s).
Proof.
  unfold fetchBlockedAndAdHocDates, set_day_sets_and_render. case_match.
  - eapply upd_flags_same; [| | apply effect_slots_flags]; done.
  - flags_tac.
Qed.

Lemma fetchDates_resolved_flags (s : ModalState) (resp : option (list Z * list Z)) :
  upd_flags_ok s (fetchDates_resolved browser doctor s resp).
Proof.
  unfold fetchDates_resolved, set_day_sets_and_render. repeat case_match; subst.
  - eapply upd_flags_same; [| | apply effect_slots_flags]; done.
  - flags_tac.
Qed.

Lemma onRefreshTimer_flags (c : option instant) (s : ModalState) :
  upd_flags_ok s (onRefreshTimer browser doctor c s).
Proof.
  unfold onRefreshTimer. case_match; [| flags_tac].
  eapply upd_flags_same; [| | apply effect_slots_flags]; done.
Qed.

Lemma reply_flags (r : Thrown + SafeActionResult ToggleResult) (i : SlotInput) (s : ModalState) :
  is_HHmm_label (si_time i) ->
  upd_flags_ok s (onBlockDateResult browser doctor r s) /\
  upd_flags_ok s (onAdHocResult browser doctor r s) /\
  upd_flags_ok s (onBlockSlotResult i r s).
Proof.
  intros Hi. unfold onBlockDateResult, onAdHocResult, onBlockSlotResult, on_action_error.
  split; [| split]; repeat case_match;
    try (apply then_upd_flags;
         [eapply upd_flags_same; [| | apply fetchBlockedAndAdHocDates_flags]; done
         | intros; flags_tac]);
    flags_tac.
  all: intros Hf; apply (optimistic_flags _ _ (add_toast _ s));
    [by apply is_HHmm_label_nonempty | done].
Qed.
(** A slot button can only be clicked on a label of the window. *)
Lemma click_label (t : string) (s : ModalState) (ps : list Pending) :
  event_enabled browser doctor (ClickSlot t) s ps = true ->
  slots_from_window browser doctor (currentDaySlots s) ->
  exists slot, slot ∈ currentDaySlots s /\ slot_time slot = t /\ is_HHmm_label t.
Proof.
  simpl. intros He Hw. apply andb_prop in He as [_ He].
  apply existsb_exists in He as (slot & Hin & Ht). apply bool_decide_eq_true in Ht.
  exists slot. split; [by apply list_elem_of_In |]. split; [done |].
  destruct Hw as [Hnil | (d & all & Ha & Hm)]; [rewrite Hnil in Hin; destruct Hin |].
  apply allPossibleSlotsForDay_HHmm in Ha. rewrite <- Hm in Ha.
  rewrite Forall_forall in Ha. subst t.
  apply Ha, list_elem_of_In, in_map, Hin.
Qed.

Lemma user_event_flags (e : UserEvent) (s : ModalState) (ps : list Pending) :
  event_enabled browser doctor e s ps = true ->
  slots_from_window browser doctor (currentDaySlots s) ->
  upd_flags_ok s (user_event browser doctor e s).
Proof.
  intros He Hw. destruct e; simpl.
  - unfold effect_open. simpl.
    eapply upd_flags_same; [| | apply fetchBlockedAndAdHocDates_flags]; done.
  - unfold effect_open. simpl. pose proof (effect_slots_flags
      (set_currentDaySlots [] (set_blockedTimeSlots ∅ (set_reason "" (set_selected None
         (set_open false s)))))) as [H1 H2].
    split; [intros _; apply H1; constructor | done].
  - eapply upd_flags_same; [| | apply effect_slots_flags]; done.
  - flags_tac.
  - unfold handleBlockToggle. case_match; flags_tac.
  - unfold handleAdHocToggle. case_match; flags_tac.
  - destruct (click_label _ _ _ He Hw) as (_ & _ & _ & Ht).
    unfold handleTimeSlotToggle. case_match; flags_tac. exact Ht.
Qed.

Lemma apply_upd_flags (w : World) (rest : list Pending) (s : ModalState) (u : Upd) :
  slot_flags_ok s -> Forall pending_time_ok rest -> upd_flags_ok s u ->
  flags_inv (apply_upd w rest u).
Proof. intros Hf Hr [H1 H2]. split; simpl; [auto | by apply Forall_app]. Qed.

Lemma sys_step_flags (S S' : Sys) :
  sys_step browser doctor session S S' -> sys_inv browser doctor S -> flags_inv S -> flags_inv S'.
Proof.
  intros Hs [Hw _] [Hf Hp]. destruct Hs;
    try (apply Forall_middle in Hp as [Hx Hp]; simpl in Hx).
  - apply (apply_upd_flags _ _ s); [done | done | by eapply user_event_flags].
  - split; [done | by apply Forall_middle_insert].
  - split; [done | by apply Forall_middle_insert].
  - split; [done | by apply Forall_middle_insert].
  - apply (apply_upd_flags _ _ s); [done | done |].
    apply (reply_flags r (Build_SlotInput "" "" "" "00:00" false None)). by exists 0%Z.
  - apply (apply_upd_flags _ _ s); [done | done |].
    apply (reply_flags r (Build_SlotInput "" "" "" "00:00" false None)). by exists 0%Z.
  - apply (apply_upd_flags _ _ s); [done | done | by apply reply_flags].
  - apply (apply_upd_flags _ _ s); [done | done | apply fetchDates_resolved_flags].
  - apply (apply_upd_flags _ _ s); [done | done | apply fetchDates_resolved_flags].
  - split; [apply fetchSlots_resolved_flags | done].
  - split; [apply fetchSlots_resolved_flags | done].
  - apply (apply_upd_flags _ _ s); [done | done | apply onRefreshTimer_flags].
Qed.

Lemma reachable_flags (w0 : World) (S : Sys) :
  reachable browser doctor session w0 S -> sys_inv browser doctor S /\ flags_inv S.
Proof.
  intros H. apply (star_invariant (sys_step browser doctor session) (fun S => sys_inv browser doctor S /\ flags_inv S)
                                   (Build_Sys w0 initial_state [])); [| | exact H].
  - intros x y [Hx Hf] Hs. split; [by eapply sys_step_inv | by eapply sys_step_flags].
  - split; [split; [by left | constructor] | split; constructor].
Qed.
(** C12: in every reachable state each slot button shows blocked exactly
    when its label is in [blockedTimeSlots], every button carries an
    ["HH:mm"] label, and every slot call or reply in flight carries one;
    the two copies of the blocked times never drift apart, whatever order
    the fetches, replies and timers complete in. *)
Theorem reachable_slot_flags_consistent (w0 : World) (S : Sys) :
  reachable browser doctor session w0 S ->
  slot_flags_ok (sys_ui S) /\
  Forall (fun slot => is_HHmm_label (slot_time slot)) (currentDaySlots (sys_ui S)) /\
  Forall pending_time_ok (sys_pending S).
Proof.
  intros Hr. destruct (reachable_flags _ _ Hr) as [[Hw _] [Hf Hp]].
  split; [done | split; [| done]].
  destruct Hw as [-> | (d & all & Ha & Hm)]; [constructor |].
  apply allPossibleSlotsForDay_HHmm in Ha. rewrite <- Hm in Ha. by apply (Forall_map slot_time) in Ha.
Qed.

(** C11: a click on an enabled slot button of a reachable state sends one
    [blockTimeSlot] call for that label, asking for the opposite of what
    the button shows ([!blockedTimeSlots.has(time)], line 402), with a
    [time] the action's schema accepts. *)
Theorem click_sends_opposite_flag (w0 : World) (S : Sys) (t : string) :
  reachable browser doctor session w0 S ->
  event_enabled browser doctor (ClickSlot t) (sys_ui S) (sys_pending S) = true ->
  exists slot i,
    slot ∈ currentDaySlots (sys_ui S) /\ slot_time slot = t /\
    user_event browser doctor (ClickSlot t) (sys_ui S) = (sys_ui S, [CallBlockSlot i]) /\
    si_time i = t /\ si_block i = negb (slot_isBlocked slot) /\ is_HHmm_label (si_time i).
Proof.
  intros Hr He. destruct (reachable_flags _ _ Hr) as [[Hw _] [Hf _]].
  destruct (click_label _ _ _ He Hw) as (slot & Hin & Ht & Hl).
  assert (Hd : exists d, selectedDate (sys_ui S) = Some d).
  { simpl in He. unfold isSelectedDayManagable in He.
    destruct (selectedDate (sys_ui S)) as [d|]; [by exists d | by rewrite !andb_false_r in He]. }
  destruct Hd as [d Hd]. simpl. unfold handleTimeSlotToggle. rewrite Hd.
  eexists slot, _. split; [done | split; [done | split; [reflexivity |]]]. simpl.
  split; [done | split; [| by subst t]].
  unfold slot_flags_ok in Hf. rewrite Forall_forall in Hf. rewrite (Hf slot Hin). by subst t.
Qed.
End Flags.

(** ** Witnesses *)

Lemma reachable_slot_flags_consistent_witness :
  slot_flags_ok (sys_ui showing_monday) /\
  Forall (fun slot => is_HHmm_label (slot_time slot)) (currentDaySlots (sys_ui showing_monday)) /\
  Forall pending_time_ok (sys_pending showing_monday).
Proof.
  apply (reachable_slot_flags_consistent APP_TIMEZONE sample_doctor
           (Some (doctor_clinicId sample_doctor)) no_overrides).
  apply (exec_script_star _ _ _
           [ChUser OpenModal; ChResolve 0; ChUser (SelectDate (Some (midnight APP_TIMEZONE 19884)));
            ChResolve 0]).
  vm_compute. reflexivity.
Defined.

Lemma click_sends_opposite_flag_witness :
  exists slot i,
    slot ∈ currentDaySlots (sys_ui showing_monday) /\ slot_time slot = "09:00" /\
    user_event APP_TIMEZONE sample_doctor (ClickSlot "09:00") (sys_ui showing_monday) =
      (sys_ui showing_monday, [CallBlockSlot i]) /\
    si_time i = "09:00" /\ si_block i = negb (slot_isBlocked slot) /\ is_HHmm_label (si_time i).
Proof.
  apply (click_sends_opposite_flag APP_TIMEZONE sample_doctor
           (Some (doctor_clinicId sample_doctor)) no_overrides).
  - apply (exec_script_star _ _ _
             [ChUser OpenModal; ChResolve 0; ChUser (SelectDate (Some (midnight APP_TIMEZONE 19884)));
              ChResolve 0]).
    vm_compute. reflexivity.
  - vm_compute. reflexivity.
Defined.
