(* ===== verification/Scenarios.v ===== *)
(** * Races of the modal against the server

    [slot_fetch_lands_on_blocked_day]: in every state where a slot fetch
    of the selected day is in flight after the day got blocked, the fetch
    lands and fills the slot column of the blocked day; its witness reaches
    such a state.  Then concrete runs, scripts of [Choice]s evaluated by
    [vm_compute] and turned into reachable states by
    [exec_script_witness]: the end-to-end example of the specification (a
    Saturday made manageable by an ad-hoc grant), a rapid reselection whose
    stale slot response lands last (no fetch is ever cancelled), and a
    browser in UTC that cannot unblock the day it blocked.  The doctor is [sample_doctor]
    (Monday to Friday, 09:00 to 10:00); day 19882 is Saturday 2024-06-08 and
    day 19884 Monday 2024-06-10. *)

From stdpp Require Import base list gmap strings.
From Stdlib Require Import ZArith Lia.
From S2P Require Import Prelude Calendar Availability Table Store BlockDate SlotActions Modal ModalView Scheduler.

Open Scope Z_scope.

Definition clinic : string := doctor_clinicId sample_doctor.

Definition empty_db : Db :=
  {| blockedDatesTable := []; adHocAvailabilityTable := []; blockedTimeSlotsTable := [] |}.

Definition empty_world : World := {| db := empty_db; revalidated := [] |}.

(** A world in which 09:00 of Monday 2024-06-10 is blocked. *)
Definition monday_slot_world : World :=
  {| db := {| blockedDatesTable := []; adHocAvailabilityTable := [];
              blockedTimeSlotsTable :=
                [{| sr_clinicId := clinic; sr_doctorId := doctor_id sample_doctor;
                    sr_date := midnight APP_TIMEZONE 19884; sr_time := "09:00";
                    sr_reason := None; sr_createdAt := 0; sr_updatedAt := 0 |}] |};
     revalidated := [] |}.

(** The server, with the administrator's session on the doctor's clinic. *)
Definition server : Env := {| env_session_clinic := Some clinic; env_fault := None; env_now := 0 |}.

Definition UTC : TimeZone := {| tz_offset := 0 |}.

Definition saturday : instant := midnight APP_TIMEZONE 19882.
Definition monday : instant := midnight APP_TIMEZONE 19884.
Definition tuesday : instant := midnight APP_TIMEZONE 19885.

(** Open the dialog and let the day sets arrive. *)
Definition open_script : list Choice := [ChUser OpenModal; ChResolve 0].

Definition select_saturday : list Choice := open_script ++ [ChUser (SelectDate (Some saturday))].

Definition e2e_select : list Choice := select_saturday ++ [ChResolve 0].

Definition e2e_grant : list Choice :=
  [ChUser ClickAdHoc; ChServer server 0; ChResolve 0; ChResolve 0; ChResolve 0].

(** Select Monday, then Tuesday; Tuesday's slots arrive first. *)
Definition reselection_script : list Choice :=
  open_script ++ [ChUser (SelectDate (Some monday)); ChUser (SelectDate (Some tuesday));
                  ChResolve 1; ChResolve 0].

(** Select Monday and block it while its slot fetch is in flight, up to
    the moment the day sets arrive with Monday blocked, Monday's slot fetch
    still in flight. *)
Definition block_race_prefix : list Choice :=
  open_script ++ [ChUser (SelectDate (Some monday)); ChUser ClickBlockDay; ChServer server 1;
                  ChResolve 1; ChResolve 1].

(** In UTC: block the cell of the 10th, then use the "unblock" button that
    appears on the 11th. *)
Definition utc_script : list Choice :=
  open_script ++
  [ChUser (SelectDate (Some (midnight UTC 19884))); ChResolve 0; ChUser ClickBlockDay;
   ChServer server 0; ChResolve 0; ChResolve 0; ChResolve 0;
   ChUser (SelectDate (Some (midnight UTC 19885))); ChUser ClickBlockDay;
   ChServer server 0; ChResolve 0; ChResolve 0].

(** ** The runs *)

Ltac run_script :=
  vm_compute; repeat split; try reflexivity; try (intros ?; discriminate).

(** The end-to-end example of the specification.  With no ad-hoc grant
    a Saturday is default-unavailable and not manageable; after the
    administrator grants it, the day is manageable and shows the ticks
    09:00 and 09:30 as enabled buttons. *)
Example spec_e2e_saturday_adhoc :
  exists S1 S2,
    reachable APP_TIMEZONE sample_doctor (Some clinic) empty_world S1 /\
    star (sys_step APP_TIMEZONE sample_doctor (Some clinic)) S1 S2 /\
    (selectedDate (sys_ui S1) = Some saturday /\
     isDefaultUnavailable APP_TIMEZONE sample_doctor (sys_ui S1) saturday = true /\
     isSelectedDayManagable APP_TIMEZONE sample_doctor (sys_ui S1) = false) /\
    (sys_pending S2 = [] /\ selectedDate (sys_ui S2) = Some saturday /\
     isSelectedDayManagable APP_TIMEZONE sample_doctor (sys_ui S2) = true /\
     map slot_time (currentDaySlots (sys_ui S2)) = ["09:00"; "09:30"] /\
     Forall (fun b => btn_disabled b = false)
       (match slot_panel APP_TIMEZONE sample_doctor (sys_ui S2) (sys_pending S2) with
        | PanelGrid bs => bs
        | _ => []
        end)).
Proof.
  apply (exec_script_witness2 _ _ _ _ e2e_select e2e_grant). vm_compute.
  repeat split; try reflexivity; repeat constructor.
Qed.

(** Rapid reselection.  The slot fetch of an earlier selection may
    resolve last: the dialog settles, nothing in flight, on Tuesday with
    Monday's slot flags: a slot is shown blocked that the server does not
    list for Tuesday. *)
Example stale_reselection_overwrites :
  exists S, reachable APP_TIMEZONE sample_doctor (Some clinic) monday_slot_world S /\
    sys_pending S = [] /\ selectedDate (sys_ui S) = Some tuesday /\
    existsb (fun slot => slot_isBlocked slot &&
                         negb (bool_decide (slot_time slot ∈
                                 slots_response APP_TIMEZONE sample_doctor (sys_world S) tuesday)))
            (currentDaySlots (sys_ui S)) = true.
Proof. apply (exec_script_witness _ _ _ _ reselection_script). run_script. Qed.

(** In a browser on UTC the administrator blocks the 10th from its
    cell; the calendar paints the 10th red, but the "unblock" button shows
    on the 11th.  Pressing it reports "Dia desbloqueado com sucesso!" while
    the server still blocks the 10th. *)
Example utc_browser_unblock_misses_day :
  exists S, reachable UTC sample_doctor (Some clinic) empty_world S /\
    sys_pending S = [] /\
    last (toasts (sys_ui S)) = Some (ToastSuccess "Dia desbloqueado com sucesso!") /\
    fst (blocked_dates_route (doctor_id sample_doctor) clinic (db (sys_world S))) = [19884] /\
    mod_blocked (day_modifiers UTC sample_doctor (sys_ui S) (midnight UTC 19884)) = true.
Proof. apply (exec_script_witness _ _ _ _ utc_script). run_script. Qed.

(** ** A slot fetch that lands on a blocked day *)

Section Blocked.
Variable browser : TimeZone.
Variable doctor : Doctor.

Lemma blocked_not_managable (s : ModalState) (d : instant) :
  selectedDate s = Some d -> isDateBlocked s d = true ->
  isSelectedDayManagable browser doctor s = false.
Proof. intros Hs Hb. unfold isSelectedDayManagable. rewrite Hs, Hb. apply andb_false_r. Qed.

(** The slot fetch's callback keeps the selection and the day sets. *)
Lemma fetchSlots_resolved_keeps_day (s : ModalState) (all : list string) (resp : option (list string)) :
  selectedDate (fetchSlots_resolved s all resp) = selectedDate s /\
  blockedDates (fetchSlots_resolved s all resp) = blockedDates s /\
  adHocAvailableDates (fetchSlots_resolved s all resp) = adHocAvailableDates s.
Proof. by destruct resp. Qed.

Lemma isDateBlocked_same_sets (s s' : ModalState) (d : instant) :
  blockedDates s' = blockedDates s -> isDateBlocked s' d = isDateBlocked s d.
Proof. intros Hb. unfold isDateBlocked. by rewrite Hb. Qed.
End Blocked.

(** C20: lines 298-315 set the fetched slots without looking at the day
    sets, against the specification's rule (4.3) that a blocked day shows
    no slot.  In any state whose selected day is blocked while a slot
    fetch of that day is in flight, the fetch can complete and the slot
    column then shows the whole grid of the window, every button disabled,
    instead of the whole-day message, the day still selected and blocked.
    The witness reaches such a state by blocking the selected day before
    its slot fetch returns. *)
Theorem slot_fetch_lands_on_blocked_day (browser : TimeZone) (doctor : Doctor)
    (session : option string) (S : Sys) (n : nat) (d : instant) (all : list string)
    (l : list Pending) :
  drop n (sys_pending S) = FetchSlots d all :: l ->
  selectedDate (sys_ui S) = Some d -> isDateBlocked (sys_ui S) d = true -> all <> [] ->
  exists S', sys_step browser doctor session S S' /\
    selectedDate (sys_ui S') = Some d /\ isDateBlocked (sys_ui S') d = true /\
    exists bs, slot_panel browser doctor (sys_ui S') (sys_pending S') = PanelGrid bs /\
               map btn_time bs = all /\ Forall (fun b => btn_disabled b = true) bs.
Proof.
  destruct S as [w s ps]. cbn [sys_pending sys_ui]. intros Hd Hs Hb Hall.
  set (s' := fetchSlots_resolved s all (Some (slots_response browser doctor w d))).
  destruct (fetchSlots_resolved_keeps_day s all (Some (slots_response browser doctor w d)))
    as (Hs' & Hb' & _).
  fold s' in Hs', Hb'. rewrite Hs in Hs'.
  assert (Hb2 : isDateBlocked s' d = true) by (by rewrite (isDateBlocked_same_sets s s' d Hb')).
  exists (Build_Sys w s' (take n ps ++ l)). split.
  { apply (exec_choice_sound browser doctor session (ChResolve n)). simpl. by rewrite Hd. }
  cbn [sys_ui sys_pending]. split_and!; [done | done |].
  unfold slot_panel. rewrite Hs'.
  destruct all as [|t all']; [done |]. simpl.
  eexists. split; [reflexivity |]. split.
  - rewrite map_map. simpl. f_equal. rewrite map_map. simpl. apply map_id.
  - apply List.Forall_forall. intros b [<- | (x & <- & _)%in_map_iff]; simpl;
      by rewrite (blocked_not_managable browser doctor s' d Hs' Hb2).
Qed.

(** ** Witnesses *)

(** Blocking the selected Monday before its slot fetch returns reaches
    such a state. *)
Lemma slot_fetch_lands_on_blocked_day_witness :
  exists S, reachable APP_TIMEZONE sample_doctor (Some clinic) empty_world S /\
    exists S', sys_step APP_TIMEZONE sample_doctor (Some clinic) S S' /\
    selectedDate (sys_ui S') = Some monday /\ isDateBlocked (sys_ui S') monday = true /\
    exists bs, slot_panel APP_TIMEZONE sample_doctor (sys_ui S') (sys_pending S') = PanelGrid bs /\
               map btn_time bs = ["09:00"; "09:30"] /\ Forall (fun b => btn_disabled b = true) bs.
Proof.
  destruct (exec_script APP_TIMEZONE sample_doctor (Some clinic) block_race_prefix
              (Build_Sys empty_world initial_state [])) as [S|] eqn:E;
    [| vm_compute in E; discriminate].
  exists S. split; [exact (exec_script_star _ _ _ _ _ _ E) |].
  vm_compute in E. injection E as <-.
  apply (slot_fetch_lands_on_blocked_day APP_TIMEZONE sample_doctor (Some clinic) _ 0 monday
           ["09:00"; "09:30"] []); vm_compute; first [reflexivity | discriminate].
Defined.
