(* ===== verification/AppointmentDetails.v ===== *)
(** * [getAppointmentDetailsAction] (src/actions/get-appointment-details)

    The server action selects ten columns from [appointmentsTable] inner
    joined with [patientsTable], [doctorsTable] and [clinicsTable] on the
    appointment's foreign keys, keeps the rows whose appointment [id] is the
    argument, takes one ([limit(1)]) and returns [appointment[0] || null];
    an exception of the query is logged and turns into [null].

    The joins are nested loops in table order ([inner_join]); SQL promises no
    order, and [getAppointmentDetails_unique] shows that under the primary
    keys of the four tables the order cannot matter: the answer is the one
    joined row of the appointment. *)

From stdpp Require Import base list strings.
From Stdlib Require Import ZArith Lia.
From S2P Require Import Prelude Calendar Store.

Set Warnings "-clear-no-such-hyp".
Open Scope Z_scope.

Inductive Modality := Remoto | Presencial.

Record AppointmentRow := {
  ap_id : string;
  ap_date : instant;
  ap_appointmentPriceInCents : Z;
  ap_modality : Modality;
  ap_patientId : string;
  ap_doctorId : string;
  ap_clinicId : string
}.

Record PatientRow := { pt_id : string; pt_name : string; pt_email : string }.

Record DoctorRow := { dc_id : string; dc_name : string; dc_specialty : string }.

Record ClinicRow := { cl_id : string; cl_phoneNumber : option string; cl_address : option string }.

Record Tables := {
  appointmentsTable : list AppointmentRow;
  patientsTable : list PatientRow;
  doctorsTable : list DoctorRow;
  clinicsTable : list ClinicRow
}.

(** [interface AppointmentDetails] (lines 14-26). *)
Record AppointmentDetails := {
  id : string;
  date : instant;
  appointmentPriceInCents : Z;
  patientName : string;
  patientEmail : string;
  doctorName : string;
  doctorSpecialty : string;
  modality : Modality;
  clinicPhoneNumber : option string;
  clinicAddress : option string
}.

(** [.innerJoin(right, on)]: every pair of a left and a right row that
    satisfies [on], in nested-loop order. *)
Definition inner_join {A B} (on : A -> B -> bool) (l : list A) (r : list B) : list (A * B) :=
  flat_map (fun a => map (pair a) (List.filter (on a) r)) l.

Abbreviation Joined := (AppointmentRow * PatientRow * DoctorRow * ClinicRow)%type.

(** The [from] and the three joins of lines 45-51. *)
Definition joined_rows (t : Tables) : list Joined :=
  inner_join (fun ap c => bool_decide (ap_clinicId ap.1.1 = cl_id c))
    (inner_join (fun ap d => bool_decide (ap_doctorId ap.1 = dc_id d))
       (inner_join (fun a p => bool_decide (ap_patientId a = pt_id p))
          (appointmentsTable t) (patientsTable t))
       (doctorsTable t))
    (clinicsTable t).

(** The [select] of lines 33-44. *)
Definition select_details (j : Joined) : AppointmentDetails :=
  let '(a, p, d, c) := j in
  {| id := ap_id a; date := ap_date a;
     appointmentPriceInCents := ap_appointmentPriceInCents a;
     patientName := pt_name p; patientEmail := pt_email p;
     doctorName := dc_name d; doctorSpecialty := dc_specialty d;
     modality := ap_modality a;
     clinicPhoneNumber := cl_phoneNumber c; clinicAddress := cl_address c |}.

(** [getAppointmentDetailsAction(appointmentId)]; [fault] is the exception
    the query raises, if any. *)
Definition getAppointmentDetailsAction (fault : option Thrown) (t : Tables)
    (appointmentId : string) : option AppointmentDetails :=
  match fault with
  | Some _ => None
  | None =>
      let appointment :=
        take 1 (map select_details
                  (List.filter (fun j => bool_decide (ap_id j.1.1.1 = appointmentId))
                     (joined_rows t))) in
      head appointment
  end.

(** An appointment with its patient, doctor and clinic. *)
Definition joins (t : Tables) (j : Joined) : Prop :=
  let '(a, p, d, c) := j in
  In a (appointmentsTable t) /\ In p (patientsTable t) /\ In d (doctorsTable t) /\
  In c (clinicsTable t) /\
  ap_patientId a = pt_id p /\ ap_doctorId a = dc_id d /\ ap_clinicId a = cl_id c.

(** The primary keys of the four tables. *)
Definition primary_keys (t : Tables) : Prop :=
  NoDup (map ap_id (appointmentsTable t)) /\ NoDup (map pt_id (patientsTable t)) /\
  NoDup (map dc_id (doctorsTable t)) /\ NoDup (map cl_id (clinicsTable t)).

(** One appointment with its patient, doctor and clinic, and an orphan
    appointment whose clinic row is missing. *)
Definition example_appointment : AppointmentRow :=
  {| ap_id := "a1"; ap_date := 1717999200; ap_appointmentPriceInCents := 15000;
     ap_modality := Presencial; ap_patientId := "p1"; ap_doctorId := "d1"; ap_clinicId := "c1" |}.

Definition orphan_appointment : AppointmentRow :=
  {| ap_id := "a2"; ap_date := 1718002800; ap_appointmentPriceInCents := 9000;
     ap_modality := Remoto; ap_patientId := "p1"; ap_doctorId := "d1"; ap_clinicId := "c9" |}.

Definition example_patient : PatientRow :=
  {| pt_id := "p1"; pt_name := "Maria"; pt_email := "maria@example.com" |}.

Definition example_doctor : DoctorRow :=
  {| dc_id := "d1"; dc_name := "Dra. Ana"; dc_specialty := "Cardiologia" |}.

Definition example_clinic : ClinicRow :=
  {| cl_id := "c1"; cl_phoneNumber := Some "8533330000"; cl_address := None |}.

Definition example_tables : Tables :=
  {| appointmentsTable := [example_appointment; orphan_appointment];
     patientsTable := [example_patient]; doctorsTable := [example_doctor];
     clinicsTable := [example_clinic] |}.

(** ** Lemmas *)
Lemma In_inner_join {A B} (on : A -> B -> bool) (l : list A) (r : list B) (a : A) (b : B) :
  In (a, b) (inner_join on l r) <-> In a l /\ In b r /\ on a b = true.
Proof.
  unfold inner_join. rewrite in_flat_map. split.
  - intros (a' & Ha & Hin). apply in_map_iff in Hin as (b' & [= <- <-] & Hb).
    apply filter_In in Hb. tauto.
  - intros (Ha & Hb & Ho). exists a. split; [done |].
    apply in_map_iff. exists b. split; [done |]. by apply filter_In.
Qed.

Lemma In_joined_rows (t : Tables) (j : Joined) : In j (joined_rows t) <-> joins t j.
Proof.
  destruct j as [[[a p] d] c]. unfold joined_rows, joins.
  rewrite !In_inner_join, !bool_decide_eq_true. simpl. tauto.
Qed.

Lemma In_filter_id (t : Tables) (aid : string) (j : Joined) :
  In j (List.filter (fun j => bool_decide (ap_id j.1.1.1 = aid)) (joined_rows t)) <->
  joins t j /\ ap_id j.1.1.1 = aid.
Proof. rewrite filter_In, In_joined_rows, bool_decide_eq_true. done. Qed.

(** Under the primary keys an appointment has one joined row. *)
Lemma joins_unique (t : Tables) (j j' : Joined) :
  primary_keys t -> joins t j -> joins t j' -> ap_id j.1.1.1 = ap_id j'.1.1.1 -> j = j'.
Proof.
  destruct j as [[[a p] d] c], j' as [[[a' p'] d'] c']. simpl.
  intros (Ha & Hp & Hd & Hc) (Ia & Ip & Id & Ic & Fp & Fd & Fc) (Ia' & Ip' & Id' & Ic' & Fp' & Fd' & Fc') Hid.
  assert (a = a') as <- by by eapply NoDup_map_in_eq.
  assert (p = p') as <- by (eapply NoDup_map_in_eq; [exact Hp | done | done | congruence]).
  assert (d = d') as <- by (eapply NoDup_map_in_eq; [exact Hd | done | done | congruence]).
  assert (c = c') as <- by (eapply NoDup_map_in_eq; [exact Hc | done | done | congruence]).
  done.
Qed.

(** C32: a non-null answer is the selection of a joined row of the
    requested appointment: its own patient, doctor and clinic, and no query
    error. *)
Theorem getAppointmentDetails_sound (fault : option Thrown) (t : Tables) (aid : string)
    (r : AppointmentDetails) :
  getAppointmentDetailsAction fault t aid = Some r ->
  fault = None /\ exists j, joins t j /\ ap_id j.1.1.1 = aid /\ r = select_details j.
Proof.
  destruct fault; [discriminate |]. simpl.
  destruct (List.filter _ (joined_rows t)) as [|j l] eqn:Hf; [discriminate |].
  intros [= <-]. split; [done |]. exists j.
  assert (In j (j :: l)) as Hj by by left. rewrite <- Hf, In_filter_id in Hj. tauto.
Qed.

(** C33: the answer is null exactly when the query throws or no
    appointment of that id has its patient, doctor and clinic rows. *)
Theorem getAppointmentDetails_null (fault : option Thrown) (t : Tables) (aid : string) :
  getAppointmentDetailsAction fault t aid = None <->
  fault <> None \/ ~ exists j, joins t j /\ ap_id j.1.1.1 = aid.
Proof.
  destruct fault; simpl; [split; [by left | done] |].
  destruct (List.filter _ (joined_rows t)) as [|j l] eqn:Hf; simpl.
  - split; [intros _; right | done]. intros (j & Hj). rewrite <- In_filter_id, Hf in Hj. done.
  - split; [discriminate |]. intros [[] | Hn]; [done |]. exfalso. apply Hn. exists j.
    rewrite <- In_filter_id, Hf. by left.
Qed.

(** C31: under the primary keys the nested-loop order does not matter: the
    answer is the selection of the one joined row of the appointment. *)
Theorem getAppointmentDetails_unique (t : Tables) (aid : string) (j : Joined) :
  primary_keys t -> joins t j -> ap_id j.1.1.1 = aid ->
  getAppointmentDetailsAction None t aid = Some (select_details j).
Proof.
  intros Hk Hj Hid. simpl.
  pose proof (proj2 (In_filter_id t aid j) (conj Hj Hid)) as Hin.
  destruct (List.filter _ (joined_rows t)) as [|j' l] eqn:Hf; [done |]. simpl.
  assert (In j' (j' :: l)) as Hj' by by left. rewrite <- Hf, In_filter_id in Hj'.
  destruct Hj' as [Hj' Hid'].
  replace j' with j; [done |]. apply (joins_unique t); [done.. | congruence].
Qed.

(** ** Witnesses *)
Lemma getAppointmentDetails_sound_witness :
  None = @None Thrown /\
  exists j, joins example_tables j /\ ap_id j.1.1.1 = "a1" /\
    select_details (example_appointment, example_patient, example_doctor, example_clinic) =
    select_details j.
Proof. apply getAppointmentDetails_sound. vm_compute. reflexivity. Defined.

Lemma getAppointmentDetails_unique_witness :
  getAppointmentDetailsAction None example_tables "a1" =
  Some (select_details (example_appointment, example_patient, example_doctor, example_clinic)).
Proof.
  apply getAppointmentDetails_unique.
  - repeat split; concrete.
  - vm_compute. repeat split; first [left; reflexivity | reflexivity].
  - reflexivity.
Defined.
